(** * facebook_api_wrapper: rate-limited collection of Graph API records

    A shallow embedding of [src/facebook_api_wrapper.py] (classes
    [SocialMediaApi] and [FbApi]) and the properties of its retry wrappers,
    its paginating collectors and its record normaliser.

    Python values are an inductive type [value]; a [dict] is an association
    list in insertion order.  Exceptions, the remote service, the clock
    ([time.sleep]), [logging], [print] and the export files are explicit: a
    computation is a function from a [world] to an [outcome] and a new
    [world].  The one list object that the source shares between a closure
    and its caller ([elements]) lives in a heap of list objects, so that a
    returned list is a reference and not a copy. *)

From Stdlib Require Import List ZArith String Ascii Bool Lia.
Import ListNotations.

Local Open Scope string_scope.
Local Open Scope list_scope.
Local Open Scope Z_scope.

(** ** Python values *)

(** A [datetime.datetime] / [pandas.Timestamp]: the wall-clock reading in
    seconds since 1970-01-01T00:00:00 and the UTC offset in seconds of its
    [tzinfo] ([None] for a naive value). *)
Record datetime : Type := mk_datetime { wall : Z; tzoffset : option Z }.

#[warnings="-register-all"]
Inductive value : Type :=
| VNone
| VBool (b : bool)
| VInt (z : Z)
| VStr (s : string)
| VTime (t : datetime)
| VList (l : list value)
| VDict (d : list (string * value)).

Definition dict : Type := list (string * value).

Inductive exn : Type :=
| KeyError
| TypeError
| AttributeError
| IndexError
| ValueError
| GraphAPIError (code : value)
| OtherError (name : string).

(** The result of running Python code: a value, a raised exception, or the
    model's page-fetch budget running out ([OutOfFuel] is no Python
    behaviour). *)
Inductive outcome (A : Type) : Type :=
| Val (a : A)
| Exc (e : exn)
| OutOfFuel.
Arguments Val {A} a.
Arguments Exc {A} e.
Arguments OutOfFuel {A}.

Definition obind {A B : Type} (o : outcome A) (k : A -> outcome B) : outcome B :=
  match o with
  | Val a => k a
  | Exc e => Exc e
  | OutOfFuel => OutOfFuel
  end.

Notation "x <~ e ;; k" := (obind e (fun x => k))
  (at level 61, e at next level, right associativity).

Fixpoint omap {A B : Type} (f : A -> outcome B) (l : list A) : outcome (list B) :=
  match l with
  | [] => Val []
  | a :: l' => b <~ f a ;; bs <~ omap f l' ;; Val (b :: bs)
  end.

(** ** Dictionaries *)

Fixpoint dict_get (k : string) (d : dict) : option value :=
  match d with
  | [] => None
  | (k', v) :: d' => if String.eqb k k' then Some v else dict_get k d'
  end.

(** [d[k] = x]: an existing key keeps its place, a new key goes last. *)
Fixpoint dict_set (k : string) (x : value) (d : dict) : dict :=
  match d with
  | [] => [(k, x)]
  | (k', v) :: d' =>
      if String.eqb k k' then (k', x) :: d' else (k', v) :: dict_set k x d'
  end.

(** [v[k]] with a string key. *)
Definition getitem (v : value) (k : string) : outcome value :=
  match v with
  | VDict d => match dict_get k d with Some x => Val x | None => Exc KeyError end
  | _ => Exc TypeError
  end.

(** [v[k] = x] with a string key. *)
Definition setitem (v : value) (k : string) (x : value) : outcome value :=
  match v with
  | VDict d => Val (VDict (dict_set k x d))
  | _ => Exc TypeError
  end.

(** [v.get(k, default)]: only a dict has the method. *)
Definition py_get (v : value) (k : string) (default : value) : outcome value :=
  match v with
  | VDict d => Val (match dict_get k d with Some x => x | None => default end)
  | _ => Exc AttributeError
  end.

(** [v == []] *)
Definition is_empty_list (v : value) : bool :=
  match v with VList [] => true | _ => false end.

(** [v == 4] *)
Definition is_int4 (v : value) : bool :=
  match v with VInt z => z =? 4 | _ => false end.

Definition is_none (v : value) : bool :=
  match v with VNone => true | _ => false end.

Definition is_dict (v : value) : bool :=
  match v with VDict _ => true | _ => false end.

(** Iterating a value, as [list.extend] and [for] do: a list gives its
    items, a dict its keys, a string its characters; the rest is not
    iterable. *)
Fixpoint chars (s : string) : list value :=
  match s with
  | EmptyString => []
  | String c s' => VStr (String c EmptyString) :: chars s'
  end.

Definition py_iter (v : value) : outcome (list value) :=
  match v with
  | VList l => Val l
  | VDict d => Val (map (fun kv => VStr (fst kv)) d)
  | VStr s => Val (chars s)
  | _ => Exc TypeError
  end.

(** [l[-1]] *)
Definition py_last (l : list value) : outcome value :=
  match rev l with
  | [] => Exc IndexError
  | x :: _ => Val x
  end.

(** [len(l)] *)
Definition len {A : Type} (l : list A) : Z := Z.of_nat (List.length l).

(** ** Timestamps *)

(** [pytz.utc.localize(x)] for a naive [x]. *)
Definition add_timezone (x : datetime) : datetime :=
  match tzoffset x with
  | None => mk_datetime (wall x) (Some 0)
  | Some _ => x
  end.

(** [x.replace(tzinfo=None)] keeps the wall-clock reading. *)
Definition replace_tzinfo_none (v : value) : outcome value :=
  match v with
  | VTime t => Val (VTime (mk_datetime (wall t) None))
  | VStr _ => Exc TypeError
  | _ => Exc AttributeError
  end.

(** Ordering of two datetimes: both aware (compared as instants) or both
    naive (compared as wall-clock readings); a naive and an aware one do not
    compare ([TypeError]). *)
Definition dt_cmp (op : Z -> Z -> bool) (a b : datetime) : outcome bool :=
  match tzoffset a, tzoffset b with
  | None, None => Val (op (wall a) (wall b))
  | Some oa, Some ob => Val (op (wall a - oa) (wall b - ob))
  | _, _ => Exc TypeError
  end.

(** [v > d], [v >= d], [v <= d] for a value against a datetime. *)
Definition py_cmp (op : Z -> Z -> bool) (v : value) (d : datetime) : outcome bool :=
  match v with
  | VTime t => dt_cmp op t d
  | _ => Exc TypeError
  end.

(** ** Text *)

Definition digit_char (n : nat) : ascii := ascii_of_nat (48 + n).

Fixpoint decimal_digits (fuel : nat) (n : nat) (acc : string) : string :=
  match fuel with
  | O => acc
  | S f =>
      let acc' := String (digit_char (Nat.modulo n 10)) acc in
      match Nat.div n 10 with
      | O => acc'
      | q => decimal_digits f q acc'
      end
  end.

Definition string_of_nat (n : nat) : string := decimal_digits (S n) n "".

Definition string_of_Z (z : Z) : string :=
  match z with
  | Zneg _ => String.append "-" (string_of_nat (Z.to_nat (- z)))
  | _ => string_of_nat (Z.to_nat z)
  end.

(** [s.endswith(suffix)] *)
Definition endswith (s suffix : string) : bool :=
  let n := String.length s in
  let m := String.length suffix in
  Nat.leb m n && String.eqb (substring (n - m) m s) suffix.

(** [needle in s] for two strings. *)
Definition contains_substring (needle s : string) : bool :=
  match index 0 needle s with
  | Some _ => true
  | None => match needle with EmptyString => true | _ => false end
  end.

(** ** Record normaliser *)

Section Normalizer.

(** [pd.to_datetime]: the parser of the pandas library, which returns a
    value (a timestamp for a well-formed time string) or raises. *)
Variable to_datetime : value -> outcome value.

(** [repr] of the values whose text plays no role here (containers and
    timestamps). *)
Variable py_repr : value -> string.

(** [str(v)], as [str.format] inserts it. *)
Definition py_str (v : value) : string :=
  match v with
  | VStr s => s
  | VInt z => string_of_Z z
  | VNone => "None"
  | VBool true => "True"
  | VBool false => "False"
  | _ => py_repr v
  end.

(** [try: body  except KeyError: handler] *)
Definition except_KeyError {A : Type} (body handler : outcome A) : outcome A :=
  match body with
  | Exc KeyError => handler
  | r => r
  end.

(** [post[k1][k2][k3]] *)
Definition getitem3 (post : value) (k1 k2 k3 : string) : outcome value :=
  a <~ getitem post k1 ;; b <~ getitem a k2 ;; getitem b k3.

(** [post[k1][k2]] *)
Definition getitem2 (post : value) (k1 k2 : string) : outcome value :=
  a <~ getitem post k1 ;; getitem a k2.

Definition set_comments_count (post : value) : outcome value :=
  except_KeyError
    (v <~ getitem3 post "comments" "summary" "total_count" ;;
     setitem post "comments_count" v)
    (setitem post "comments_count" VNone).

Definition set_from_id (post : value) : outcome value :=
  except_KeyError
    (v <~ getitem2 post "from" "id" ;; setitem post "from_id" v)
    (setitem post "from_id" VNone).

Definition set_from_name (post : value) : outcome value :=
  except_KeyError
    (v <~ getitem2 post "from" "name" ;; setitem post "from_name" v)
    (setitem post "from_name" VNone).

Definition set_created_time (post : value) : outcome value :=
  raw <~ getitem post "created_time" ;;
  t <~ to_datetime raw ;;
  post <~ setitem post "created_time" t ;;
  t <~ getitem post "created_time" ;;
  t <~ replace_tzinfo_none t ;;
  setitem post "created_time" t.

Definition set_likes_count (post : value) : outcome value :=
  except_KeyError
    (v <~ getitem3 post "likes" "summary" "total_count" ;;
     setitem post "likes_count" v)
    (except_KeyError
       (v <~ getitem post "like_count" ;; setitem post "likes_count" v)
       (setitem post "likes_count" VNone)).

Definition set_reactions_count (post : value) : outcome value :=
  except_KeyError
    (v <~ getitem3 post "reactions" "summary" "total_count" ;;
     setitem post "reactions_count" v)
    (setitem post "reactions_count" VNone).

Definition set_shares_count (post : value) : outcome value :=
  except_KeyError
    (shares <~ py_get post "shares" (VDict []) ;;
     v <~ py_get shares "count" (VInt 0) ;;
     setitem post "shares_count" v)
    (Val post).

Definition set_post_link (post : value) : outcome value :=
  id <~ getitem post "id" ;;
  setitem post "post_link" (VStr (String.append "https://facebook.com/" (py_str id))).

Definition interactions_cols : list string :=
  ["comments_count"; "reactions_count"; "shares_count"].

(** [[post[col] for col in cols if post[col] is not None]] *)
Fixpoint present_counts (post : value) (cols : list string) : outcome (list value) :=
  match cols with
  | [] => Val []
  | col :: cols' =>
      v <~ getitem post col ;;
      if is_none v then present_counts post cols'
      else (v' <~ getitem post col ;;
            rest <~ present_counts post cols' ;;
            Val (v' :: rest))
  end.

(** [sum(l)]: integer addition from 0 ([bool] is an [int]); other operand
    types do not add to a number. *)
Fixpoint py_sum (acc : Z) (l : list value) : outcome value :=
  match l with
  | [] => Val (VInt acc)
  | VInt z :: l' => py_sum (acc + z) l'
  | VBool b :: l' => py_sum (acc + (if b then 1 else 0)) l'
  | _ :: _ => Exc TypeError
  end.

Definition set_interactions (post : value) : outcome value :=
  counts <~ present_counts post interactions_cols ;;
  total <~ py_sum 0 counts ;;
  setitem post "interactions" total.

Definition post_with_additional_collumns (i : value) (post : value) : outcome value :=
  if is_empty_list post then Val (VList [])
  else
    post <~ set_comments_count post ;;
    post <~ set_from_id post ;;
    post <~ set_from_name post ;;
    post <~ set_created_time post ;;
    post <~ set_likes_count post ;;
    post <~ set_reactions_count post ;;
    post <~ set_shares_count post ;;
    post <~ set_post_link post ;;
    post <~ set_interactions post ;;
    setitem post "api_call_id" i.

Definition transform_posts (posts : list value) (i : value) : outcome (list value) :=
  omap (post_with_additional_collumns i) posts.

Definition comment_with_additional_collumns (i : value) (comment : value) : outcome value :=
  setitem comment "api_call_id" i.

Definition transform_comments (comments : list value) (i : value) : outcome (list value) :=
  omap (comment_with_additional_collumns i) comments.

End Normalizer.

(** ** The world: remote service, clock, log, files, list objects *)

(** One remote invocation, by what the code asks for.  The field catalogues
    ([POST_FIELDS], [COMMENT_FIELDS], [POST_INSIGHT_FIELD]) are fixed text
    and are left out; [limit] is [min(n, 25)]. *)
Inductive request : Type :=
| ProfileInfo (i : value)
| Post (i : value) (insights : bool)
| ProfilePosts (i : value) (limit : Z) (since until : datetime) (insights : bool)
| PostComments (i : value)
| NextPage (url : value).

Inductive response : Type :=
| Returns (v : value)
| Raises (e : exn).

Inductive level : Type := INFO | WARNING | ERROR.

Inductive event : Type :=
| EvCall (r : request)
| EvSleep (secs : Z)
| EvLog (lvl : level) (msg : string)
| EvPrint (v : value)
| EvSaveExcel (path : string) (df : list value)
| EvSaveCsv (path : string) (df : list value).

(** [calls]: remote invocations made so far; [trace]: everything observable
    the run did, oldest first; [heap]: the list objects allocated so far. *)
Record world : Type := mk_world {
  calls : nat;
  trace : list event;
  heap : list (list value)
}.

Definition M (A : Type) : Type := world -> outcome A * world.

Definition ret {A : Type} (a : A) : M A := fun w => (Val a, w).

Definition raise {A : Type} (e : exn) : M A := fun w => (Exc e, w).

Definition bind {A B : Type} (m : M A) (k : A -> M B) : M B :=
  fun w =>
    match m w with
    | (Val a, w1) => k a w1
    | (Exc e, w1) => (Exc e, w1)
    | (OutOfFuel, w1) => (OutOfFuel, w1)
    end.

Notation "x <- m ;; k" := (bind m (fun x => k))
  (at level 61, m at next level, right associativity).
Notation "m >> k" := (bind m (fun _ => k))
  (at level 61, right associativity).

(** A pure computation that may raise, run in the current world. *)
Definition lift {A : Type} (o : outcome A) : M A := fun w => (o, w).

(** [try: m  except <the exceptions handler accepts>: ...]; what [m] did
    before it raised stays done. *)
Definition catch {A : Type} (m : M A) (handler : exn -> option (M A)) : M A :=
  fun w =>
    match m w with
    | (Exc e, w1) =>
        match handler e with
        | Some h => h w1
        | None => (Exc e, w1)
        end
    | r => r
    end.

Definition emit (e : event) : M unit :=
  fun w => (Val tt, mk_world (calls w) (trace w ++ [e]) (heap w)).

Definition sleep (secs : Z) : M unit := emit (EvSleep secs).
Definition log (lvl : level) (msg : string) : M unit := emit (EvLog lvl msg).
Definition print (v : value) : M unit := emit (EvPrint v).

(** *** List objects *)

Inductive pyobj : Type :=
| ObjNone
| ObjList (l : nat).

Fixpoint update_nth {A : Type} (n : nat) (f : A -> A) (l : list A) {struct l} : list A :=
  match l, n with
  | [], _ => []
  | x :: l', O => f x :: l'
  | x :: l', S n' => x :: update_nth n' f l'
  end.

(** [[]]: a new, empty list object. *)
Definition new_list : M nat :=
  fun w => (Val (List.length (heap w)),
            mk_world (calls w) (trace w) (heap w ++ [[]])).

Definition read_list (l : nat) : M (list value) :=
  fun w => (Val (nth l (heap w) []), w).

Definition append_items (l : nat) (items : list value) : M unit :=
  fun w => (Val tt,
            mk_world (calls w) (trace w)
                     (update_nth l (fun old => old ++ items) (heap w))).

(** Iterating an object a variable is bound to. *)
Definition iter_obj (o : pyobj) : M (list value) :=
  match o with
  | ObjNone => raise TypeError
  | ObjList l => read_list l
  end.

(** [elements.extend(v)] for a value. *)
Definition extend_value (l : nat) (v : value) : M unit :=
  items <- lift (py_iter v) ;; append_items l items.

(** [elements.extend(o)] for an object reference: the items of [o] are
    read first and then appended, so extending a list by itself doubles
    it. *)
Definition extend_obj (l : nat) (o : pyobj) : M unit :=
  items <- iter_obj o ;; append_items l items.

(** ** Retry governor *)

Definition max_wait : Z := 7200.
Definition wait : Z := 900.
Definition max_tries : Z := max_wait / wait.

(** Enough iterations for [while tries <= max_tries] started at 0. *)
Definition retry_fuel : nat := Z.to_nat max_tries + 2.

Definition out_of_fuel {A : Type} : M A := fun w => (OutOfFuel, w).

Definition msg_limit_reached : string :=
  "request limit reached, waiting for 15 minutes".
Definition msg_sdk_error : string :=
  "Facebook sdk returned error message".
Definition msg_limit_not_solved : string :=
  "request limit not solved, downloading stopped".

(** The loop of [rate_limit_sdk]'s [wrapper].  The body yields [Some v] for
    [return v] and [None] to go on to [tries += 1].  Only
    [facebook.GraphAPIError] is caught. *)
Fixpoint sdk_wrapper_loop (fuel : nat) (func : M value) (tries : Z) : M value :=
  match fuel with
  | O => out_of_fuel
  | S fuel' =>
      if tries <=? max_tries then
        r <- catch (v <- func ;; ret (Some v))
               (fun e =>
                  match e with
                  | GraphAPIError code =>
                      Some (if is_int4 code
                            then log WARNING msg_limit_reached >>
                                 sleep wait >> ret None
                            else log WARNING msg_sdk_error >>
                                 ret (Some (VList [])))
                  | _ => None
                  end) ;;
        match r with
        | Some v => ret v
        | None => sdk_wrapper_loop fuel' func (tries + 1)
        end
      else
        log ERROR msg_limit_not_solved >> ret (VList [])
  end.

Definition rate_limit_sdk (func : M value) : M value :=
  sdk_wrapper_loop retry_fuel func 0.

(** ["error" in connection] *)
Definition contains_error (connection : value) : outcome bool :=
  match connection with
  | VDict d => Val (match dict_get "error" d with Some _ => true | None => false end)
  | VList l => Val (existsb (fun x => match x with
                                      | VStr s => String.eqb s "error"
                                      | _ => false
                                      end) l)
  | VStr s => Val (contains_substring "error" s)
  | _ => Exc TypeError
  end.

(** The loop of [rate_limit_requests]'s [wrapper]: the error is read from
    the returned payload. *)
Fixpoint requests_wrapper_loop (fuel : nat) (func : M value) (tries : Z) : M value :=
  match fuel with
  | O => out_of_fuel
  | S fuel' =>
      if tries <=? max_tries then
        connection <- func ;;
        has_error <- lift (contains_error connection) ;;
        if (has_error : bool) then
          code <- lift (getitem2 connection "error" "code") ;;
          if is_int4 code then
            log WARNING msg_limit_reached >>
            sleep wait >>
            requests_wrapper_loop fuel' func (tries + 1)
          else
            _ <- lift (getitem connection "error") ;;
            log WARNING msg_sdk_error >> ret (VList [])
        else ret connection
      else
        log ERROR msg_limit_not_solved >> ret (VList [])
  end.

Definition rate_limit_requests (func : M value) : M value :=
  requests_wrapper_loop retry_fuel func 0.

(** ** Connections *)

Definition returns_data (connection : value) : bool :=
  match getitem connection "data" with
  | Val data => negb (is_empty_list data)
  | Exc KeyError => false
  | Exc TypeError => false
  | _ => false
  end.

Definition connection_data (connection : value) : outcome value :=
  getitem connection "data".

Definition connection_date (connection : value) : outcome value :=
  getitem connection "created_time".

(** ** Data frames *)

(** A [pandas.DataFrame] as the list of its rows, in order; a row that is a
    mapping has the columns of its keys, any other row has none. *)
Definition dataframe : Type := list value.

(** [pd.DataFrame(rows)].  Mappings mixed with other rows make the
    constructor fail the way [posts] provides for ([AttributeError]). *)
Definition DataFrame (rows : list value) : outcome dataframe :=
  if forallb is_dict rows || forallb (fun r => negb (is_dict r)) rows
  then Val rows
  else Exc AttributeError.

Definition row_get (col : string) (row : value) : option value :=
  match row with
  | VDict d => dict_get col d
  | _ => None
  end.

Definition has_column (col : string) (df : dataframe) : bool :=
  existsb (fun r => match row_get col r with Some _ => true | None => false end) df.

(** [df.col]: the cells of a column ([None] where the row lacks it); a
    frame without the column has no such attribute. *)
Definition column (col : string) (df : dataframe) : outcome (list (option value)) :=
  if has_column col df then Val (map (row_get col) df) else Exc AttributeError.

(** A missing cell compares false. *)
Definition cmp_cell (op : Z -> Z -> bool) (d : datetime) (cell : option value) : outcome bool :=
  match cell with
  | None => Val false
  | Some v => py_cmp op v d
  end.

Fixpoint select_rows (mask : list bool) (df : dataframe) : dataframe :=
  match mask, df with
  | b :: mask', r :: df' => if b then r :: select_rows mask' df' else select_rows mask' df'
  | _, _ => []
  end.

Fixpoint and_masks (a b : list bool) : list bool :=
  match a, b with
  | x :: a', y :: b' => (x && y) :: and_masks a' b'
  | _, _ => []
  end.

(** [df.loc[(df.created_time >= since) & (df.created_time <= until)]] *)
Definition within_time_range (since until : datetime) (df : dataframe) : outcome dataframe :=
  cells <~ column "created_time" df ;;
  ge <~ omap (cmp_cell Z.geb since) cells ;;
  cells' <~ column "created_time" df ;;
  le <~ omap (cmp_cell Z.leb until) cells' ;;
  Val (select_rows (and_masks ge le) df).

Definition msg_no_time_control : string :=
  "time range control not executed: downloaded table has no 'created_time' column".

(** The final pass of [profiles_posts] over the frame. *)
Definition time_range_control (since until : datetime) (df : dataframe) : M dataframe :=
  if 0 <? len df then
    catch (lift (within_time_range since until df))
      (fun e =>
         match e with
         | AttributeError => Some (log WARNING msg_no_time_control >> ret df)
         | _ => None
         end)
  else ret df.

(** [save_df] *)
Definition save_df (df : dataframe) (path : option string) : M unit :=
  match path with
  | None => ret tt
  | Some p =>
      if endswith p ".xlsx" then emit (EvSaveExcel p df)
      else emit (EvSaveCsv p df)
  end.

(** ** Equality of values, for [unique] and [groupby] *)

Fixpoint value_eqb (a b : value) {struct a} : bool :=
  match a, b with
  | VNone, VNone => true
  | VBool x, VBool y => Bool.eqb x y
  | VInt x, VInt y => x =? y
  | VStr x, VStr y => String.eqb x y
  | VTime x, VTime y =>
      (wall x =? wall y) &&
      match tzoffset x, tzoffset y with
      | None, None => true
      | Some ox, Some oy => ox =? oy
      | _, _ => false
      end
  | VList x, VList y =>
      (fix go (x y : list value) {struct x} : bool :=
         match x, y with
         | [], [] => true
         | a' :: x', b' :: y' => value_eqb a' b' && go x' y'
         | _, _ => false
         end) x y
  | VDict x, VDict y =>
      (fix go (x y : list (string * value)) {struct x} : bool :=
         match x, y with
         | [], [] => true
         | (k, a') :: x', (k', b') :: y' =>
             String.eqb k k' && value_eqb a' b' && go x' y'
         | _, _ => false
         end) x y
  | _, _ => false
  end.

(** [list(series.unique())]: first occurrences, in order. *)
Fixpoint unique (seen : list value) (l : list value) : list value :=
  match l with
  | [] => []
  | x :: l' =>
      if existsb (value_eqb x) seen then unique seen l'
      else x :: unique (x :: seen) l'
  end.

(** Control flow of a function body with [return] statements: a statement
    either goes on to the next one or leaves the function with a result. *)
Inductive ctl (R A : Type) : Type :=
| Next (a : A)
| Return (r : R).
Arguments Next {R A} a.
Arguments Return {R A} r.

Definition B (R A : Type) : Type := M (ctl R A).

Definition stmt {R A : Type} (m : M A) : B R A := a <- m ;; ret (Next a).

Definition return_ {R A : Type} (r : R) : B R A := ret (Return r).

Definition bindB {R A A' : Type} (m : B R A) (k : A -> B R A') : B R A' :=
  c <- m ;;
  match c with
  | Next a => k a
  | Return r => ret (Return r)
  end.

Notation "x <<- m ;; k" := (bindB m (fun x => k))
  (at level 61, m at next level, right associativity).

(** Calling a function whose body is [body]. *)
Definition def_ {R : Type} (body : B R R) : M R :=
  c <- body ;;
  match c with
  | Next r => ret r
  | Return r => ret r
  end.

(** ** The API object *)

Section Api.

(** The remote service: its answer to a request, given how many remote
    invocations came before. *)
Variable remote : nat -> request -> response.

Variable to_datetime : value -> outcome value.
Variable py_repr : value -> string.

(** Bound on the page fetches of one pagination loop (the source's [while]
    has none). *)
Variable fuel : nat.

(** One invocation of the SDK ([self.api.get_connections],
    [self.api.get_object]) or of [requests.get(url).json()]. *)
Definition remote_call (req : request) : M value :=
  fun w =>
    let w' := mk_world (S (calls w)) (trace w ++ [EvCall req]) (heap w) in
    match remote (calls w) req with
    | Returns v => (Val v, w')
    | Raises e => (Exc e, w')
    end.

Definition get_profile_info (i : value) : M value :=
  rate_limit_sdk (remote_call (ProfileInfo i)).

Definition get_post (i : value) (insights : bool) : M value :=
  rate_limit_sdk (remote_call (Post i insights)).

Definition max_n_first : Z := 25.

Definition get_profile_posts_initial_call
    (i : value) (since until : datetime) (n : Z) (insights : bool) : M value :=
  rate_limit_sdk
    (remote_call (ProfilePosts i (Z.min n max_n_first) since until insights)).

Definition get_post_comments_initial_call (i : value) (n : Z) : M value :=
  rate_limit_sdk (remote_call (PostComments i)).

Definition get_next_connection (connection : value) : M value :=
  rate_limit_requests
    (url <- lift (getitem2 connection "paging" "next") ;;
     remote_call (NextPage url)).

(** *** profiles_info *)

Fixpoint profiles_info_loop (ids : list value) (elements : list value) : M (list value) :=
  match ids with
  | [] => ret elements
  | i :: ids' =>
      element <- get_profile_info i ;;
      element <- lift (setitem element "api_call_id" i) ;;
      profiles_info_loop ids' (elements ++ [element])
  end.

Definition profiles_info (ids : list value) (path : option string) : M dataframe :=
  elements <- profiles_info_loop ids [] ;;
  df <- lift (DataFrame elements) ;;
  save_df df path >>
  ret df.

(** *** posts_comments *)

Definition msg_no_next_page : string := "connection has no next page".
Definition msg_no_data : string := "no data in connection".

(** The inner [paginate_elements] of [posts_comments]; [elements] is the
    list object of the enclosing loop body.  Leaving the [while] by its
    condition falls off the end of the function: the call yields [None]. *)
Fixpoint comments_paginate_elements
    (fuel : nat) (n : Z) (elements : nat) (connection : value) : M pyobj :=
  match fuel with
  | O => out_of_fuel
  | S fuel' =>
      cur <- read_list elements ;;
      if len cur <? n then
        r <- catch (c <- get_next_connection connection ;; ret (Some c))
               (fun e =>
                  match e with
                  | KeyError => Some (log INFO msg_no_next_page >> ret None)
                  | _ => None
                  end) ;;
        match r with
        | None => ret (ObjList elements)
        | Some connection' =>
            if returns_data connection' then
              data <- lift (connection_data connection') ;;
              extend_value elements data >>
              comments_paginate_elements fuel' n elements connection'
            else
              log ERROR msg_no_data >> ret (ObjList elements)
        end
      else ret ObjNone
  end.

(** The body of [for i in ids] in [posts_comments]. *)
Definition posts_comments_body (n : Z) (i : value) (comments : list value) : M (list value) :=
  print i >>
  elements <- new_list ;;
  connection <- get_post_comments_initial_call i n ;;
  if returns_data connection then
    data <- lift (connection_data connection) ;;
    extend_value elements data >>
    (page <- comments_paginate_elements fuel n elements connection ;;
     extend_obj elements page) >>
    (collected <- read_list elements ;;
     rows <- lift (transform_comments collected i) ;;
     ret (comments ++ rows))
  else ret comments.

Fixpoint posts_comments_loop (n : Z) (ids : list value) (comments : list value) : M (list value) :=
  match ids with
  | [] => ret comments
  | i :: ids' =>
      comments' <- posts_comments_body n i comments ;;
      posts_comments_loop n ids' comments'
  end.

Definition posts_comments (ids : list value) (n : Z) (path : option string) : M dataframe :=
  comments <- posts_comments_loop n ids [] ;;
  df <- lift (DataFrame comments) ;;
  save_df df path >>
  ret df.

(** *** Enrichment *)

Definition msg_no_posts : string :=
  "no posts downloaded, thus no profile info is downloaded".

Definition cell_value (cell : option value) : value :=
  match cell with Some v => v | None => VNone end.

Definition cell_is (v : value) (cell : option value) : bool :=
  match cell with Some x => value_eqb x v | None => false end.

(** [self.post_from_col]: no class of the module defines this attribute,
    so reading it raises [AttributeError]. *)
Definition post_from_col : outcome string := Exc AttributeError.

(** [df.add_prefix(prefix)] *)
Definition add_prefix (prefix : string) (df : dataframe) : dataframe :=
  map (fun row =>
         match row with
         | VDict d => VDict (map (fun kv => (String.append prefix (fst kv), snd kv)) d)
         | _ => row
         end) df.

(** [df[col] = df[col].astype("str")] *)
Definition astype_str (col : string) (df : dataframe) : outcome dataframe :=
  if has_column col df then
    Val (map (fun row =>
                match row with
                | VDict d =>
                    match dict_get col d with
                    | Some v => VDict (dict_set col (VStr (py_str py_repr v)) d)
                    | None => row
                    end
                | _ => row
                end) df)
  else Exc KeyError.

(** [left.merge(right, how="left", left_on=..., right_on=...)]: every left
    row, once per right row with the same key, extended by that row's
    entries; a left row without a match stays as it is.  (The columns of the
    two frames are taken to be distinct, as the prefix makes them.) *)
Definition merge_left (left right : dataframe) (left_on right_on : string) : dataframe :=
  flat_map
    (fun l =>
       match row_get left_on l with
       | None => [l]
       | Some key =>
           match filter (fun r => cell_is key (row_get right_on r)) right with
           | [] => [l]
           | matches =>
               map (fun r =>
                      match l, r with
                      | VDict dl, VDict dr =>
                          VDict (fold_left (fun acc kv => dict_set (fst kv) (snd kv) acc) dr dl)
                      | _, _ => l
                      end) matches
           end
       end) left.

Definition add_info (df : dataframe) : M dataframe :=
  if len df =? 0 then log WARNING msg_no_posts >> ret df
  else
    col <- lift post_from_col ;;
    cells <- lift (match column col df with
                   | Exc AttributeError => Exc KeyError
                   | r => r
                   end) ;;
    info_df <- profiles_info (unique [] (map cell_value cells)) None ;;
    let info_df := add_prefix "profile_" info_df in
    info_df <- lift (match astype_str "profile_api_call_id" info_df with
                     | Exc KeyError => Exc AttributeError
                     | r => r
                     end) ;;
    df <- lift (astype_str col df) ;;
    ret (merge_left df info_df col "profile_api_call_id").

(** The cells of [likes] in the rows whose [keys] cell is [id]; missing
    cells are skipped by the sum. *)
Fixpoint group_cells (id : value) (keys likes : list (option value)) : list value :=
  match keys, likes with
  | k :: keys', c :: likes' =>
      match c with
      | Some v => if cell_is id k then v :: group_cells id keys' likes'
                  else group_cells id keys' likes'
      | None => group_cells id keys' likes'
      end
  | _, _ => []
  end.

(** [with_comments_reactions]: one row of [add_comments]' result, the sum of
    [like_count] over the comments fetched under the row's [id], 0 where
    there is none. *)
Definition with_comments_reactions
    (keys likes : list (option value)) (row : value) : outcome value :=
  match row with
  | VDict d =>
      total <~ match dict_get "id" d with
               | Some id => py_sum 0 (group_cells id keys likes)
               | None => Val (VInt 0)
               end ;;
      Val (VDict (dict_set "comments_reactions" total d))
  | _ => Val row
  end.

Definition add_comments (df : dataframe) : M dataframe :=
  ids <- lift (column "id" df) ;;
  comments_df <- posts_comments (unique [] (map cell_value ids)) 100000 None ;;
  keys <- lift (match column "api_call_id" comments_df with
                | Exc AttributeError => Exc KeyError
                | r => r
                end) ;;
  likes <- lift (column "like_count" comments_df) ;;
  lift (omap (with_comments_reactions keys likes) df).

(** *** posts *)

Inductive pyresult : Type :=
| ResList (l : list value)
| ResFrame (df : dataframe).

Fixpoint posts_loop (insights : bool) (ids : list value) (posts : list value) : M (list value) :=
  match ids with
  | [] => ret posts
  | i :: ids' =>
      element <- get_post i insights ;;
      posts' <- (if negb (is_none element) then
                   rows <- lift (transform_posts to_datetime py_repr [element] i) ;;
                   ret (posts ++ rows)
                 else ret posts) ;;
      posts_loop insights ids' posts'
  end.

Definition posts
    (ids : list value) (insights comments info : bool) (path : option string)
  : M pyresult :=
  def_ (
    posts <<- stmt (posts_loop insights ids []) ;;
    _ <<- (return_ (ResList posts) : B pyresult unit) ;;
    df <<- catch (stmt (lift (DataFrame posts)))
             (fun e =>
                match e with
                | AttributeError =>
                    Some (_ <<- stmt (print (VList posts)) ;;
                          return_ (ResList posts))
                | _ => None
                end) ;;
    df <<- stmt (if info then add_info df else ret df) ;;
    df <<- stmt (if comments then add_comments df else ret df) ;;
    _ <<- stmt (save_df df path) ;;
    return_ (ResFrame df)).

(** *** profiles_posts *)

(** The inner [paginate_elements] of [profiles_posts]. *)
Fixpoint posts_paginate_elements
    (fuel : nat) (since_tz : datetime) (n : Z) (elements : nat) (connection : value)
  : M pyobj :=
  match fuel with
  | O => out_of_fuel
  | S fuel' =>
      cur <- read_list elements ;;
      go_on <- (if len cur <? n then
                  last <- lift (py_last cur) ;;
                  date <- lift (connection_date last) ;;
                  t <- lift (to_datetime date) ;;
                  lift (py_cmp Z.gtb t since_tz)
                else ret false) ;;
      if (go_on : bool) then
        r <- catch (c <- get_next_connection connection ;; ret (Some c))
               (fun e =>
                  match e with
                  | KeyError => Some (log INFO msg_no_next_page >> ret None)
                  | _ => None
                  end) ;;
        match r with
        | None => ret (ObjList elements)
        | Some connection' =>
            if returns_data connection' then
              data <- lift (connection_data connection') ;;
              extend_value elements data >>
              posts_paginate_elements fuel' since_tz n elements connection'
            else
              log ERROR msg_no_data >> ret (ObjList elements)
        end
      else ret (ObjList elements)
  end.

(** The body of [for i in ids] in [profiles_posts]. *)
Definition profiles_posts_body
    (since_tz until_tz : datetime) (n : Z) (insights : bool)
    (i : value) (posts : list value) : M (list value) :=
  elements <- new_list ;;
  connection <- get_profile_posts_initial_call i since_tz until_tz n insights ;;
  if returns_data connection then
    data <- lift (connection_data connection) ;;
    extend_value elements data >>
    elements' <- posts_paginate_elements fuel since_tz n elements connection ;;
    collected <- iter_obj elements' ;;
    rows <- lift (transform_posts to_datetime py_repr collected i) ;;
    ret (posts ++ rows)
  else ret posts.

Fixpoint profiles_posts_loop
    (since_tz until_tz : datetime) (n : Z) (insights : bool)
    (ids : list value) (posts : list value) : M (list value) :=
  match ids with
  | [] => ret posts
  | i :: ids' =>
      posts' <- profiles_posts_body since_tz until_tz n insights i posts ;;
      profiles_posts_loop since_tz until_tz n insights ids' posts'
  end.

Definition profiles_posts
    (ids : list value) (since until : datetime) (n : Z)
    (insights comments info : bool) (path : option string) : M dataframe :=
  let since_tz := add_timezone since in
  let until_tz := add_timezone until in
  posts <- profiles_posts_loop since_tz until_tz n insights ids [] ;;
  df <- lift (DataFrame posts) ;;
  df <- time_range_control since until df ;;
  df <- (if info then add_info df else ret df) ;;
  df <- (if comments then add_comments df else ret df) ;;
  save_df df path >>
  ret df.

End Api.

(** Defaults of the keyword arguments. *)
Definition default_until : datetime := mk_datetime 4102444800 None.
Definition default_n : Z := 100000.

(** ** A reference time parser

    The Graph API writes every time as [YYYY-MM-DDTHH:MM:SS+ZZZZ];
    [graph_to_datetime] reads exactly that format, as [pd.to_datetime] does,
    into an aware timestamp, and passes timestamps through. *)

Definition digit_of (c : ascii) : option Z :=
  let n := nat_of_ascii c in
  if (Nat.leb 48 n && Nat.leb n 57)%bool then Some (Z.of_nat (n - 48)) else None.

Fixpoint number_of (s : string) (acc : Z) : option Z :=
  match s with
  | EmptyString => Some acc
  | String c s' =>
      match digit_of c with
      | Some d => number_of s' (10 * acc + d)
      | None => None
      end
  end.

Definition field (s : string) (pos width : nat) : option Z :=
  let f := substring pos width s in
  if Nat.eqb (String.length f) width then number_of f 0 else None.

(** Days from 1970-01-01 to the civil date [y]-[m]-[d] (proleptic
    Gregorian). *)
Definition days_from_civil (y m d : Z) : Z :=
  let y' := if m <=? 2 then y - 1 else y in
  let era := y' / 400 in
  let yoe := y' - era * 400 in
  let doy := (153 * (if 2 <? m then m - 3 else m + 9) + 2) / 5 + d - 1 in
  let doe := yoe * 365 + yoe / 4 - yoe / 100 + doy in
  era * 146097 + doe - 719468.

Definition parse_graph_time (s : string) : option datetime :=
  match field s 0 4, field s 5 2, field s 8 2,
        field s 11 2, field s 14 2, field s 17 2,
        field s 20 2, field s 22 2 with
  | Some y, Some mo, Some d, Some h, Some mi, Some sec, Some oh, Some om =>
      let punctuated :=
        (String.eqb (substring 4 1 s) "-" && String.eqb (substring 7 1 s) "-" &&
         String.eqb (substring 10 1 s) "T" && String.eqb (substring 13 1 s) ":" &&
         String.eqb (substring 16 1 s) ":" && Nat.eqb (String.length s) 24)%bool in
      let offset := oh * 3600 + om * 60 in
      let w := days_from_civil y mo d * 86400 + h * 3600 + mi * 60 + sec in
      if punctuated then
        if String.eqb (substring 19 1 s) "+" then Some (mk_datetime w (Some offset))
        else if String.eqb (substring 19 1 s) "-" then Some (mk_datetime w (Some (- offset)))
        else None
      else None
  | _, _, _, _, _, _, _, _ => None
  end.

Definition graph_to_datetime (v : value) : outcome value :=
  match v with
  | VStr s =>
      match parse_graph_time s with
      | Some t => Val (VTime t)
      | None => Exc ValueError
      end
  | VTime t => Val (VTime t)
  | _ => Exc TypeError
  end.

Definition plain_repr (v : value) : string := "<object>".

Definition world0 : world := mk_world 0 [] [].

(** ** Scenarios *)

Definition next_link (url : string) : string * value :=
  ("paging", VDict [("next", VStr url)]).

(** A remote that is over quota on every invocation: the SDK raises
    [GraphAPIError] with code 4, a page request answers with the error
    payload. *)
Definition always_throttled : nat -> request -> response :=
  fun _ req =>
    match req with
    | NextPage _ =>
        Returns (VDict [("error", VDict [("message", VStr "Application request limit reached");
                                         ("code", VInt 4)])])
    | _ => Raises (GraphAPIError (VInt 4))
    end.

Definition some_page : value := VDict [("data", VList [VDict [("id", VStr "1")]]);
                                       next_link "https://graph.facebook.com/page2"].

Definition comment (id : string) (likes : Z) : value :=
  VDict [("id", VStr id); ("like_count", VInt likes); ("message", VStr "hello")].

(** A post with four comments, served two to a page. *)
Definition four_comments : nat -> request -> response :=
  fun _ req =>
    match req with
    | PostComments _ =>
        Returns (VDict [("data", VList [comment "c1" 1; comment "c2" 0]);
                        next_link "comments-page-2"])
    | NextPage _ =>
        Returns (VDict [("data", VList [comment "c3" 5; comment "c4" 2])])
    | _ => Raises (GraphAPIError (VInt 100))
    end.

(** A post with two comments, all on the first page, which has no [paging]
    entry. *)
Definition two_comments : nat -> request -> response :=
  fun _ req =>
    match req with
    | PostComments _ =>
        Returns (VDict [("data", VList [comment "c1" 1; comment "c2" 0])])
    | _ => Raises (GraphAPIError (VInt 100))
    end.

Definition raw_post (id time : string) : value :=
  VDict [("id", VStr id); ("created_time", VStr time)].

Definition page_of (prefix time : string) (size : nat) : list value :=
  map (fun k => raw_post (String.append prefix (string_of_nat k)) time) (seq 0 size).

(** A profile whose posts come 25 to a page, all of January 2020. *)
Definition full_pages : nat -> request -> response :=
  fun _ req =>
    match req with
    | ProfilePosts _ _ _ _ _ =>
        Returns (VDict [("data", VList (page_of "a" "2020-01-20T10:00:00+0000" 25));
                        next_link "posts-page-2"])
    | NextPage url =>
        if value_eqb url (VStr "posts-page-2") then
          Returns (VDict [("data", VList (page_of "b" "2020-01-10T10:00:00+0000" 25));
                          next_link "posts-page-3"])
        else
          Returns (VDict [("data", VList (page_of "c" "2020-01-05T10:00:00+0000" 25))])
    | _ => Raises (GraphAPIError (VInt 100))
    end.

Definition jan_1_2020 : datetime := mk_datetime 1577836800 None.
Definition jan_31_2020 : datetime := mk_datetime 1580428800 None.

Definition count_calls (tr : list event) : nat :=
  List.length (filter (fun e => match e with EvCall _ => true | _ => false end) tr).

Definition sleeps (tr : list event) : list Z :=
  flat_map (fun e => match e with EvSleep s => [s] | _ => [] end) tr.

Definition stamped (i : string) (c : value) : value :=
  match c with
  | VDict d => VDict (dict_set "api_call_id" (VStr i) d)
  | _ => c
  end.

(** The record of the single-object scenario. *)
Definition record_42 : value :=
  VDict [("id", VStr "42");
         ("created_time", VStr "2020-01-01T00:00:00+0000");
         ("likes", VDict [("summary", VDict [("total_count", VInt 3)])])].

Definition serves_record_42 : nat -> request -> response :=
  fun _ _ => Returns record_42.

(** A first page that gives nothing to collect: the governor's empty
    result, a payload without [data] (an error connection), or a payload
    whose [data] is the empty list. *)
Definition first_page_empty (connection : value) : Prop :=
  connection = VList [] \/
  exists d, connection = VDict d /\
            (dict_get "data" d = None \/ dict_get "data" d = Some (VList [])).

Definition is_next_page_call (e : event) : bool :=
  match e with
  | EvCall (NextPage _) => true
  | _ => false
  end.

(** A remote that rejects every request with error code 100 (invalid
    parameter), in-band for page requests. *)
Definition always_rejects : nat -> request -> response :=
  fun _ req =>
    match req with
    | NextPage _ =>
        Returns (VDict [("error", VDict [("message", VStr "Invalid parameter");
                                         ("code", VInt 100)])])
    | _ => Raises (GraphAPIError (VInt 100))
    end.

(** A profile without posts. *)
Definition no_posts : nat -> request -> response :=
  fun _ _ => Returns (VDict [("data", VList [])]).

(** A run that ends with the Python list the loop of [posts] built. *)
Definition as_list_result (r : outcome (list value) * world) : outcome pyresult * world :=
  match r with
  | (Val l, w) => (Val (ResList l), w)
  | (Exc e, w) => (Exc e, w)
  | (OutOfFuel, w) => (OutOfFuel, w)
  end.

Definition is_save (e : event) : bool :=
  match e with
  | EvSaveExcel _ _ => true
  | EvSaveCsv _ _ => true
  | _ => false
  end.

(** An event predicate that no retry wrapper around [req] can satisfy. *)
Definition silent_for (p : event -> bool) (req : request) : Prop :=
  p (EvCall req) = false /\
  (forall lvl msg, p (EvLog lvl msg) = false) /\
  (forall secs, p (EvSleep secs) = false).

(** The path [likes.summary] is absent: no [likes] entry, or a [likes]
    mapping without [summary]. *)
Definition lacks_likes_summary (d : dict) : Prop :=
  dict_get "likes" d = None \/
  exists l, dict_get "likes" d = Some (VDict l) /\ dict_get "summary" l = None.

(** The flat [like_count] field, or the missing sentinel [None]. *)
Definition flat_like_count (d : dict) : value :=
  match dict_get "like_count" d with
  | Some v => v
  | None => VNone
  end.

(** None of the optional sub-objects the normaliser reads is present. *)
Definition no_optional_groups (d : dict) : Prop :=
  dict_get "comments" d = None /\ dict_get "from" d = None /\
  dict_get "reactions" d = None /\ dict_get "shares" d = None.

(** What one step of the normaliser may do to a post: it needs a mapping,
    and gives back that mapping with at most the entry [kw] changed. *)
Definition step_writes (kw : string) (step : value -> outcome value) : Prop :=
  forall v r,
    step v = Val r ->
    exists d d',
      v = VDict d /\ r = VDict d' /\
      forall k, String.eqb k kw = false -> dict_get k d' = dict_get k d.

(** A row as the normaliser leaves it: the empty list it was given, or a
    mapping with a naive timestamp under [created_time]. *)
Definition row_ok (row : value) : Prop :=
  row = VList [] \/
  exists d t, row = VDict d /\
              dict_get "created_time" d = Some (VTime (mk_datetime t None)).

(** A row is a record whose [created_time] lies in the closed window
    [[since, until]]. *)
Definition in_window (since until : datetime) (row : value) : Prop :=
  exists d t,
    row = VDict d /\
    dict_get "created_time" d = Some (VTime (mk_datetime t None)) /\
    wall since <= t <= wall until.

(** A row that stands for no record: the empty list. *)
Definition placeholder (row : value) : Prop := row = VList [].

(** A profile with five posts on two pages, newest first: one after the
    window of January 2020, one at its last instant, one inside, one at its
    first instant and one before it. *)
Definition around_january : nat -> request -> response :=
  fun _ req =>
    match req with
    | ProfilePosts _ _ _ _ _ =>
        Returns (VDict [("data", VList [raw_post "after" "2020-02-02T09:00:00+0000";
                                        raw_post "last-instant" "2020-01-31T00:00:00+0000";
                                        raw_post "inside" "2020-01-15T12:00:00+0000"]);
                        next_link "posts-page-2"])
    | NextPage _ =>
        Returns (VDict [("data", VList [raw_post "first-instant" "2020-01-01T00:00:00+0000";
                                        raw_post "before" "2019-12-15T08:30:00+0000"]);
                        next_link "posts-page-3"])
    | _ => Raises (GraphAPIError (VInt 100))
    end.

Definition january_run : outcome dataframe * world :=
  profiles_posts around_january graph_to_datetime plain_repr 5
    [VStr "profile"] jan_1_2020 jan_31_2020 1000 false false false None world0.

Definition january_rows : dataframe :=
  match fst january_run with
  | Val df => df
  | _ => []
  end.

(** A comment-like record: no [likes] entry, a flat [like_count]. *)
Definition flat_record : dict :=
  [("id", VStr "c7"); ("created_time", VStr "2020-01-15T12:00:00+0000");
   ("like_count", VInt 7)].

(** A computation that leaves the list objects alone. *)
Definition keeps_heap {A : Type} (m : M A) : Prop :=
  forall w r w', m w = (r, w') -> heap w' = heap w.

(** ** Remote behaviours for the retry wrappers *)

(** From invocation [start] on, [req] is throttled (error code 4) [k] times
    and then answered with [v]. *)
Definition throttled_then
    (remote : nat -> request -> response) (req : request)
    (start k : nat) (v : value) : Prop :=
  (forall j, (j < k)%nat -> remote (start + j)%nat req = Raises (GraphAPIError (VInt 4))) /\
  remote (start + k)%nat req = Returns v.

(** Throttled on the first invocation only. *)
Definition throttled_once : nat -> request -> response :=
  fun k _ =>
    match k with
    | O => Raises (GraphAPIError (VInt 4))
    | S _ => Returns some_page
    end.

(** A transport failure that is no [GraphAPIError]. *)
Definition connection_lost : nat -> request -> response :=
  fun _ _ => Raises (OtherError "ConnectionError").

Definition is_graph_error (e : exn) : bool :=
  match e with
  | GraphAPIError _ => true
  | _ => false
  end.

(** The last page of a connection: data, no [paging] entry. *)
Definition last_page : value := VDict [("data", VList [VDict [("id", VStr "9")]])].

Definition serves_last_page : nat -> request -> response :=
  fun _ _ => Returns last_page.

(** ** Fields of a normalised row *)

(** The entries the post normaliser writes. *)
Definition derived_keys : list string :=
  ["comments_count"; "from_id"; "from_name"; "created_time"; "likes_count";
   "reactions_count"; "shares_count"; "post_link"; "interactions"; "api_call_id"].

Definition is_derived (k : string) : bool :=
  existsb (String.eqb k) derived_keys.

(** A count as [sum] takes it, [None] left out. *)
Definition count_value (v : value) : option Z :=
  match v with
  | VNone => Some 0
  | VInt z => Some z
  | VBool b => Some (if b then 1 else 0)
  | _ => None
  end.

(** A raw post, its normalised row and the id it was fetched under. *)
Definition normalised_from (i : value) (post row : value) : Prop :=
  (post = VList [] /\ row = VList []) \/
  exists d d',
    post = VDict d /\ row = VDict d' /\
    dict_get "api_call_id" d' = Some i /\
    forall k, is_derived k = false -> dict_get k d' = dict_get k d.

(** A raw comment and its row. *)
Definition stamped_from (i : value) (comment row : value) : Prop :=
  exists d d',
    comment = VDict d /\ row = VDict d' /\
    dict_get "api_call_id" d' = Some i /\
    forall k, String.eqb k "api_call_id" = false -> dict_get k d' = dict_get k d.

(** A post with all three counted groups. *)
Definition counted_post : value :=
  VDict [("id", VStr "7");
         ("created_time", VStr "2020-01-15T12:00:00+0000");
         ("from", VDict [("id", VStr "page"); ("name", VStr "Page")]);
         ("comments", VDict [("summary", VDict [("total_count", VInt 4)])]);
         ("reactions", VDict [("summary", VDict [("total_count", VInt 10)])]);
         ("shares", VDict [("count", VInt 2)])].

(** ** Remote behaviours for the collectors *)

(** A row that carries the id it was fetched under. *)
Definition fetched_under (i : value) (row : value) : Prop :=
  exists d, row = VDict d /\ dict_get "api_call_id" d = Some i.

(** Every profile exists: the answer to a profile-info request is a
    mapping. *)
Definition profiles_exist (remote : nat -> request -> response) : Prop :=
  forall k i, exists d, remote k (ProfileInfo i) = Returns (VDict d).

Definition profile_directory : nat -> request -> response :=
  fun _ req =>
    match req with
    | ProfileInfo i => Returns (VDict [("id", i); ("fan_count", VInt 12)])
    | _ => Raises (GraphAPIError (VInt 100))
    end.

(** Every data page the remote serves holds at most [size] items. *)
Definition pages_bounded (remote : nat -> request -> response) (size : Z) : Prop :=
  forall k req v data items,
    remote k req = Returns v ->
    getitem v "data" = Val data ->
    py_iter data = Val items ->
    len items <= size.

(** Every [data] entry the remote serves is a list. *)
Definition data_pages_are_lists (remote : nat -> request -> response) : Prop :=
  forall k req v data,
    remote k req = Returns v ->
    getitem v "data" = Val data ->
    exists l, data = VList l.

(** A computation that ends within the model's budgets, whatever the
    world. *)
Definition ends {A : Type} (m : M A) : Prop :=
  forall w, fst (m w) <> OutOfFuel.

(** From invocation [start] on, the page request for [url] is answered [k]
    times with the rate-limit error payload and then with [payload]. *)
Definition page_throttled_then
    (remote : nat -> request -> response) (url : value)
    (start k : nat) (payload : dict) : Prop :=
  (forall j, (j < k)%nat ->
             exists err,
               remote (start + j)%nat (NextPage url)
               = Returns (VDict [("error", VDict err)]) /\
               dict_get "code" err = Some (VInt 4)) /\
  remote (start + k)%nat (NextPage url) = Returns (VDict payload) /\
  dict_get "error" payload = None.

(** The page after [some_page] is over quota twice and then served. *)
Definition page_throttled_twice : nat -> request -> response :=
  fun k _ =>
    match k with
    | O | S O => Returns (VDict [("error", VDict [("code", VInt 4)])])
    | _ => Returns last_page
    end.

(** The event [save_df] records for a path. *)
Definition save_event (path : string) (df : dataframe) : event :=
  if endswith path ".xlsx" then EvSaveExcel path df else EvSaveCsv path df.

(** A remote that knows no post: it answers every post request with
    [None]. *)
Definition answers_none : nat -> request -> response :=
  fun _ _ => Returns VNone.

(** ** Errors the retry wrappers give up on *)

(** What [k] throttled attempts of [req] leave in the trace: the call, the
    warning and the sleep, [k] times. *)
Fixpoint throttled_rounds (req : request) (k : nat) : list event :=
  match k with
  | O => []
  | S k' =>
      [EvCall req; EvLog WARNING msg_limit_reached; EvSleep wait]
      ++ throttled_rounds req k'
  end.

(** From its invocation number [start] on, the remote raises the rate-limit
    error on [k] invocations of [req] and then a [GraphAPIError] with
    another code. *)
Definition throttled_then_rejected
    (remote : nat -> request -> response) (req : request)
    (start k : nat) (code : value) : Prop :=
  (forall j, (j < k)%nat -> remote (start + j)%nat req = Raises (GraphAPIError (VInt 4))) /\
  remote (start + k)%nat req = Raises (GraphAPIError code) /\
  is_int4 code = false.

(** A payload with an [error] entry whose [code] is [code]. *)
Definition error_payload (v : value) (code : value) : Prop :=
  exists payload err,
    v = VDict payload /\ dict_get "error" payload = Some err /\
    getitem err "code" = Val code.

(** The same through the payload of a page request. *)
Definition page_throttled_then_rejected
    (remote : nat -> request -> response) (url : value) (start k : nat) : Prop :=
  (forall j, (j < k)%nat ->
             exists v code,
               remote (start + j)%nat (NextPage url) = Returns v /\
               error_payload v code /\ is_int4 code = true) /\
  exists v code,
    remote (start + k)%nat (NextPage url) = Returns v /\
    error_payload v code /\ is_int4 code = false.

(** Throttled on the first invocation, rejected with code 100 afterwards. *)
Definition throttled_once_then_rejected : nat -> request -> response :=
  fun k req =>
    match k with
    | O =>
        match req with
        | NextPage _ =>
            Returns (VDict [("error", VDict [("message", VStr "Application request limit reached");
                                             ("code", VInt 4)])])
        | _ => Raises (GraphAPIError (VInt 4))
        end
    | S _ => always_rejects k req
    end.

(** ** Pages served during a run *)

(** The items of a connection that [returns_data]. *)
Definition data_items (connection : value) : list value :=
  if returns_data connection then
    match data <~ connection_data connection ;; py_iter data with
    | Val items => items
    | _ => []
    end
  else [].

(** The items the remote hands over with one answer: those of a returned
    payload with data; a page request's payload only if it has no [error]
    entry. *)
Definition page_items (req : request) (r : response) : list value :=
  match r with
  | Returns c =>
      match req with
      | NextPage _ =>
          match contains_error c with
          | Val false => data_items c
          | _ => []
          end
      | _ => data_items c
      end
  | Raises _ => []
  end.

(** The items handed over by the remote on the invocations recorded in
    [evs], oldest first; [k] is the number of the first invocation. *)
Fixpoint pages_served
    (remote : nat -> request -> response) (k : nat) (evs : list event) : list value :=
  match evs with
  | [] => []
  | EvCall req :: evs' => page_items req (remote k req) ++ pages_served remote (S k) evs'
  | _ :: evs' => pages_served remote k evs'
  end.

(** Between [w] and [w'] the run only added to the trace, counted its
    invocations, and was served [pages]. *)
Definition serves
    (remote : nat -> request -> response) (w w' : world) (pages : list value) : Prop :=
  exists evs,
    trace w' = trace w ++ evs /\
    calls w' = (calls w + count_calls evs)%nat /\
    pages_served remote (calls w) evs = pages.

Definition is_page_request (req : request) : bool :=
  match req with
  | NextPage _ => true
  | _ => false
  end.

(** * Properties *)

(** ** Dictionaries *)

Lemma dict_get_set :
  forall (k k' : string) (x : value) (d : dict),
    dict_get k (dict_set k' x d) = if String.eqb k k' then Some x else dict_get k d.
Proof.
  intros k k' x d.
  induction d as [| [k0 v] d IH]; cbn.
  - reflexivity.
  - destruct (String.eqb k' k0) eqn:E'.
    + apply String.eqb_eq in E'. subst k0. cbn.
      destruct (String.eqb k k'); reflexivity.
    + cbn. destruct (String.eqb k k0) eqn:E0.
      * apply String.eqb_eq in E0. subst k0.
        rewrite String.eqb_sym in E'. rewrite E'. reflexivity.
      * exact IH.
Qed.

Lemma dict_get_set_same :
  forall (k : string) (x : value) (d : dict), dict_get k (dict_set k x d) = Some x.
Proof.
  intros. rewrite dict_get_set, String.eqb_refl. reflexivity.
Qed.

Lemma dict_get_set_other :
  forall (k k' : string) (x : value) (d : dict),
    String.eqb k k' = false -> dict_get k (dict_set k' x d) = dict_get k d.
Proof.
  intros k k' x d H. rewrite dict_get_set, H. reflexivity.
Qed.

(** ** Inversion of computations *)

Lemma obind_val :
  forall (A B : Type) (o : outcome A) (k : A -> outcome B) (b : B),
    obind o k = Val b -> exists a, o = Val a /\ k a = Val b.
Proof.
  intros A B o k b H. destruct o as [a | e |]; try discriminate.
  exists a. split; [reflexivity | exact H].
Qed.

Lemma except_KeyError_val :
  forall (A : Type) (body handler : outcome A) (a : A),
    except_KeyError body handler = Val a ->
    body = Val a \/ (body = Exc KeyError /\ handler = Val a).
Proof.
  intros A body handler a H. unfold except_KeyError in H.
  destruct body as [x | e |]; try discriminate.
  - left. exact H.
  - destruct e; try discriminate. right. split; [reflexivity | exact H].
Qed.

Lemma omap_val :
  forall (A C : Type) (f : A -> outcome C) (l : list A) (cs : list C),
    omap f l = Val cs -> Forall2 (fun a c => f a = Val c) l cs.
Proof.
  intros A C f l. induction l as [| a l IH]; intros cs H; cbn in H.
  - inversion H. constructor.
  - apply obind_val in H. destruct H as [c [Hc H]].
    apply obind_val in H. destruct H as [cs' [Hcs H]].
    inversion H; subst. constructor; [exact Hc | apply IH; exact Hcs].
Qed.

Lemma omap_exc :
  forall (A C : Type) (f : A -> outcome C) (l : list A) (e : exn),
    omap f l = Exc e -> exists a, In a l /\ f a = Exc e.
Proof.
  intros A C f l e. induction l as [| a l IH]; intro H; cbn in H.
  - discriminate.
  - destruct (f a) as [c | e' |] eqn:Hfa; cbn in H.
    + destruct (omap f l) as [cs | e'' |]; cbn in H; try discriminate.
      inversion H; subst. destruct (IH eq_refl) as [a' [Hin Ha']].
      exists a'. split; [right; exact Hin | exact Ha'].
    + inversion H; subst. exists a. split; [left; reflexivity | exact Hfa].
    + discriminate.
Qed.

Lemma bind_val :
  forall (A C : Type) (m : M A) (k : A -> M C) (w w' : world) (c : C),
    bind m k w = (Val c, w') ->
    exists a w1, m w = (Val a, w1) /\ k a w1 = (Val c, w').
Proof.
  intros A C m k w w' c H. unfold bind in H.
  destruct (m w) as [[a | e |] w1]; try discriminate.
  exists a, w1. split; [reflexivity | exact H].
Qed.

Lemma lift_val :
  forall (A : Type) (o : outcome A) (w w' : world) (a : A),
    lift o w = (Val a, w') -> o = Val a /\ w' = w.
Proof.
  intros A o w w' a H. unfold lift in H. inversion H; subst. split; reflexivity.
Qed.

Lemma getitem_not_fuel :
  forall v k, getitem v k <> OutOfFuel.
Proof.
  intros v k. unfold getitem. destruct v; try discriminate.
  destruct (dict_get k d); discriminate.
Qed.

Lemma getitem2_not_fuel :
  forall v k1 k2, getitem2 v k1 k2 <> OutOfFuel.
Proof.
  intros v k1 k2. unfold getitem2.
  destruct (getitem v k1) as [a | e |] eqn:E; cbn.
  - apply getitem_not_fuel.
  - discriminate.
  - exfalso. revert E. apply getitem_not_fuel.
Qed.

(** ** Retry governor *)

Lemma retry_fuel_eq : retry_fuel = 10%nat.
Proof. reflexivity. Qed.

(** The retry loops end on their own: the wrappers run out of fuel only if
    the wrapped call does. *)
Lemma sdk_wrapper_total :
  forall (func : M value),
    (forall w, fst (func w) <> OutOfFuel) ->
    forall fuel tries w,
      (1 <= fuel)%nat ->
      max_tries + 2 - tries <= Z.of_nat fuel ->
      fst (sdk_wrapper_loop fuel func tries w) <> OutOfFuel.
Proof.
  intros func Hfunc fuel.
  induction fuel as [| fuel IH]; intros tries w Hpos Hfuel; [lia |].
  cbn [sdk_wrapper_loop].
  destruct (tries <=? max_tries) eqn:Htries.
  - apply Z.leb_le in Htries.
    unfold bind, catch. specialize (Hfunc w).
    destruct (func w) as [[v | e |] w1]; cbn [fst] in Hfunc.
    + cbn. discriminate.
    + destruct e; try (cbn; discriminate).
      destruct (is_int4 code).
      * unfold log, sleep, emit, ret. cbn [fst snd]. apply IH; lia.
      * cbn. discriminate.
    + congruence.
  - cbn. discriminate.
Qed.

Lemma rate_limit_sdk_total :
  forall (func : M value),
    (forall w, fst (func w) <> OutOfFuel) ->
    forall w, fst (rate_limit_sdk func w) <> OutOfFuel.
Proof.
  intros func Hfunc w. unfold rate_limit_sdk.
  apply sdk_wrapper_total; [exact Hfunc | unfold retry_fuel; lia |].
  unfold retry_fuel. change max_tries with 8. lia.
Qed.

Lemma requests_wrapper_total :
  forall (func : M value),
    (forall w, fst (func w) <> OutOfFuel) ->
    forall fuel tries w,
      (1 <= fuel)%nat ->
      max_tries + 2 - tries <= Z.of_nat fuel ->
      fst (requests_wrapper_loop fuel func tries w) <> OutOfFuel.
Proof.
  intros func Hfunc fuel.
  induction fuel as [| fuel IH]; intros tries w Hpos Hfuel; [lia |].
  cbn [requests_wrapper_loop].
  destruct (tries <=? max_tries) eqn:Htries.
  - apply Z.leb_le in Htries.
    unfold bind at 1. specialize (Hfunc w).
    destruct (func w) as [[connection | e |] w1]; cbn [fst] in Hfunc;
      [| cbn; discriminate | congruence].
    unfold bind at 1, lift at 1.
    destruct (contains_error connection) as [[|] | e |] eqn:Herror;
      try (cbn; discriminate).
    + unfold bind at 1, lift at 1.
      destruct (getitem2 connection "error" "code") as [code | e |] eqn:Hcode;
        [| cbn; discriminate | exfalso; revert Hcode; apply getitem2_not_fuel].
      destruct (is_int4 code).
      * unfold bind, log, sleep, emit. apply IH; lia.
      * unfold getitem2 in Hcode. apply obind_val in Hcode.
        destruct Hcode as [err [Herr _]].
        unfold bind, lift, log, emit, ret. rewrite Herr. cbn. discriminate.
    + destruct connection; discriminate.
  - cbn. discriminate.
Qed.

Lemma rate_limit_requests_total :
  forall (func : M value),
    (forall w, fst (func w) <> OutOfFuel) ->
    forall w, fst (rate_limit_requests func w) <> OutOfFuel.
Proof.
  intros func Hfunc w. unfold rate_limit_requests.
  apply requests_wrapper_total; [exact Hfunc | unfold retry_fuel; lia |].
  unfold retry_fuel. change max_tries with 8. lia.
Qed.

(** C1.  A call that is throttled on every attempt (error code 4), through
    either wrapper: each sleep lasts [wait] = 900 s and the result is the
    empty list, not an exception; but the call is attempted 9 times and
    slept after 9 times, one more than [max_tries] = 7200 / 900 = 8. *)
Theorem throttled_call_attempted_nine_times :
  let '(r_sdk, w_sdk) := get_profile_info always_throttled (VStr "profile") world0 in
  let '(r_req, w_req) := get_next_connection always_throttled some_page world0 in
  max_tries = 8 /\
  r_sdk = Val (VList []) /\ r_req = Val (VList []) /\
  count_calls (trace w_sdk) = 9%nat /\ count_calls (trace w_req) = 9%nat /\
  sleeps (trace w_sdk) = repeat wait 9 /\ sleeps (trace w_req) = repeat wait 9.
Proof.
  vm_compute. repeat split; reflexivity.
Qed.

Lemma sdk_wrapper_rejected :
  forall (remote : nat -> request -> response) (req : request) (code : value) (k : nat)
         (fuel : nat) (tries : Z) (w : world),
    (k < fuel)%nat ->
    tries + Z.of_nat k <= max_tries ->
    throttled_then_rejected remote req (calls w) k code ->
    sdk_wrapper_loop fuel (remote_call remote req) tries w
    = (Val (VList []),
       mk_world (S (k + calls w))
                (trace w ++ throttled_rounds req k
                 ++ [EvCall req; EvLog WARNING msg_sdk_error])
                (heap w)).
Proof.
  intros remote req code k.
  induction k as [| k IH]; intros fuel tries w Hfuel Htries [Hthr [Hrej Hcode]];
    (destruct fuel as [| fuel]; [lia |]).
  - cbn [sdk_wrapper_loop].
    replace (tries <=? max_tries) with true by (symmetry; apply Z.leb_le; lia).
    rewrite Nat.add_0_r in Hrej.
    unfold bind, catch, remote_call. rewrite Hrej, Hcode.
    unfold log, emit, ret. cbn. rewrite <- app_assoc. reflexivity.
  - pose proof (Hthr O ltac:(lia)) as H0. rewrite Nat.add_0_r in H0.
    set (w1 := mk_world (S (calls w))
                 ((trace w ++ [EvCall req]) ++ [EvLog WARNING msg_limit_reached]
                  ++ [EvSleep wait]) (heap w)).
    assert (Hstep : sdk_wrapper_loop (S fuel) (remote_call remote req) tries w
                    = sdk_wrapper_loop fuel (remote_call remote req) (tries + 1) w1).
    { cbn [sdk_wrapper_loop].
      replace (tries <=? max_tries) with true by (symmetry; apply Z.leb_le; lia).
      unfold bind at 1, catch, remote_call at 1. unfold bind at 1.
      rewrite H0. cbn [is_int4 Z.eqb Pos.eqb].
      unfold bind, log, sleep, emit, ret. cbn [calls trace heap].
      unfold w1. rewrite <- !app_assoc. reflexivity. }
    rewrite Hstep, IH.
    + cbn [calls trace heap w1 throttled_rounds]. f_equal. f_equal; [lia |].
      rewrite <- !app_assoc. reflexivity.
    + lia.
    + lia.
    + cbn [calls w1]. split; [| split; [| exact Hcode]].
      * intros j Hj. replace (S (calls w) + j)%nat with (calls w + S j)%nat by lia.
        apply Hthr. lia.
      * replace (S (calls w) + k)%nat with (calls w + S k)%nat by lia. exact Hrej.
Qed.

Lemma requests_wrapper_rejected :
  forall (remote : nat -> request -> response) (connection url : value) (k : nat)
         (fuel : nat) (tries : Z) (w : world),
    (k < fuel)%nat ->
    tries + Z.of_nat k <= max_tries ->
    getitem2 connection "paging" "next" = Val url ->
    page_throttled_then_rejected remote url (calls w) k ->
    requests_wrapper_loop fuel
      (u <- lift (getitem2 connection "paging" "next") ;;
       remote_call remote (NextPage u)) tries w
    = (Val (VList []),
       mk_world (S (k + calls w))
                (trace w ++ throttled_rounds (NextPage url) k
                 ++ [EvCall (NextPage url); EvLog WARNING msg_sdk_error])
                (heap w)).
Proof.
  intros remote connection url k.
  induction k as [| k IH]; intros fuel tries w Hfuel Htries Hurl [Hthr Hrej];
    (destruct fuel as [| fuel]; [lia |]).
  - cbn [requests_wrapper_loop].
    replace (tries <=? max_tries) with true by (symmetry; apply Z.leb_le; lia).
    destruct Hrej as [v [code [Hrej [[payload [err [-> [Herr Hc]]]] Hcode]]]].
    rewrite Nat.add_0_r in Hrej.
    unfold bind, lift, remote_call. rewrite Hurl, Hrej.
    cbn [contains_error]. rewrite Herr. unfold getitem2, obind.
    cbn [getitem]. rewrite Herr, Hc, Hcode.
    unfold log, emit, ret. cbn. rewrite <- app_assoc. reflexivity.
  - destruct (Hthr O ltac:(lia)) as [v [code [H0 [[payload [err [-> [Herr Hc]]]] Hcode]]]].
    rewrite Nat.add_0_r in H0.
    set (w1 := mk_world (S (calls w))
                 ((trace w ++ [EvCall (NextPage url)])
                  ++ [EvLog WARNING msg_limit_reached] ++ [EvSleep wait]) (heap w)).
    assert (Hstep :
              requests_wrapper_loop (S fuel)
                (u <- lift (getitem2 connection "paging" "next") ;;
                 remote_call remote (NextPage u)) tries w
              = requests_wrapper_loop fuel
                  (u <- lift (getitem2 connection "paging" "next") ;;
                   remote_call remote (NextPage u)) (tries + 1) w1).
    { cbn [requests_wrapper_loop].
      replace (tries <=? max_tries) with true by (symmetry; apply Z.leb_le; lia).
      unfold bind at 1. unfold bind at 1, lift at 1. rewrite Hurl.
      unfold remote_call at 1. rewrite H0.
      unfold bind at 1, lift at 1. cbn [contains_error]. rewrite Herr.
      unfold bind at 1, lift at 1. unfold getitem2 at 1.
      cbn [getitem obind]. rewrite Herr. cbn [obind]. rewrite Hc, Hcode.
      unfold bind at 1, log at 1, emit at 1. unfold bind at 1, sleep at 1, emit at 1.
      cbn [calls trace heap]. unfold w1. rewrite <- !app_assoc. reflexivity. }
    rewrite Hstep, IH.
    + cbn [calls trace heap w1 throttled_rounds]. f_equal. f_equal; [lia |].
      rewrite <- !app_assoc. reflexivity.
    + lia.
    + lia.
    + exact Hurl.
    + cbn [calls w1]. split.
      * intros j Hj. replace (S (calls w) + j)%nat with (calls w + S j)%nat by lia.
        apply Hthr. lia.
      * replace (S (calls w) + k)%nat with (calls w + S k)%nat by lia. exact Hrej.
Qed.

(** C8, as stated.  A wrapped call that fails with an error other than
    code 4, here a lost connection: the wrapper logs nothing and returns no
    empty result, the exception leaves it. *)
Lemma lost_connection_is_not_an_empty_result :
  connection_lost 0 (Post (VStr "42") false) = Raises (OtherError "ConnectionError") /\
  ~ (exists w, get_post connection_lost (VStr "42") false world0 = (Val (VList []), w)) /\
  get_post connection_lost (VStr "42") false world0
  = (Exc (OtherError "ConnectionError"),
     mk_world 1 [EvCall (Post (VStr "42") false)] []).
Proof.
  split; [reflexivity |]. split; [| vm_compute; reflexivity].
  intros [w H]. vm_compute in H. discriminate.
Qed.

(** C8, amended.  A wrapped call that the Graph API rejects with a code
    other than 4, at its first attempt or after [k] throttled ones: the SDK
    wrapper (error raised as [GraphAPIError]) and the requests wrapper
    (error in the payload) both log one warning and return the empty list
    at once; the trace ends with the rejected call and the warning, with no
    sleep and no attempt after them.  An exception that is not a
    [GraphAPIError] is not caught by the SDK wrapper, and no exception is
    caught by the requests wrapper: it leaves the wrapper after the one
    call, with nothing logged. *)
Theorem fatal_error_returns_empty_at_once :
  forall (remote : nat -> request -> response),
    (forall (req : request) (k : nat) (code : value) (w : world),
        (k <= 8)%nat ->
        throttled_then_rejected remote req (calls w) k code ->
        rate_limit_sdk (remote_call remote req) w
        = (Val (VList []),
           mk_world (S (k + calls w))
                    (trace w ++ throttled_rounds req k
                     ++ [EvCall req; EvLog WARNING msg_sdk_error])
                    (heap w)))
    /\
    (forall (connection url : value) (k : nat) (w : world),
        (k <= 8)%nat ->
        getitem2 connection "paging" "next" = Val url ->
        page_throttled_then_rejected remote url (calls w) k ->
        get_next_connection remote connection w
        = (Val (VList []),
           mk_world (S (k + calls w))
                    (trace w ++ throttled_rounds (NextPage url) k
                     ++ [EvCall (NextPage url); EvLog WARNING msg_sdk_error])
                    (heap w)))
    /\
    (forall (req : request) (e : exn) (w : world),
        remote (calls w) req = Raises e ->
        is_graph_error e = false ->
        rate_limit_sdk (remote_call remote req) w
        = (Exc e, mk_world (S (calls w)) (trace w ++ [EvCall req]) (heap w)))
    /\
    (forall (connection url : value) (e : exn) (w : world),
        getitem2 connection "paging" "next" = Val url ->
        remote (calls w) (NextPage url) = Raises e ->
        get_next_connection remote connection w
        = (Exc e,
           mk_world (S (calls w)) (trace w ++ [EvCall (NextPage url)]) (heap w))).
Proof.
  intro remote. split; [| split; [| split]].
  - intros req k code w Hk H. unfold rate_limit_sdk. rewrite retry_fuel_eq.
    eapply sdk_wrapper_rejected; [lia | change max_tries with 8; lia | exact H].
  - intros connection url k w Hk Hurl H.
    unfold get_next_connection, rate_limit_requests. rewrite retry_fuel_eq.
    eapply requests_wrapper_rejected;
      [lia | change max_tries with 8; lia | exact Hurl | exact H].
  - intros req e w Hremote He. unfold rate_limit_sdk. rewrite retry_fuel_eq.
    cbn [sdk_wrapper_loop]. change (0 <=? max_tries) with true. cbv iota.
    unfold bind, catch, remote_call. rewrite Hremote.
    destruct e; try reflexivity. discriminate.
  - intros connection url e w Hurl Hremote.
    unfold get_next_connection, rate_limit_requests. rewrite retry_fuel_eq.
    cbn [requests_wrapper_loop]. change (0 <=? max_tries) with true. cbv iota.
    unfold bind, lift, remote_call. rewrite Hurl, Hremote. reflexivity.
Qed.

Lemma fatal_error_returns_empty_at_once_witness :
  (rate_limit_sdk (remote_call always_rejects (ProfileInfo (VStr "nobody"))) world0
   = (Val (VList []),
      mk_world 1 [EvCall (ProfileInfo (VStr "nobody")); EvLog WARNING msg_sdk_error] []))
  /\
  (rate_limit_sdk (remote_call throttled_once_then_rejected (ProfileInfo (VStr "nobody")))
     world0
   = (Val (VList []),
      mk_world 2 [EvCall (ProfileInfo (VStr "nobody"));
                  EvLog WARNING msg_limit_reached; EvSleep wait;
                  EvCall (ProfileInfo (VStr "nobody"));
                  EvLog WARNING msg_sdk_error] []))
  /\
  (get_next_connection always_rejects some_page world0
   = (Val (VList []),
      mk_world 1 [EvCall (NextPage (VStr "https://graph.facebook.com/page2"));
                  EvLog WARNING msg_sdk_error] []))
  /\
  (get_next_connection throttled_once_then_rejected some_page world0
   = (Val (VList []),
      mk_world 2 [EvCall (NextPage (VStr "https://graph.facebook.com/page2"));
                  EvLog WARNING msg_limit_reached; EvSleep wait;
                  EvCall (NextPage (VStr "https://graph.facebook.com/page2"));
                  EvLog WARNING msg_sdk_error] []))
  /\
  (rate_limit_sdk (remote_call connection_lost (ProfileInfo (VStr "nobody"))) world0
   = (Exc (OtherError "ConnectionError"),
      mk_world 1 [EvCall (ProfileInfo (VStr "nobody"))] []))
  /\
  (get_next_connection connection_lost some_page world0
   = (Exc (OtherError "ConnectionError"),
      mk_world 1 [EvCall (NextPage (VStr "https://graph.facebook.com/page2"))] [])).
Proof.
  split; [| split; [| split; [| split; [| split]]]].
  - apply (proj1 (fatal_error_returns_empty_at_once always_rejects)
             (ProfileInfo (VStr "nobody")) 0%nat (VInt 100) world0); [lia |].
    split; [intros j Hj; lia | split; reflexivity].
  - apply (proj1 (fatal_error_returns_empty_at_once throttled_once_then_rejected)
             (ProfileInfo (VStr "nobody")) 1%nat (VInt 100) world0); [lia |].
    split; [| split; reflexivity].
    intros j Hj. assert (j = 0%nat) as -> by lia. reflexivity.
  - apply (proj1 (proj2 (fatal_error_returns_empty_at_once always_rejects))
             some_page (VStr "https://graph.facebook.com/page2") 0%nat world0);
      [lia | reflexivity |].
    split; [intros j Hj; lia |].
    eexists. exists (VInt 100). split; [reflexivity |]. split; [| reflexivity].
    eexists. eexists. split; [reflexivity |]. split; reflexivity.
  - apply (proj1 (proj2 (fatal_error_returns_empty_at_once throttled_once_then_rejected))
             some_page (VStr "https://graph.facebook.com/page2") 1%nat world0);
      [lia | reflexivity |].
    split.
    + intros j Hj. assert (j = 0%nat) as -> by lia.
      eexists. exists (VInt 4). split; [reflexivity |]. split; [| reflexivity].
      eexists. eexists. split; [reflexivity |]. split; reflexivity.
    + eexists. exists (VInt 100). split; [reflexivity |]. split; [| reflexivity].
      eexists. eexists. split; [reflexivity |]. split; reflexivity.
  - apply (proj1 (proj2 (proj2 (fatal_error_returns_empty_at_once connection_lost)))
             (ProfileInfo (VStr "nobody")) (OtherError "ConnectionError") world0);
      reflexivity.
  - apply (proj2 (proj2 (proj2 (fatal_error_returns_empty_at_once connection_lost)))
             some_page (VStr "https://graph.facebook.com/page2")
             (OtherError "ConnectionError") world0); reflexivity.
Defined.

Lemma sdk_wrapper_silent :
  forall (remote : nat -> request -> response) (req : request) (p : event -> bool),
    silent_for p req ->
    forall fuel tries w r w',
      sdk_wrapper_loop fuel (remote_call remote req) tries w = (r, w') ->
      filter p (trace w') = filter p (trace w).
Proof.
  intros remote req p [Hreq [Hlog Hsleep]] fuel.
  induction fuel as [| fuel IH]; intros tries w r w' H.
  - cbn in H. unfold out_of_fuel in H. inversion H; subst; reflexivity.
  - cbn [sdk_wrapper_loop] in H.
    destruct (tries <=? max_tries).
    + unfold bind, catch, remote_call in H.
      destruct (remote (calls w) req) as [v | e].
      * inversion H; subst. cbn [trace].
        rewrite filter_app. cbn [filter]. rewrite Hreq. apply app_nil_r.
      * destruct e; try (inversion H; subst; cbn [trace];
                         rewrite filter_app; cbn [filter]; rewrite Hreq; apply app_nil_r).
        destruct (is_int4 code).
        -- unfold log, sleep, emit, ret in H. cbn [calls trace heap] in H.
           apply IH in H. rewrite H. cbn [trace].
           rewrite !filter_app. cbn [filter]. rewrite Hreq, Hlog, Hsleep.
           rewrite !app_nil_r. reflexivity.
        -- unfold log, emit, ret in H. cbn [calls trace heap] in H.
           inversion H; subst. cbn [trace].
           rewrite !filter_app. cbn [filter]. rewrite Hreq, Hlog.
           rewrite !app_nil_r. reflexivity.
    + unfold bind, log, emit, ret in H. inversion H; subst. cbn [trace].
      rewrite filter_app. cbn [filter]. rewrite Hlog. apply app_nil_r.
Qed.

Lemma next_page_silent :
  forall req, is_next_page_call (EvCall req) = false -> silent_for is_next_page_call req.
Proof.
  intros req H. repeat split; auto.
Qed.

(** ** Empty first page *)

Lemma first_page_empty_no_data :
  forall connection, first_page_empty connection -> returns_data connection = false.
Proof.
  intros connection [-> | [d [-> [H | H]]]]; unfold returns_data; cbn; try rewrite H; reflexivity.
Qed.

(** C9.  In [profiles_posts], an id whose first call gives an empty first
    page ([first_page_empty]) adds no row; the world afterwards is the one
    the first call left, so nothing was fetched after it, and no next-page
    request was issued.  This holds for any time parser and any page budget,
    also for a parser that always raises: the last-element comparison is not
    evaluated. *)
Theorem empty_first_page_collects_nothing :
  forall (remote : nat -> request -> response)
         (to_datetime : value -> outcome value) (py_repr : value -> string)
         (fuel : nat) (since_tz until_tz : datetime) (n : Z) (insights : bool)
         (i : value) (posts : list value) (w w1 : world) (connection : value),
    get_profile_posts_initial_call remote i since_tz until_tz n insights
      (snd (new_list w)) = (Val connection, w1) ->
    first_page_empty connection ->
    profiles_posts_body remote to_datetime py_repr fuel since_tz until_tz n insights
      i posts w = (Val posts, w1)
    /\ filter is_next_page_call (trace w1) = filter is_next_page_call (trace w).
Proof.
  intros remote to_datetime py_repr fuel since_tz until_tz n insights
         i posts w w1 connection Hcall Hempty.
  split.
  - unfold profiles_posts_body, bind at 1. cbn [new_list].
    cbn [new_list snd] in Hcall.
    unfold bind at 1. rewrite Hcall.
    rewrite (first_page_empty_no_data _ Hempty). reflexivity.
  - unfold get_profile_posts_initial_call, rate_limit_sdk in Hcall.
    apply (sdk_wrapper_silent _ _ is_next_page_call) in Hcall;
      [exact Hcall | apply next_page_silent; reflexivity].
Qed.

Lemma empty_first_page_collects_nothing_witness :
  first_page_empty (VDict [("data", VList [])]) /\
  profiles_posts_body no_posts (fun _ => Exc ValueError) plain_repr 0
    (add_timezone jan_1_2020) (add_timezone jan_31_2020) 100 false
    (VStr "profile") [] world0
  = (Val [],
     mk_world 1 [EvCall (ProfilePosts (VStr "profile") 25 (add_timezone jan_1_2020)
                           (add_timezone jan_31_2020) false)] [[]]).
Proof.
  assert (Hempty : first_page_empty (VDict [("data", VList [])])).
  { right. exists [("data", VList [])]. split; [reflexivity | right; reflexivity]. }
  split; [exact Hempty |].
  apply (empty_first_page_collects_nothing
           no_posts (fun _ => Exc ValueError) plain_repr 0
           (add_timezone jan_1_2020) (add_timezone jan_31_2020) 100 false
           (VStr "profile") [] world0 _ (VDict [("data", VList [])]));
    [reflexivity | exact Hempty].
Defined.

(** ** Record normaliser *)

Lemma setitem_writes :
  forall (kw : string) (x v r : value),
    setitem v kw x = Val r ->
    exists d d',
      v = VDict d /\ r = VDict d' /\
      forall k, String.eqb k kw = false -> dict_get k d' = dict_get k d.
Proof.
  intros kw x v r H. destruct v; try discriminate.
  cbn in H. inversion H; subst.
  eexists; eexists; repeat split. intros k Hk. apply dict_get_set_other; exact Hk.
Qed.

Lemma guarded_set_writes :
  forall (kw : string) (src : outcome value) (post fallback r : value),
    except_KeyError (v <~ src ;; setitem post kw v) (setitem post kw fallback) = Val r ->
    exists x, setitem post kw x = Val r.
Proof.
  intros kw src post fallback r H.
  apply except_KeyError_val in H. destruct H as [H | [_ H]].
  - apply obind_val in H. destruct H as [x [_ H]]. exists x. exact H.
  - exists fallback. exact H.
Qed.

Lemma set_comments_count_writes : step_writes "comments_count" set_comments_count.
Proof.
  intros v r H. apply guarded_set_writes in H. destruct H as [x H].
  eapply setitem_writes; exact H.
Qed.

Lemma set_from_id_writes : step_writes "from_id" set_from_id.
Proof.
  intros v r H. apply guarded_set_writes in H. destruct H as [x H].
  eapply setitem_writes; exact H.
Qed.

Lemma set_from_name_writes : step_writes "from_name" set_from_name.
Proof.
  intros v r H. apply guarded_set_writes in H. destruct H as [x H].
  eapply setitem_writes; exact H.
Qed.

Lemma set_reactions_count_writes : step_writes "reactions_count" set_reactions_count.
Proof.
  intros v r H. apply guarded_set_writes in H. destruct H as [x H].
  eapply setitem_writes; exact H.
Qed.

Lemma set_likes_count_writes : step_writes "likes_count" set_likes_count.
Proof.
  intros v r H. unfold set_likes_count in H.
  apply except_KeyError_val in H. destruct H as [H | [_ H]].
  - apply obind_val in H. destruct H as [x [_ H]]. eapply setitem_writes; exact H.
  - apply guarded_set_writes in H. destruct H as [x H]. eapply setitem_writes; exact H.
Qed.

Lemma set_shares_count_writes : step_writes "shares_count" set_shares_count.
Proof.
  intros v r H. unfold set_shares_count in H.
  apply except_KeyError_val in H. destruct H as [H | [H _]].
  - apply obind_val in H. destruct H as [a [_ H]].
    apply obind_val in H. destruct H as [b [_ H]].
    eapply setitem_writes; exact H.
  - destruct v; cbn in H; try discriminate.
    destruct (dict_get "shares" d) as [sh |]; cbn in H; try discriminate.
    destruct sh; cbn in H; discriminate.
Qed.

Lemma set_post_link_writes :
  forall py_repr, step_writes "post_link" (set_post_link py_repr).
Proof.
  intros py_repr v r H. unfold set_post_link in H.
  apply obind_val in H. destruct H as [id [_ H]].
  eapply setitem_writes; exact H.
Qed.

Lemma set_interactions_writes : step_writes "interactions" set_interactions.
Proof.
  intros v r H. unfold set_interactions in H.
  apply obind_val in H. destruct H as [counts [_ H]].
  apply obind_val in H. destruct H as [total [_ H]].
  eapply setitem_writes; exact H.
Qed.

(** [set_created_time] leaves a naive timestamp under [created_time]. *)
Lemma set_created_time_writes :
  forall to_datetime, step_writes "created_time" (set_created_time to_datetime).
Proof.
  intros to_datetime v r H. unfold set_created_time in H.
  apply obind_val in H. destruct H as [raw [_ H]].
  apply obind_val in H. destruct H as [t [_ H]].
  apply obind_val in H. destruct H as [post1 [H1 H]].
  apply obind_val in H. destruct H as [t1 [_ H]].
  apply obind_val in H. destruct H as [t2 [_ H]].
  apply setitem_writes in H1. destruct H1 as [d [d1 [-> [-> F1]]]].
  apply setitem_writes in H. destruct H as [d1' [d2 [E [-> F2]]]].
  inversion E; subst d1'.
  exists d, d2. repeat split. intros k Hk. rewrite F2, F1; auto.
Qed.

Lemma set_created_time_naive :
  forall to_datetime v r,
    set_created_time to_datetime v = Val r ->
    exists d' t, r = VDict d' /\
                 dict_get "created_time" d' = Some (VTime (mk_datetime t None)).
Proof.
  intros to_datetime v r H. unfold set_created_time in H.
  apply obind_val in H. destruct H as [raw [_ H]].
  apply obind_val in H. destruct H as [t [_ H]].
  apply obind_val in H. destruct H as [post1 [H1 H]].
  apply obind_val in H. destruct H as [t1 [_ H]].
  apply obind_val in H. destruct H as [t2 [Ht2 H]].
  destruct post1; try discriminate. cbn in H. inversion H; subst.
  destruct t1; try discriminate. cbn in Ht2. inversion Ht2; subst.
  eexists; eexists; split; [reflexivity | apply dict_get_set_same].
Qed.

Lemma step_on_dict :
  forall (kw : string) (step : value -> outcome value),
    step_writes kw step ->
    forall d r,
      step (VDict d) = Val r ->
      exists d', r = VDict d' /\
                 forall k, String.eqb k kw = false -> dict_get k d' = dict_get k d.
Proof.
  intros kw step Hstep d r H.
  apply Hstep in H. destruct H as [d0 [d' [E [-> F]]]].
  inversion E; subst d0. exists d'. split; [reflexivity | exact F].
Qed.

Lemma set_likes_count_fallback :
  forall d,
    lacks_likes_summary d ->
    set_likes_count (VDict d)
    = Val (VDict (dict_set "likes_count" (flat_like_count d) d)).
Proof.
  intros d Hlacks. unfold set_likes_count, flat_like_count, getitem3.
  destruct Hlacks as [H | [l [H Hl]]]; cbn; rewrite H; cbn; try rewrite Hl; cbn;
    destruct (dict_get "like_count" d); reflexivity.
Qed.

(** The normaliser, step by step: [d4] is the post after the first four
    steps, [d5] after the likes step. *)
Lemma normalised_post_steps :
  forall to_datetime py_repr i post row,
    post_with_additional_collumns to_datetime py_repr i post = Val row ->
    (post = VList [] /\ row = VList []) \/
    exists d d4 d5 d' t,
      post = VDict d /\ row = VDict d' /\
      (forall k, String.eqb k "comments_count" = false ->
                 String.eqb k "from_id" = false ->
                 String.eqb k "from_name" = false ->
                 String.eqb k "created_time" = false ->
                 dict_get k d4 = dict_get k d) /\
      dict_get "created_time" d4 = Some (VTime (mk_datetime t None)) /\
      set_likes_count (VDict d4) = Val (VDict d5) /\
      (forall k, String.eqb k "reactions_count" = false ->
                 String.eqb k "shares_count" = false ->
                 String.eqb k "post_link" = false ->
                 String.eqb k "interactions" = false ->
                 String.eqb k "api_call_id" = false ->
                 dict_get k d' = dict_get k d5).
Proof.
  intros to_datetime py_repr i post row H.
  unfold post_with_additional_collumns in H.
  destruct (is_empty_list post) eqn:Hempty.
  - left. destruct post as [| | | | | [| x l] |]; try discriminate.
    inversion H. split; reflexivity.
  - right.
    apply obind_val in H. destruct H as [p1 [H1 H]].
    apply obind_val in H. destruct H as [p2 [H2 H]].
    apply obind_val in H. destruct H as [p3 [H3 H]].
    apply obind_val in H. destruct H as [p4 [H4 H]].
    apply obind_val in H. destruct H as [p5 [H5 H]].
    apply obind_val in H. destruct H as [p6 [H6 H]].
    apply obind_val in H. destruct H as [p7 [H7 H]].
    apply obind_val in H. destruct H as [p8 [H8 H]].
    apply obind_val in H. destruct H as [p9 [H9 H]].
    apply set_comments_count_writes in H1. destruct H1 as [d [d1 [-> [-> F1]]]].
    apply (step_on_dict _ _ set_from_id_writes) in H2. destruct H2 as [d2 [-> F2]].
    apply (step_on_dict _ _ set_from_name_writes) in H3. destruct H3 as [d3 [-> F3]].
    pose proof (set_created_time_naive _ _ _ H4) as [d4' [t [E4 T4]]].
    apply (step_on_dict _ _ (set_created_time_writes to_datetime)) in H4.
    destruct H4 as [d4 [-> F4]]. inversion E4; subst d4'.
    pose proof H5 as H5'.
    apply (step_on_dict _ _ set_likes_count_writes) in H5. destruct H5 as [d5 [-> F5]].
    apply (step_on_dict _ _ set_reactions_count_writes) in H6. destruct H6 as [d6 [-> F6]].
    apply (step_on_dict _ _ set_shares_count_writes) in H7. destruct H7 as [d7 [-> F7]].
    apply (step_on_dict _ _ (set_post_link_writes py_repr)) in H8. destruct H8 as [d8 [-> F8]].
    apply (step_on_dict _ _ set_interactions_writes) in H9. destruct H9 as [d9 [-> F9]].
    apply setitem_writes in H. destruct H as [d9' [d' [E9 [-> F10]]]].
    inversion E9; subst d9'.
    exists d, d4, d5, d', t. repeat split; try assumption.
    + intros k K1 K2 K3 K4. rewrite F4, F3, F2, F1; auto.
    + intros k K1 K2 K3 K4 K5. rewrite F10, F9, F8, F7, F6; auto.
Qed.

(** Every row the normaliser returns is the empty list it was given or a
    mapping with a naive timestamp under [created_time]. *)
Lemma normalised_post_shape :
  forall to_datetime py_repr i post row,
    post_with_additional_collumns to_datetime py_repr i post = Val row ->
    row_ok row.
Proof.
  intros to_datetime py_repr i post row H.
  apply normalised_post_steps in H.
  destruct H as [[_ ->] | [d [d4 [d5 [d' [t [_ [-> [_ [T4 [H5 F]]]]]]]]]]].
  - left. reflexivity.
  - right. exists d', t. split; [reflexivity |].
    apply (step_on_dict _ _ set_likes_count_writes) in H5.
    destruct H5 as [d5' [E5 F5]]. inversion E5; subst d5'.
    rewrite F, F5; auto.
Qed.

Lemma normalised_post_likes :
  forall to_datetime py_repr i d row,
    lacks_likes_summary d ->
    post_with_additional_collumns to_datetime py_repr i (VDict d) = Val row ->
    row_get "likes_count" row = Some (flat_like_count d).
Proof.
  intros to_datetime py_repr i d row Hlacks H.
  apply normalised_post_steps in H.
  destruct H as [[E _] | [d0 [d4 [d5 [d' [t [E [-> [F4 [_ [H5 F]]]]]]]]]]];
    [discriminate |].
  inversion E; subst d0.
  assert (Hlacks4 : lacks_likes_summary d4).
  { destruct Hlacks as [Hl | [l [Hl Hs]]].
    - left. rewrite F4; auto.
    - right. exists l. split; [rewrite F4; auto | exact Hs]. }
  rewrite (set_likes_count_fallback _ Hlacks4) in H5.
  inversion H5; subst d5.
  cbn [row_get]. rewrite F by reflexivity.
  rewrite dict_get_set_same. unfold flat_like_count. rewrite F4 by reflexivity.
  reflexivity.
Qed.

Ltac dict_lookup :=
  repeat (rewrite dict_get_set; cbn [String.eqb Ascii.eqb Bool.eqb]).

Lemma bare_record_normalises :
  forall to_datetime py_repr i d id raw t,
    lacks_likes_summary d ->
    no_optional_groups d ->
    dict_get "id" d = Some id ->
    dict_get "created_time" d = Some raw ->
    to_datetime raw = Val (VTime t) ->
    exists row, post_with_additional_collumns to_datetime py_repr i (VDict d) = Val row.
Proof.
  intros to_datetime py_repr i d id raw t Hlacks [Hc [Hf [Hr Hs]]] Hid Hraw Ht.
  unfold post_with_additional_collumns. cbn [is_empty_list].
  assert (E1 : set_comments_count (VDict d)
               = Val (VDict (dict_set "comments_count" VNone d))).
  { unfold set_comments_count, getitem3. cbn. rewrite Hc. reflexivity. }
  rewrite E1. cbn [obind]. set (d1 := dict_set "comments_count" VNone d).
  assert (E2 : set_from_id (VDict d1) = Val (VDict (dict_set "from_id" VNone d1))).
  { unfold set_from_id, getitem2, d1. cbn. dict_lookup. rewrite Hf. reflexivity. }
  rewrite E2. cbn [obind]. set (d2 := dict_set "from_id" VNone d1).
  assert (E3 : set_from_name (VDict d2) = Val (VDict (dict_set "from_name" VNone d2))).
  { unfold set_from_name, getitem2, d2, d1. cbn. dict_lookup. rewrite Hf. reflexivity. }
  rewrite E3. cbn [obind]. set (d3 := dict_set "from_name" VNone d2).
  assert (E4 : exists d4, set_created_time to_datetime (VDict d3) = Val (VDict d4) /\
                          forall k, String.eqb k "created_time" = false ->
                                    dict_get k d4 = dict_get k d3).
  { unfold set_created_time, d3, d2, d1. cbn. dict_lookup. rewrite Hraw. cbn.
    rewrite Ht. cbn. dict_lookup. cbn. eexists. split; [reflexivity |].
    intros k Hk. rewrite !(dict_get_set k "created_time"), Hk. reflexivity. }
  destruct E4 as [d4 [E4 F4]]. rewrite E4. cbn [obind].
  assert (Hlacks4 : lacks_likes_summary d4).
  { unfold lacks_likes_summary. rewrite F4 by reflexivity.
    unfold d3, d2, d1. dict_lookup. exact Hlacks. }
  rewrite (set_likes_count_fallback _ Hlacks4). cbn [obind].
  set (d5 := dict_set "likes_count" (flat_like_count d4) d4).
  assert (E6 : set_reactions_count (VDict d5)
               = Val (VDict (dict_set "reactions_count" VNone d5))).
  { unfold set_reactions_count, getitem3, d5. cbn. dict_lookup.
    rewrite F4 by reflexivity. unfold d3, d2, d1. dict_lookup. rewrite Hr. reflexivity. }
  rewrite E6. cbn [obind]. set (d6 := dict_set "reactions_count" VNone d5).
  assert (E7 : set_shares_count (VDict d6)
               = Val (VDict (dict_set "shares_count" (VInt 0) d6))).
  { unfold set_shares_count, d6, d5. cbn. dict_lookup.
    rewrite F4 by reflexivity. unfold d3, d2, d1. dict_lookup. rewrite Hs. reflexivity. }
  rewrite E7. cbn [obind]. set (d7 := dict_set "shares_count" (VInt 0) d6).
  assert (E8 : exists link, set_post_link py_repr (VDict d7)
                            = Val (VDict (dict_set "post_link" link d7))).
  { unfold set_post_link, d7, d6, d5. cbn [getitem]. dict_lookup.
    rewrite F4 by reflexivity. unfold d3, d2, d1. dict_lookup. rewrite Hid.
    eexists. reflexivity. }
  destruct E8 as [link E8]. rewrite E8. cbn [obind].
  set (d8 := dict_set "post_link" link d7).
  assert (E9 : set_interactions (VDict d8)
               = Val (VDict (dict_set "interactions" (VInt 0) d8))).
  { unfold set_interactions, interactions_cols, present_counts, d8, d7, d6, d5.
    cbn [getitem]. dict_lookup.
    rewrite F4 by reflexivity. unfold d3, d2, d1. dict_lookup. reflexivity. }
  rewrite E9. cbn [obind]. eexists. reflexivity.
Qed.

(** C10.  For a record that lacks [likes.summary]: the likes step of the
    normaliser does not raise and stores the flat [like_count], or [None]
    when that is absent too; every row the normaliser returns for the record
    carries that value as [likes_count]; and a record with an [id], a
    [created_time] that parses and none of the optional sub-objects is
    normalised without error. *)
Theorem likes_count_falls_back :
  forall (to_datetime : value -> outcome value) (py_repr : value -> string)
         (i : value) (d : dict),
    lacks_likes_summary d ->
    set_likes_count (VDict d)
    = Val (VDict (dict_set "likes_count" (flat_like_count d) d)) /\
    (forall v, dict_get "like_count" d = Some v -> flat_like_count d = v) /\
    (dict_get "like_count" d = None -> flat_like_count d = VNone) /\
    (forall row,
        post_with_additional_collumns to_datetime py_repr i (VDict d) = Val row ->
        row_get "likes_count" row = Some (flat_like_count d)) /\
    (forall id raw t,
        no_optional_groups d ->
        dict_get "id" d = Some id ->
        dict_get "created_time" d = Some raw ->
        to_datetime raw = Val (VTime t) ->
        exists row,
          transform_posts to_datetime py_repr [VDict d] i = Val [row] /\
          row_get "likes_count" row = Some (flat_like_count d)).
Proof.
  intros to_datetime py_repr i d Hlacks.
  split; [apply set_likes_count_fallback; exact Hlacks |].
  split; [intros v Hv; unfold flat_like_count; rewrite Hv; reflexivity |].
  split; [intros Hv; unfold flat_like_count; rewrite Hv; reflexivity |].
  split.
  - intros row H. eapply normalised_post_likes; eassumption.
  - intros id raw t Hbare Hid Hraw Ht.
    destruct (bare_record_normalises to_datetime py_repr i d id raw t
                Hlacks Hbare Hid Hraw Ht) as [row Hrow].
    exists row. split.
    + unfold transform_posts. cbn [omap]. rewrite Hrow. reflexivity.
    + eapply normalised_post_likes; eassumption.
Qed.

Lemma likes_count_falls_back_witness :
  lacks_likes_summary flat_record /\
  exists row,
    transform_posts graph_to_datetime plain_repr [VDict flat_record] (VStr "post") = Val [row] /\
    row_get "likes_count" row = Some (VInt 7).
Proof.
  assert (Hlacks : lacks_likes_summary flat_record) by (left; reflexivity).
  split; [exact Hlacks |].
  destruct (likes_count_falls_back graph_to_datetime plain_repr (VStr "post")
              flat_record Hlacks) as [_ [_ [_ [_ Hrun]]]].
  apply (Hrun (VStr "c7") (VStr "2020-01-15T12:00:00+0000")
              (mk_datetime 1579089600 (Some 0)));
    [repeat split; reflexivity | reflexivity | reflexivity | reflexivity].
Defined.

(** ** The early return of [posts] *)

Lemma posts_loop_never_saves :
  forall (remote : nat -> request -> response)
         (to_datetime : value -> outcome value) (py_repr : value -> string)
         (insights : bool) (ids posts : list value) (w : world) r w',
    posts_loop remote to_datetime py_repr insights ids posts w = (r, w') ->
    filter is_save (trace w') = filter is_save (trace w).
Proof.
  intros remote to_datetime py_repr insights ids.
  induction ids as [| i ids IH]; intros posts w r w' H.
  - inversion H; subst; reflexivity.
  - cbn [posts_loop] in H. unfold bind at 1 in H.
    destruct (get_post remote i insights w) as [[element | e |] w1] eqn:Hget;
      unfold get_post, rate_limit_sdk in Hget;
      apply (sdk_wrapper_silent _ _ is_save) in Hget;
      try (repeat split; reflexivity).
    + unfold bind at 1 in H.
      destruct (negb (is_none element)).
      * unfold bind, lift in H.
        destruct (transform_posts to_datetime py_repr [element] i) as [rows | e |].
        -- unfold ret in H. apply IH in H. congruence.
        -- inversion H; subst. exact Hget.
        -- inversion H; subst. exact Hget.
      * unfold ret in H. apply IH in H. congruence.
    + inversion H; subst. exact Hget.
    + inversion H; subst. exact Hget.
Qed.

Lemma posts_runs_its_loop :
  forall (remote : nat -> request -> response)
         (to_datetime : value -> outcome value) (py_repr : value -> string)
         (fuel : nat) (ids : list value) (insights comments info : bool)
         (path : option string) (w : world),
    posts remote to_datetime py_repr fuel ids insights comments info path w
    = as_list_result (posts_loop remote to_datetime py_repr insights ids [] w).
Proof.
  intros. unfold posts, def_, bindB, stmt, return_, bind, ret, as_list_result.
  destruct (posts_loop remote to_datetime py_repr insights ids [] w) as [[l | e |] w'];
    reflexivity.
Qed.

(** C6.  [posts] returns the list its loop built, whatever the [comments],
    [info] and [path] arguments (and the page budget of the comments
    enrichment) are: the run is the run of the loop alone, the result does
    not depend on those arguments, and nothing is saved. *)
Theorem posts_returns_before_enrichment :
  forall (remote : nat -> request -> response)
         (to_datetime : value -> outcome value) (py_repr : value -> string)
         (fuel : nat) (ids : list value) (insights comments info : bool)
         (path : option string) (w : world),
    posts remote to_datetime py_repr fuel ids insights comments info path w
    = as_list_result (posts_loop remote to_datetime py_repr insights ids [] w)
    /\ (forall fuel' comments' info' path',
          posts remote to_datetime py_repr fuel ids insights comments info path w
          = posts remote to_datetime py_repr fuel' ids insights comments' info' path' w)
    /\ filter is_save
         (trace (snd (posts remote to_datetime py_repr fuel ids insights comments info path w)))
       = filter is_save (trace w).
Proof.
  intros remote to_datetime py_repr fuel ids insights comments info path w.
  split; [apply posts_runs_its_loop |]. split.
  - intros. rewrite !posts_runs_its_loop. reflexivity.
  - rewrite posts_runs_its_loop.
    destruct (posts_loop remote to_datetime py_repr insights ids [] w) as [r w'] eqn:Hloop.
    apply posts_loop_never_saves in Hloop.
    destruct r; exact Hloop.
Qed.

(** ** The single-object scenario *)

(** The claim as stated (C7), at the scenario's input: no run of [posts]
    on id "42" against a remote that returns [record_42] yields a row with
    [likes_count] 3, the link and [interactions] 3. *)
Lemma scenario_42_interactions_not_3 :
  ~ (exists row w,
        posts serves_record_42 graph_to_datetime plain_repr 0
          [VStr "42"] false false false None world0 = (Val (ResList [row]), w) /\
        row_get "likes_count" row = Some (VInt 3) /\
        row_get "post_link" row = Some (VStr "https://facebook.com/42") /\
        row_get "interactions" row = Some (VInt 3)).
Proof.
  intros [row [w [Hrun [_ [_ Hsum]]]]].
  vm_compute in Hrun. inversion Hrun; subst.
  vm_compute in Hsum. discriminate.
Qed.

(** C7, amended.  For the single-object fetch of id "42" where the remote
    returns [record_42] and the time string parses, [posts] returns one row
    with [likes_count] 3, [post_link] "https://facebook.com/42" and
    [interactions] 0: the sum runs over [comments_count], [reactions_count]
    and [shares_count], of which only [shares_count] (0) is present; likes
    are not part of it. *)
Theorem scenario_42_normalized_row :
  forall (remote : nat -> request -> response)
         (to_datetime : value -> outcome value) (py_repr : value -> string)
         (fuel : nat) (insights comments info : bool) (path : option string)
         (w : world) (t : datetime),
    remote (calls w) (Post (VStr "42") insights) = Returns record_42 ->
    to_datetime (VStr "2020-01-01T00:00:00+0000") = Val (VTime t) ->
    exists row,
      posts remote to_datetime py_repr fuel [VStr "42"] insights comments info path w
      = (Val (ResList [row]),
         mk_world (S (calls w)) (trace w ++ [EvCall (Post (VStr "42") insights)]) (heap w)) /\
      row_get "likes_count" row = Some (VInt 3) /\
      row_get "post_link" row = Some (VStr "https://facebook.com/42") /\
      row_get "interactions" row = Some (VInt 0) /\
      row_get "comments_count" row = Some VNone /\
      row_get "reactions_count" row = Some VNone /\
      row_get "shares_count" row = Some (VInt 0).
Proof.
  intros remote to_datetime py_repr fuel insights comments info path w t Hremote Htime.
  eexists. split.
  - rewrite posts_runs_its_loop. cbn [posts_loop]. unfold get_post, rate_limit_sdk.
    rewrite retry_fuel_eq. cbn [sdk_wrapper_loop].
    change (0 <=? max_tries) with true. cbv iota.
    unfold bind, catch, remote_call. rewrite Hremote.
    unfold ret, lift. cbn [is_none negb record_42].
    unfold transform_posts, omap, post_with_additional_collumns.
    cbn [is_empty_list]. unfold set_comments_count at 1. cbn.
    unfold set_created_time. cbn. rewrite Htime. cbn. reflexivity.
  - cbn. repeat split; reflexivity.
Qed.

Lemma scenario_42_normalized_row_witness :
  serves_record_42 0%nat (Post (VStr "42") false) = Returns record_42 /\
  graph_to_datetime (VStr "2020-01-01T00:00:00+0000")
  = Val (VTime (mk_datetime 1577836800 (Some 0))) /\
  exists row,
    posts serves_record_42 graph_to_datetime plain_repr 0
      [VStr "42"] false false false None world0
    = (Val (ResList [row]), mk_world 1 [EvCall (Post (VStr "42") false)] []) /\
    row_get "likes_count" row = Some (VInt 3) /\
    row_get "post_link" row = Some (VStr "https://facebook.com/42") /\
    row_get "interactions" row = Some (VInt 0) /\
    row_get "comments_count" row = Some VNone /\
    row_get "reactions_count" row = Some VNone /\
    row_get "shares_count" row = Some (VInt 0).
Proof.
  split; [reflexivity |]. split; [reflexivity |].
  apply (scenario_42_normalized_row
           serves_record_42 graph_to_datetime plain_repr 0 false false false None
           world0 (mk_datetime 1577836800 (Some 0))); reflexivity.
Defined.

(** ** Time window *)

Lemma transform_posts_rows_ok :
  forall to_datetime py_repr posts i rows,
    transform_posts to_datetime py_repr posts i = Val rows -> Forall row_ok rows.
Proof.
  intros to_datetime py_repr posts i rows H.
  apply omap_val in H. induction H as [| post row posts rows Hrow _ IH].
  - constructor.
  - constructor; [eapply normalised_post_shape; exact Hrow | exact IH].
Qed.

Lemma profiles_posts_body_rows_ok :
  forall remote to_datetime py_repr fuel since_tz until_tz n insights i posts w out w',
    profiles_posts_body remote to_datetime py_repr fuel since_tz until_tz n insights
      i posts w = (Val out, w') ->
    Forall row_ok posts -> Forall row_ok out.
Proof.
  intros remote to_datetime py_repr fuel since_tz until_tz n insights i posts w out w' H Hposts.
  unfold profiles_posts_body in H.
  apply bind_val in H. destruct H as [elements [w1 [_ H]]].
  apply bind_val in H. destruct H as [connection [w2 [_ H]]].
  destruct (returns_data connection).
  - apply bind_val in H. destruct H as [data [w3 [_ H]]].
    apply bind_val in H. destruct H as [u [w4 [_ H]]].
    apply bind_val in H. destruct H as [elements' [w5 [_ H]]].
    apply bind_val in H. destruct H as [collected [w6 [_ H]]].
    apply bind_val in H. destruct H as [rows [w7 [Hrows H]]].
    apply lift_val in Hrows. destruct Hrows as [Hrows _].
    inversion H; subst.
    apply Forall_app. split; [exact Hposts | eapply transform_posts_rows_ok; exact Hrows].
  - inversion H; subst. exact Hposts.
Qed.

Lemma profiles_posts_loop_rows_ok :
  forall remote to_datetime py_repr fuel since_tz until_tz n insights ids posts w out w',
    profiles_posts_loop remote to_datetime py_repr fuel since_tz until_tz n insights
      ids posts w = (Val out, w') ->
    Forall row_ok posts -> Forall row_ok out.
Proof.
  intros remote to_datetime py_repr fuel since_tz until_tz n insights ids.
  induction ids as [| i ids IH]; intros posts w out w' H Hposts.
  - inversion H; subst. exact Hposts.
  - cbn [profiles_posts_loop] in H.
    apply bind_val in H. destruct H as [posts' [w1 [Hbody H]]].
    eapply IH; [exact H |].
    eapply profiles_posts_body_rows_ok; [exact Hbody | exact Hposts].
Qed.

Lemma cmp_cell_naive :
  forall (op : Z -> Z -> bool) (bound : datetime) (t : Z) (b : bool),
    cmp_cell op bound (Some (VTime (mk_datetime t None))) = Val b ->
    tzoffset bound = None /\ b = op t (wall bound).
Proof.
  intros op bound t b H. unfold cmp_cell, py_cmp, dt_cmp in H. cbn in H.
  destruct (tzoffset bound); [discriminate |].
  inversion H. split; reflexivity.
Qed.

Lemma select_rows_sound :
  forall since until df ge le,
    omap (cmp_cell Z.geb since) (map (row_get "created_time") df) = Val ge ->
    omap (cmp_cell Z.leb until) (map (row_get "created_time") df) = Val le ->
    Forall row_ok df ->
    Forall (in_window since until) (select_rows (and_masks ge le) df).
Proof.
  intros since until df.
  induction df as [| row df IH]; intros ge le Hge Hle Hok; cbn in Hge, Hle.
  - inversion Hge; inversion Hle; subst. constructor.
  - apply obind_val in Hge. destruct Hge as [g [Hg Hge]].
    apply obind_val in Hge. destruct Hge as [ge' [Hge' Hge]].
    apply obind_val in Hle. destruct Hle as [l [Hl Hle]].
    apply obind_val in Hle. destruct Hle as [le' [Hle' Hle]].
    inversion Hge; inversion Hle; subst. inversion Hok as [| ? ? Hrow Hok']; subst.
    cbn [and_masks select_rows].
    specialize (IH _ _ Hge' Hle' Hok').
    destruct (g && l) eqn:Hgl; [| exact IH].
    constructor; [| exact IH].
    apply andb_true_iff in Hgl. destruct Hgl as [-> ->].
    destruct Hrow as [-> | [d [t [-> Ht]]]].
    + cbn in Hg. discriminate.
    + cbn [row_get] in Hg, Hl. rewrite Ht in Hg, Hl.
      apply cmp_cell_naive in Hg. apply cmp_cell_naive in Hl.
      destruct Hg as [_ Hg]. destruct Hl as [_ Hl].
      exists d, t. split; [reflexivity |]. split; [exact Ht |]. lia.
Qed.

Lemma select_rows_complete :
  forall since until df ge le,
    omap (cmp_cell Z.geb since) (map (row_get "created_time") df) = Val ge ->
    omap (cmp_cell Z.leb until) (map (row_get "created_time") df) = Val le ->
    forall row, In row df -> in_window since until row ->
                In row (select_rows (and_masks ge le) df).
Proof.
  intros since until df.
  induction df as [| row0 df IH]; intros ge le Hge Hle row Hin Hwin; cbn in Hge, Hle.
  - destruct Hin.
  - apply obind_val in Hge. destruct Hge as [g [Hg Hge]].
    apply obind_val in Hge. destruct Hge as [ge' [Hge' Hge]].
    apply obind_val in Hle. destruct Hle as [l [Hl Hle]].
    apply obind_val in Hle. destruct Hle as [le' [Hle' Hle]].
    inversion Hge; inversion Hle; subst.
    cbn [and_masks select_rows].
    destruct Hin as [-> | Hin].
    + destruct Hwin as [d [t [-> [Ht Hbounds]]]].
      cbn [row_get] in Hg, Hl. rewrite Ht in Hg, Hl.
      apply cmp_cell_naive in Hg. apply cmp_cell_naive in Hl.
      destruct Hg as [_ ->]. destruct Hl as [_ ->].
      replace (t >=? wall since) with true by lia.
      replace (t <=? wall until) with true by lia.
      left. reflexivity.
    + specialize (IH _ _ Hge' Hle' row Hin Hwin).
      destruct (g && l); [right |]; exact IH.
Qed.

Lemma cmp_cell_exc :
  forall op bound cell e, cmp_cell op bound cell = Exc e -> e = TypeError.
Proof.
  intros op bound cell e H. unfold cmp_cell, py_cmp, dt_cmp in H.
  destruct cell as [v |]; [| discriminate].
  destruct v; try (inversion H; reflexivity).
  destruct (tzoffset t), (tzoffset bound); inversion H; reflexivity.
Qed.

Lemma within_time_range_no_column :
  forall since until df,
    within_time_range since until df = Exc AttributeError ->
    has_column "created_time" df = false.
Proof.
  intros since until df H. unfold within_time_range, column in H.
  destruct (has_column "created_time" df); [| reflexivity].
  cbn [obind] in H.
  destruct (omap (cmp_cell Z.geb since) (map (row_get "created_time") df))
    as [ge | e |] eqn:Hge; cbn [obind] in H.
  - destruct (omap (cmp_cell Z.leb until) (map (row_get "created_time") df))
      as [le | e |] eqn:Hle; cbn [obind] in H; try discriminate.
    inversion H; subst.
    apply omap_exc in Hle. destruct Hle as [c [_ Hc]].
    apply cmp_cell_exc in Hc. discriminate.
  - inversion H; subst.
    apply omap_exc in Hge. destruct Hge as [c [_ Hc]].
    apply cmp_cell_exc in Hc. discriminate.
  - discriminate.
Qed.

Lemma no_column_no_cell :
  forall col df,
    has_column col df = false -> forall row, In row df -> row_get col row = None.
Proof.
  intros col df H row Hin. unfold has_column in H.
  destruct (row_get col row) eqn:E; [| reflexivity].
  assert (existsb (fun r => match row_get col r with Some _ => true | None => false end) df = true).
  { apply existsb_exists. exists row. split; [exact Hin | rewrite E; reflexivity]. }
  congruence.
Qed.

Lemma within_time_range_val :
  forall since until df df',
    within_time_range since until df = Val df' ->
    exists ge le,
      omap (cmp_cell Z.geb since) (map (row_get "created_time") df) = Val ge /\
      omap (cmp_cell Z.leb until) (map (row_get "created_time") df) = Val le /\
      df' = select_rows (and_masks ge le) df.
Proof.
  intros since until df df' H. unfold within_time_range, column in H.
  destruct (has_column "created_time" df); [| discriminate]. cbn [obind] in H.
  apply obind_val in H. destruct H as [ge [Hge H]].
  apply obind_val in H. destruct H as [le [Hle H]].
  inversion H; subst. exists ge, le. repeat split; assumption.
Qed.

(** The final pass leaves only rows in the window, or finds no
    [created_time] column at all; it drops no row that is in the window. *)
Lemma time_range_control_spec :
  forall since until df w df' w',
    time_range_control since until df w = (Val df', w') ->
    Forall row_ok df ->
    (Forall (in_window since until) df' \/ Forall placeholder df') /\
    (forall row, In row df -> in_window since until row -> In row df').
Proof.
  intros since until df w df' w' H Hok. unfold time_range_control in H.
  destruct (0 <? len df) eqn:Hlen.
  - unfold catch, lift in H.
    destruct (within_time_range since until df) as [df'' | e |] eqn:E.
    + inversion H; subst.
      apply within_time_range_val in E. destruct E as [ge [le [Hge [Hle ->]]]].
      split.
      * left. eapply select_rows_sound; eassumption.
      * intros row Hin Hwin. eapply select_rows_complete; eassumption.
    + destruct e; try discriminate.
      unfold bind, log, emit, ret in H. inversion H; subst.
      apply within_time_range_no_column in E.
      split; [| intros; assumption].
      right. apply Forall_forall. intros row Hin.
      pose proof (no_column_no_cell _ _ E _ Hin) as Hnone.
      rewrite Forall_forall in Hok. destruct (Hok _ Hin) as [C | [d [t [-> Ht]]]].
      * exact C.
      * cbn in Hnone. congruence.
    + discriminate.
  - inversion H; subst. split; [| intros; assumption].
    destruct df' as [| row df']; [left; constructor |].
    apply Z.ltb_ge in Hlen. unfold len in Hlen. cbn [List.length] in Hlen. lia.
Qed.

Lemma with_comments_reactions_preserves :
  forall since until keys likes row row',
    with_comments_reactions keys likes row = Val row' ->
    in_window since until row -> in_window since until row'.
Proof.
  intros since until keys likes row row' H [d [t [-> [Ht Hb]]]].
  unfold with_comments_reactions in H.
  apply obind_val in H. destruct H as [total [_ H]]. inversion H; subst.
  exists (dict_set "comments_reactions" total d), t.
  split; [reflexivity |]. split; [| exact Hb].
  rewrite dict_get_set_other by reflexivity. exact Ht.
Qed.

Lemma placeholders_have_no_column :
  forall col df, Forall placeholder df -> has_column col df = false.
Proof.
  intros col df H. unfold has_column.
  induction H as [| row df Hrow _ IH]; [reflexivity |].
  cbn [existsb]. rewrite Hrow, IH. reflexivity.
Qed.

Lemma add_comments_preserves :
  forall remote fuel since until df w df' w',
    add_comments remote fuel df w = (Val df', w') ->
    Forall (in_window since until) df \/ Forall placeholder df ->
    Forall (in_window since until) df'.
Proof.
  intros remote fuel since until df w df' w' H Hdf.
  unfold add_comments in H.
  apply bind_val in H. destruct H as [ids [w1 [Hids H]]].
  destruct Hdf as [Hdf | Hdf].
  - apply bind_val in H. destruct H as [comments_df [w2 [_ H]]].
    apply bind_val in H. destruct H as [keys [w3 [_ H]]].
    apply bind_val in H. destruct H as [likes [w4 [_ H]]].
    apply lift_val in H. destruct H as [H _].
    apply omap_val in H. clear Hids.
    induction H as [| row row' df df' Hrow _ IH].
    + constructor.
    + inversion Hdf; subst. constructor.
      * eapply with_comments_reactions_preserves; eassumption.
      * apply IH. assumption.
  - apply lift_val in Hids. destruct Hids as [Hids _].
    unfold column in Hids.
    rewrite (placeholders_have_no_column _ _ Hdf) in Hids. discriminate.
Qed.

(** [add_info] returns only for an empty frame, which it gives back. *)
Lemma add_info_same :
  forall remote py_repr df w df' w',
    add_info remote py_repr df w = (Val df', w') -> df' = df.
Proof.
  intros remote py_repr df w df' w' H. unfold add_info in H.
  destruct (len df =? 0).
  - unfold bind, log, emit, ret in H. inversion H. reflexivity.
  - unfold post_from_col, bind, lift in H. discriminate.
Qed.

Lemma DataFrame_rows :
  forall rows df, DataFrame rows = Val df -> df = rows.
Proof.
  intros rows df H. unfold DataFrame in H.
  destruct (forallb is_dict rows || forallb (fun r => negb (is_dict r)) rows);
    inversion H; reflexivity.
Qed.

(** C3.  Whenever [profiles_posts] returns a frame, every row of it is a
    record whose [created_time] lies in the closed window [[since, until]];
    the one other frame it can return consists of empty lists alone (records
    served as [[]], which have no [created_time]).  And (without the
    comments enrichment, which rewrites the rows) every normalised record
    whose [created_time] is in the window, the two boundaries included, is
    in the frame: only rows outside the window are dropped. *)
Theorem rows_within_time_window :
  forall (remote : nat -> request -> response)
         (to_datetime : value -> outcome value) (py_repr : value -> string)
         (fuel : nat) (ids : list value) (since until : datetime) (n : Z)
         (insights comments info : bool) (path : option string)
         (w : world) (df : dataframe) (w' : world),
    profiles_posts remote to_datetime py_repr fuel ids since until n
      insights comments info path w = (Val df, w') ->
    (Forall (in_window since until) df \/ Forall placeholder df) /\
    (comments = false ->
     forall posts w1,
       profiles_posts_loop remote to_datetime py_repr fuel
         (add_timezone since) (add_timezone until) n insights ids [] w = (Val posts, w1) ->
       forall row, In row posts -> in_window since until row -> In row df).
Proof.
  intros remote to_datetime py_repr fuel ids since until n insights comments info path
         w df w' H.
  unfold profiles_posts in H.
  apply bind_val in H. destruct H as [posts [w1 [Hloop H]]].
  apply bind_val in H. destruct H as [df0 [w2 [Hframe H]]].
  apply lift_val in Hframe. destruct Hframe as [Hframe ->].
  apply DataFrame_rows in Hframe. subst df0.
  apply bind_val in H. destruct H as [df1 [w3 [Hcontrol H]]].
  apply bind_val in H. destruct H as [df2 [w4 [Hinfo H]]].
  apply bind_val in H. destruct H as [df3 [w5 [Hcomments H]]].
  apply bind_val in H. destruct H as [u [w6 [_ H]]].
  inversion H; subst df w6.
  assert (Hok : Forall row_ok posts).
  { eapply profiles_posts_loop_rows_ok; [exact Hloop | constructor]. }
  destruct (time_range_control_spec _ _ _ _ _ _ Hcontrol Hok) as [Hsound Hcomplete].
  assert (E2 : df2 = df1).
  { destruct info; [eapply add_info_same; exact Hinfo | inversion Hinfo; reflexivity]. }
  subst df2.
  split.
  - destruct comments.
    + left. eapply add_comments_preserves; eassumption.
    + inversion Hcomments; subst. exact Hsound.
  - intros -> posts' w1' Hloop' row Hin Hwin.
    rewrite Hloop in Hloop'. inversion Hloop'; subst posts' w1'.
    inversion Hcomments; subst. apply Hcomplete; assumption.
Qed.

Lemma rows_within_time_window_witness :
  january_run = (Val january_rows, snd january_run) /\
  (Forall (in_window jan_1_2020 jan_31_2020) january_rows \/
   Forall placeholder january_rows) /\
  map (row_get "id") january_rows
  = [Some (VStr "last-instant"); Some (VStr "inside"); Some (VStr "first-instant")].
Proof.
  assert (Hrun : january_run = (Val january_rows, snd january_run))
    by (vm_compute; reflexivity).
  split; [exact Hrun |]. split.
  - exact (proj1 (rows_within_time_window
                    around_january graph_to_datetime plain_repr 5
                    [VStr "profile"] jan_1_2020 jan_31_2020 1000 false false false None
                    world0 january_rows (snd january_run) Hrun)).
  - vm_compute. reflexivity.
Defined.

(** ** Count cap *)

(** C2.  With cap [n] = 30 and pages of 25 posts, [profiles_posts] returns
    50 rows for one profile; with cap [n] = 3 and two comments on the only
    page, [posts_comments] returns 4 rows.  Both exceed [n]. *)
Theorem capped_collections_exceed_cap :
  (forall fuel,
      exists df w,
        profiles_posts full_pages graph_to_datetime plain_repr (2 + fuel)
          [VStr "profile"] jan_1_2020 jan_31_2020 30 false false false None world0
        = (Val df, w) /\ len df = 50 /\ 30 < len df) /\
  (forall fuel,
      exists df w,
        posts_comments two_comments (1 + fuel) [VStr "post"] 3 None world0
        = (Val df, w) /\ len df = 4 /\ 3 < len df).
Proof.
  split; intro fuel.
  - eexists; eexists; split; [vm_compute; reflexivity | split; [reflexivity | reflexivity]].
  - eexists; eexists; split; [vm_compute; reflexivity | split; [reflexivity | reflexivity]].
Qed.

(** ** Comments: list objects, the fault at the cap, duplicates *)

Lemma nth_update_nth_same :
  forall (A : Type) (f : A -> A) (default : A) (l : list A) (n : nat),
    (n < List.length l)%nat ->
    nth n (update_nth n f l) default = f (nth n l default).
Proof.
  intros A f default l. induction l as [| x l IH]; intros n Hn; cbn in Hn.
  - lia.
  - destruct n as [| n]; cbn; [reflexivity | apply IH; lia].
Qed.

Lemma length_update_nth :
  forall (A : Type) (f : A -> A) (l : list A) (n : nat),
    List.length (update_nth n f l) = List.length l.
Proof.
  intros A f l. induction l as [| x l IH]; intros n; cbn.
  - reflexivity.
  - destruct n; cbn; [reflexivity | rewrite IH; reflexivity].
Qed.

Lemma keeps_heap_ret : forall (A : Type) (a : A), keeps_heap (ret a).
Proof. intros A a w r w' H. inversion H; reflexivity. Qed.

Lemma keeps_heap_lift : forall (A : Type) (o : outcome A), keeps_heap (lift o).
Proof. intros A o w r w' H. inversion H; reflexivity. Qed.

Lemma keeps_heap_emit : forall e, keeps_heap (emit e).
Proof. intros e w r w' H. inversion H; reflexivity. Qed.

Lemma keeps_heap_bind :
  forall (A C : Type) (m : M A) (k : A -> M C),
    keeps_heap m -> (forall a, keeps_heap (k a)) -> keeps_heap (bind m k).
Proof.
  intros A C m k Hm Hk w r w' H. unfold bind in H.
  destruct (m w) as [[a | e |] w1] eqn:E.
  - apply Hk in H. apply Hm in E. congruence.
  - inversion H; subst. eapply Hm; exact E.
  - inversion H; subst. eapply Hm; exact E.
Qed.

Lemma keeps_heap_catch :
  forall (A : Type) (m : M A) (handler : exn -> option (M A)),
    keeps_heap m ->
    (forall e h, handler e = Some h -> keeps_heap h) ->
    keeps_heap (catch m handler).
Proof.
  intros A m handler Hm Hh w r w' H. unfold catch in H.
  destruct (m w) as [[a | e |] w1] eqn:E.
  - inversion H; subst. eapply Hm; exact E.
  - destruct (handler e) as [h |] eqn:Eh.
    + apply (Hh _ _ Eh) in H. apply Hm in E. congruence.
    + inversion H; subst. eapply Hm; exact E.
  - inversion H; subst. eapply Hm; exact E.
Qed.

Lemma keeps_heap_remote_call :
  forall remote req, keeps_heap (remote_call remote req).
Proof.
  intros remote req w r w' H. unfold remote_call in H.
  destruct (remote (calls w) req); inversion H; reflexivity.
Qed.

Create HintDb heap.

#[local] Hint Resolve keeps_heap_ret keeps_heap_lift keeps_heap_emit
  keeps_heap_remote_call : heap.

Lemma keeps_heap_sdk_wrapper :
  forall fuel func tries, keeps_heap func -> keeps_heap (sdk_wrapper_loop fuel func tries).
Proof.
  intros fuel func tries Hfunc. revert tries.
  induction fuel as [| fuel IH]; intro tries; cbn [sdk_wrapper_loop].
  - intros w r w' H. inversion H; reflexivity.
  - destruct (tries <=? max_tries).
    + apply keeps_heap_bind.
      * apply keeps_heap_catch.
        -- apply keeps_heap_bind; auto with heap.
        -- intros e h Hh. destruct e; try discriminate.
           destruct (is_int4 code); inversion Hh; subst;
             repeat (apply keeps_heap_bind; [unfold log, sleep; auto with heap | intro]);
             auto with heap.
      * intros [v |]; [auto with heap | apply IH].
    + apply keeps_heap_bind; [unfold log; auto with heap | intro; auto with heap].
Qed.

Lemma keeps_heap_requests_wrapper :
  forall fuel func tries,
    keeps_heap func -> keeps_heap (requests_wrapper_loop fuel func tries).
Proof.
  intros fuel func tries Hfunc. revert tries.
  induction fuel as [| fuel IH]; intro tries; cbn [requests_wrapper_loop].
  - intros w r w' H. inversion H; reflexivity.
  - destruct (tries <=? max_tries).
    + apply keeps_heap_bind; [exact Hfunc | intro connection].
      apply keeps_heap_bind; [auto with heap | intros [|]]; [| auto with heap].
      apply keeps_heap_bind; [auto with heap | intro code].
      destruct (is_int4 code).
      * repeat (apply keeps_heap_bind; [unfold log, sleep; auto with heap | intro]).
        apply IH.
      * repeat (apply keeps_heap_bind; [unfold log, sleep; auto with heap | intro]).
        auto with heap.
    + apply keeps_heap_bind; [unfold log; auto with heap | intro; auto with heap].
Qed.

Lemma keeps_heap_get_next_connection :
  forall remote connection, keeps_heap (get_next_connection remote connection).
Proof.
  intros remote connection. unfold get_next_connection, rate_limit_requests.
  apply keeps_heap_requests_wrapper.
  apply keeps_heap_bind; [auto with heap | intro; auto with heap].
Qed.

Lemma keeps_heap_initial_comments :
  forall remote i n, keeps_heap (get_post_comments_initial_call remote i n).
Proof.
  intros remote i n. unfold get_post_comments_initial_call, rate_limit_sdk.
  apply keeps_heap_sdk_wrapper. auto with heap.
Qed.

(** The inner [paginate_elements] of [posts_comments] yields [None] or the
    very object [elements], and allocates nothing. *)
Lemma comments_paginate_result :
  forall remote fuel n elements connection w page w',
    comments_paginate_elements remote fuel n elements connection w = (Val page, w') ->
    (page = ObjNone \/ page = ObjList elements) /\
    List.length (heap w') = List.length (heap w).
Proof.
  intros remote fuel n elements. induction fuel as [| fuel IH];
    intros connection w page w' H; cbn [comments_paginate_elements] in H.
  - discriminate.
  - apply bind_val in H. destruct H as [cur [w1 [Hread H]]].
    inversion Hread; subst w1. clear Hread.
    destruct (len cur <? n).
    + apply bind_val in H. destruct H as [r [w2 [Hnext H]]].
      assert (Hheap : heap w2 = heap w).
      { revert Hnext. apply keeps_heap_catch.
        - apply keeps_heap_bind; [apply keeps_heap_get_next_connection | intro; auto with heap].
        - intros e h Hh. destruct e; try discriminate. inversion Hh; subst.
          apply keeps_heap_bind; [unfold log; auto with heap | intro; auto with heap]. }
      destruct r as [connection' |].
      * destruct (returns_data connection').
        -- apply bind_val in H. destruct H as [data [w3 [Hdata H]]].
           apply lift_val in Hdata. destruct Hdata as [_ ->].
           apply bind_val in H. destruct H as [u [w4 [Hext H]]].
           unfold extend_value in Hext.
           apply bind_val in Hext. destruct Hext as [items [w5 [Hitems Hext]]].
           apply lift_val in Hitems. destruct Hitems as [_ ->].
           inversion Hext; subst w4. clear Hext.
           apply IH in H. destruct H as [Hpage Hlen]. split; [exact Hpage |].
           rewrite Hlen. cbn [heap]. rewrite length_update_nth, Hheap. reflexivity.
        -- unfold bind, log, emit, ret in H. inversion H; subst. cbn [heap].
           split; [right; reflexivity | rewrite Hheap; reflexivity].
      * inversion H; subst. split; [right; reflexivity | rewrite Hheap; reflexivity].
    + inversion H; subst. split; [left; reflexivity | reflexivity].
Qed.

(** C4.  [posts_comments] with cap [n] = 3 on a post whose four comments
    come two to a page: the cap is reached after the second page, the inner
    [paginate_elements] leaves its loop without a [return], and extending
    [elements] by the resulting [None] raises [TypeError] out of the whole
    run. *)
Theorem posts_comments_faults_at_cap :
  forall fuel,
    fst (posts_comments four_comments (2 + fuel) [VStr "post"] 3 None world0)
    = Exc TypeError.
Proof.
  intro fuel. vm_compute. reflexivity.
Qed.

(** C5.  [posts_comments] on a post whose two comments arrive on one page
    without a next page: the returned frame holds each comment twice. *)
Theorem posts_comments_duplicates :
  forall fuel,
    fst (posts_comments two_comments (1 + fuel) [VStr "post"] default_n None world0)
    = Val [stamped "post" (comment "c1" 1); stamped "post" (comment "c2" 0);
           stamped "post" (comment "c1" 1); stamped "post" (comment "c2" 0)].
Proof.
  intro fuel. vm_compute. reflexivity.
Qed.

(** * Further properties *)

(** ** Retry wrappers *)

Lemma sleeps_app :
  forall tr1 tr2, sleeps (tr1 ++ tr2) = sleeps tr1 ++ sleeps tr2.
Proof.
  intros tr1 tr2. unfold sleeps. apply flat_map_app.
Qed.

Lemma sdk_wrapper_retries :
  forall (remote : nat -> request -> response) (req : request) (v : value) (k : nat)
         (fuel : nat) (tries : Z) (w : world),
    (k < fuel)%nat ->
    tries + Z.of_nat k <= max_tries ->
    throttled_then remote req (calls w) k v ->
    exists w',
      sdk_wrapper_loop fuel (remote_call remote req) tries w = (Val v, w') /\
      calls w' = (calls w + k + 1)%nat /\
      sleeps (trace w') = sleeps (trace w) ++ repeat wait k /\
      count_calls (trace w') = (count_calls (trace w) + k + 1)%nat /\
      heap w' = heap w.
Proof.
  intros remote req v k. induction k as [| k IH]; intros fuel tries w Hfuel Htries [Hthr Hret].
  - destruct fuel as [| fuel]; [lia |].
    destruct (sdk_wrapper_loop (S fuel) (remote_call remote req) tries w)
      as [r w'] eqn:Hrun.
    cbn [sdk_wrapper_loop] in Hrun.
    replace (tries <=? max_tries) with true in Hrun by (symmetry; apply Z.leb_le; lia).
    unfold bind, catch, remote_call in Hrun.
    rewrite Nat.add_0_r in Hret. rewrite Hret in Hrun.
    unfold ret in Hrun. inversion Hrun; subst r w'. clear Hrun.
    eexists. split; [reflexivity |]. cbn [calls trace heap].
    repeat split.
    + lia.
    + rewrite sleeps_app. cbn. rewrite !app_nil_r. reflexivity.
    + unfold count_calls. rewrite filter_app, length_app. cbn. lia.
  - destruct fuel as [| fuel]; [lia |].
    pose proof (Hthr O ltac:(lia)) as H0. rewrite Nat.add_0_r in H0.
    set (w1 := mk_world (S (calls w))
                 ((trace w ++ [EvCall req]) ++ [EvLog WARNING msg_limit_reached]
                  ++ [EvSleep wait]) (heap w)).
    assert (Hstep : sdk_wrapper_loop (S fuel) (remote_call remote req) tries w
                    = sdk_wrapper_loop fuel (remote_call remote req) (tries + 1) w1).
    { cbn [sdk_wrapper_loop].
      replace (tries <=? max_tries) with true by (symmetry; apply Z.leb_le; lia).
      unfold bind at 1, catch, remote_call at 1. unfold bind at 1.
      rewrite H0. cbn [is_int4 Z.eqb Pos.eqb].
      unfold bind, log, sleep, emit, ret. cbn [calls trace heap].
      unfold w1. rewrite <- !app_assoc. reflexivity. }
    destruct (IH fuel (tries + 1) w1) as [w' [Hrun [Hcalls [Hsleeps [Hcount Hheap]]]]].
    + lia.
    + lia.
    + cbn [calls w1]. split.
      * intros j Hj. replace (S (calls w) + j)%nat with (calls w + S j)%nat by lia.
        apply Hthr. lia.
      * replace (S (calls w) + k)%nat with (calls w + S k)%nat by lia. exact Hret.
    + exists w'. split; [rewrite Hstep; exact Hrun |]. cbn [calls trace heap w1] in *.
      repeat split.
      * lia.
      * rewrite Hsleeps. rewrite !sleeps_app. cbn. rewrite !app_nil_r.
        rewrite <- app_assoc. reflexivity.
      * rewrite Hcount. unfold count_calls. rewrite !filter_app, !length_app. cbn. lia.
      * exact Hheap.
Qed.

(** X1.  A call through [rate_limit_sdk] that is throttled [k] times
    ([k] <= 8) and then succeeds returns the successful payload after
    exactly [k] sleeps of 900 s and [k] + 1 remote invocations. *)
Theorem throttled_then_success :
  forall (remote : nat -> request -> response) (req : request) (v : value)
         (k : nat) (w : world),
    (k <= 8)%nat ->
    throttled_then remote req (calls w) k v ->
    exists w',
      rate_limit_sdk (remote_call remote req) w = (Val v, w') /\
      calls w' = (calls w + k + 1)%nat /\
      sleeps (trace w') = sleeps (trace w) ++ repeat wait k /\
      count_calls (trace w') = (count_calls (trace w) + k + 1)%nat /\
      heap w' = heap w.
Proof.
  intros remote req v k w Hk Hthr.
  unfold rate_limit_sdk. rewrite retry_fuel_eq.
  apply sdk_wrapper_retries; [lia | change max_tries with 8; lia | exact Hthr].
Qed.

Lemma throttled_then_success_witness :
  throttled_then throttled_once (ProfileInfo (VStr "profile")) 0 1 some_page /\
  exists w',
    get_profile_info throttled_once (VStr "profile") world0 = (Val some_page, w') /\
    calls w' = 2%nat /\ sleeps (trace w') = [900] /\
    count_calls (trace w') = 2%nat /\ heap w' = [].
Proof.
  assert (H : throttled_then throttled_once (ProfileInfo (VStr "profile")) 0 1 some_page).
  { split; [intros j Hj; replace j with O by lia; reflexivity | reflexivity]. }
  split; [exact H |].
  exact (throttled_then_success throttled_once (ProfileInfo (VStr "profile")) some_page
           1 world0 ltac:(lia) H).
Defined.

Ltac budget_done :=
  cbn [snd fst calls trace heap ret out_of_fuel sdk_wrapper_loop requests_wrapper_loop];
  rewrite ?sleeps_app;
  cbn [sleeps flat_map app repeat];
  rewrite ?app_nil_r;
  repeat split; try reflexivity; lia.

Lemma sdk_wrapper_budget :
  forall (remote : nat -> request -> response) (req : request)
         (fuel : nat) (tries : Z) (w : world) r w',
    sdk_wrapper_loop fuel (remote_call remote req) tries w = (r, w') ->
    exists c j : nat,
      calls w' = (calls w + c)%nat /\
      sleeps (trace w') = sleeps (trace w) ++ repeat wait j /\
      (j <= c)%nat /\
      Z.of_nat c <= Z.max 0 (max_tries + 1 - tries) /\
      (tries <= max_tries -> (1 <= fuel)%nat -> (1 <= c)%nat).
Proof.
  intros remote req fuel.
  induction fuel as [| fuel IH]; intros tries w r w' H.
  - inversion H; subst. exists O, O. budget_done.
  - cbn [sdk_wrapper_loop] in H.
    destruct (tries <=? max_tries) eqn:Htries.
    + apply Z.leb_le in Htries.
      unfold bind, catch, remote_call in H.
      destruct (remote (calls w) req) as [v | e].
      * inversion H; subst. exists 1%nat, O. budget_done.
      * destruct e; try (inversion H; subst; exists 1%nat, O; budget_done).
        destruct (is_int4 code).
        -- unfold log, sleep, emit, ret in H. cbn [calls trace heap] in H.
           apply IH in H. destruct H as [c [j [Hc [Hs [Hj [Hb _]]]]]].
           exists (S c), (S j). rewrite Hc, Hs. cbn [calls trace].
           rewrite !sleeps_app. cbn [sleeps flat_map app repeat]. rewrite !app_nil_r.
           repeat split; try lia.
           rewrite <- app_assoc. reflexivity.
        -- unfold log, emit, ret in H. inversion H; subst. exists 1%nat, O. budget_done.
    + apply Z.leb_gt in Htries. unfold bind, log, emit, ret in H.
      inversion H; subst. exists O, O. budget_done.
Qed.

Lemma requests_wrapper_budget :
  forall (remote : nat -> request -> response) (connection : value)
         (fuel : nat) (tries : Z) (w : world) r w',
    requests_wrapper_loop fuel
      (url <- lift (getitem2 connection "paging" "next") ;;
       remote_call remote (NextPage url)) tries w = (r, w') ->
    exists c j : nat,
      calls w' = (calls w + c)%nat /\
      sleeps (trace w') = sleeps (trace w) ++ repeat wait j /\
      (j <= c)%nat /\
      Z.of_nat c <= Z.max 0 (max_tries + 1 - tries).
Proof.
  intros remote connection fuel.
  induction fuel as [| fuel IH]; intros tries w r w' H.
  - inversion H; subst. exists O, O. budget_done.
  - cbn [requests_wrapper_loop] in H.
    destruct (tries <=? max_tries) eqn:Htries.
    + apply Z.leb_le in Htries.
      unfold bind at 1 in H. unfold bind at 1, lift at 1 in H.
      destruct (getitem2 connection "paging" "next") as [url | e |];
        try (inversion H; subst; exists O, O; budget_done).
      unfold remote_call at 1 in H.
      destruct (remote (calls w) (NextPage url)) as [v | e];
        [| inversion H; subst; exists 1%nat, O; budget_done].
      unfold bind at 1, lift at 1 in H.
      destruct (contains_error v) as [[|] | e |];
        try (inversion H; subst; exists 1%nat, O; budget_done).
      unfold bind at 1, lift at 1 in H.
      destruct (getitem2 v "error" "code") as [code | e |];
        try (inversion H; subst; exists 1%nat, O; budget_done).
      destruct (is_int4 code).
      * unfold bind at 1, log at 1, emit at 1 in H.
        unfold bind at 1, sleep at 1, emit at 1 in H.
        cbn [calls trace heap] in H.
        apply IH in H. destruct H as [c [j [Hc [Hs [Hj Hb]]]]].
        exists (S c), (S j). rewrite Hc, Hs. cbn [calls trace].
        rewrite !sleeps_app. cbn [sleeps flat_map app repeat]. rewrite !app_nil_r.
        repeat split; try lia.
        rewrite <- app_assoc. reflexivity.
      * unfold bind, lift, log, emit, ret in H.
        destruct (getitem v "error"); inversion H; subst; exists 1%nat, O; budget_done.
    + apply Z.leb_gt in Htries. unfold bind, log, emit, ret in H.
      inversion H; subst. exists O, O. budget_done.
Qed.

(** X2.  Whatever the remote does, one wrapped SDK call makes between 1 and
    9 remote invocations, and one [get_next_connection] at most 9; every
    sleep lasts 900 s and there are never more sleeps than invocations, so
    one logical call blocks for at most 8100 s. *)
Theorem retry_budget_is_bounded :
  forall (remote : nat -> request -> response) (req : request)
         (connection : value) (w : world),
    (exists c j : nat,
        calls (snd (rate_limit_sdk (remote_call remote req) w)) = (calls w + c)%nat /\
        sleeps (trace (snd (rate_limit_sdk (remote_call remote req) w)))
        = sleeps (trace w) ++ repeat wait j /\
        (1 <= c <= 9)%nat /\ (j <= c)%nat) /\
    (exists c j : nat,
        calls (snd (get_next_connection remote connection w)) = (calls w + c)%nat /\
        sleeps (trace (snd (get_next_connection remote connection w)))
        = sleeps (trace w) ++ repeat wait j /\
        (c <= 9)%nat /\ (j <= c)%nat).
Proof.
  intros remote req connection w. split.
  - destruct (rate_limit_sdk (remote_call remote req) w) as [r w'] eqn:Hrun.
    unfold rate_limit_sdk in Hrun.
    destruct (sdk_wrapper_budget _ _ _ _ _ _ _ Hrun) as [c [j [Hc [Hs [Hj [Hb Hone]]]]]].
    exists c, j. cbn [snd]. repeat split; try assumption.
    + apply Hone; [change max_tries with 8; lia | rewrite retry_fuel_eq; lia].
    + change max_tries with 8 in Hb. lia.
  - destruct (get_next_connection remote connection w) as [r w'] eqn:Hrun.
    unfold get_next_connection, rate_limit_requests in Hrun.
    destruct (requests_wrapper_budget _ _ _ _ _ _ _ Hrun) as [c [j [Hc [Hs [Hj Hb]]]]].
    exists c, j. cbn [snd]. repeat split; try assumption.
    change max_tries with 8 in Hb. lia.
Qed.

(** X3.  An exception of the wrapped call that is no [GraphAPIError] passes
    through [rate_limit_sdk] unchanged after the one invocation: no retry,
    no sleep, no log entry. *)
Theorem other_exception_passes_through :
  forall (remote : nat -> request -> response) (req : request) (e : exn) (w : world),
    remote (calls w) req = Raises e ->
    is_graph_error e = false ->
    rate_limit_sdk (remote_call remote req) w
    = (Exc e, mk_world (S (calls w)) (trace w ++ [EvCall req]) (heap w)).
Proof.
  intros remote req e w Hremote He.
  unfold rate_limit_sdk. rewrite retry_fuel_eq. cbn [sdk_wrapper_loop].
  change (0 <=? max_tries) with true. cbv iota.
  unfold bind, catch, remote_call. rewrite Hremote.
  destruct e; try reflexivity. discriminate.
Qed.

Lemma other_exception_passes_through_witness :
  get_post connection_lost (VStr "42") false world0
  = (Exc (OtherError "ConnectionError"),
     mk_world 1 [EvCall (Post (VStr "42") false)] []).
Proof.
  apply (other_exception_passes_through connection_lost (Post (VStr "42") false)
           (OtherError "ConnectionError") world0); reflexivity.
Defined.

(** X4.  [get_next_connection] on a page without a [paging] entry raises
    [KeyError] without invoking the remote; on a page with a [paging.next]
    link whose answer carries no [error] entry it returns that answer as it
    is after one invocation. *)
Theorem next_connection_of_a_page :
  forall (remote : nat -> request -> response) (d payload : dict) (url : value) (w : world),
    (dict_get "paging" d = None ->
     get_next_connection remote (VDict d) w = (Exc KeyError, w)) /\
    (getitem2 (VDict d) "paging" "next" = Val url ->
     remote (calls w) (NextPage url) = Returns (VDict payload) ->
     dict_get "error" payload = None ->
     get_next_connection remote (VDict d) w
     = (Val (VDict payload),
        mk_world (S (calls w)) (trace w ++ [EvCall (NextPage url)]) (heap w))).
Proof.
  intros remote d payload url w. split.
  - intro Hpaging.
    unfold get_next_connection, rate_limit_requests. rewrite retry_fuel_eq.
    cbn [requests_wrapper_loop]. change (0 <=? max_tries) with true. cbv iota.
    unfold bind, lift, getitem2. cbn [getitem obind]. rewrite Hpaging. reflexivity.
  - intros Hurl Hremote Herror.
    unfold get_next_connection, rate_limit_requests. rewrite retry_fuel_eq.
    cbn [requests_wrapper_loop]. change (0 <=? max_tries) with true. cbv iota.
    unfold bind, lift, remote_call. rewrite Hurl, Hremote.
    cbn [contains_error]. rewrite Herror. reflexivity.
Qed.

Lemma next_connection_of_a_page_witness :
  get_next_connection serves_last_page last_page world0 = (Exc KeyError, world0) /\
  get_next_connection serves_last_page some_page world0
  = (Val last_page,
     mk_world 1 [EvCall (NextPage (VStr "https://graph.facebook.com/page2"))] []).
Proof.
  destruct (next_connection_of_a_page serves_last_page
              [("data", VList [VDict [("id", VStr "9")]])]
              [("data", VList [VDict [("id", VStr "9")]])]
              (VStr "https://graph.facebook.com/page2") world0) as [Hlast _].
  destruct (next_connection_of_a_page serves_last_page
              [("data", VList [VDict [("id", VStr "1")]]);
               next_link "https://graph.facebook.com/page2"]
              [("data", VList [VDict [("id", VStr "9")]])]
              (VStr "https://graph.facebook.com/page2") world0) as [_ Hnext].
  split; [apply Hlast; reflexivity | apply Hnext; reflexivity].
Defined.

(** ** Normaliser: what a row keeps and what it adds *)

(** The ten steps of the normaliser on a mapping, one after the other. *)
Lemma normalised_post_chain :
  forall to_datetime py_repr i d row,
    post_with_additional_collumns to_datetime py_repr i (VDict d) = Val row ->
    exists d1 d2 d3 d4 d5 d6 d7 d8 d9,
      set_comments_count (VDict d) = Val (VDict d1) /\
      set_from_id (VDict d1) = Val (VDict d2) /\
      set_from_name (VDict d2) = Val (VDict d3) /\
      set_created_time to_datetime (VDict d3) = Val (VDict d4) /\
      set_likes_count (VDict d4) = Val (VDict d5) /\
      set_reactions_count (VDict d5) = Val (VDict d6) /\
      set_shares_count (VDict d6) = Val (VDict d7) /\
      set_post_link py_repr (VDict d7) = Val (VDict d8) /\
      set_interactions (VDict d8) = Val (VDict d9) /\
      row = VDict (dict_set "api_call_id" i d9).
Proof.
  intros to_datetime py_repr i d row H.
  unfold post_with_additional_collumns in H. cbn [is_empty_list] in H.
  apply obind_val in H. destruct H as [p1 [H1 H]].
  destruct (step_on_dict _ _ set_comments_count_writes _ _ H1) as [d1 [-> _]].
  apply obind_val in H. destruct H as [p2 [H2 H]].
  destruct (step_on_dict _ _ set_from_id_writes _ _ H2) as [d2 [-> _]].
  apply obind_val in H. destruct H as [p3 [H3 H]].
  destruct (step_on_dict _ _ set_from_name_writes _ _ H3) as [d3 [-> _]].
  apply obind_val in H. destruct H as [p4 [H4 H]].
  destruct (step_on_dict _ _ (set_created_time_writes to_datetime) _ _ H4) as [d4 [-> _]].
  apply obind_val in H. destruct H as [p5 [H5 H]].
  destruct (step_on_dict _ _ set_likes_count_writes _ _ H5) as [d5 [-> _]].
  apply obind_val in H. destruct H as [p6 [H6 H]].
  destruct (step_on_dict _ _ set_reactions_count_writes _ _ H6) as [d6 [-> _]].
  apply obind_val in H. destruct H as [p7 [H7 H]].
  destruct (step_on_dict _ _ set_shares_count_writes _ _ H7) as [d7 [-> _]].
  apply obind_val in H. destruct H as [p8 [H8 H]].
  destruct (step_on_dict _ _ (set_post_link_writes py_repr) _ _ H8) as [d8 [-> _]].
  apply obind_val in H. destruct H as [p9 [H9 H]].
  destruct (step_on_dict _ _ set_interactions_writes _ _ H9) as [d9 [-> _]].
  cbn in H. inversion H; subst row.
  exists d1, d2, d3, d4, d5, d6, d7, d8, d9. repeat split; assumption.
Qed.

Lemma is_derived_false :
  forall k, is_derived k = false ->
            Forall (fun kw => String.eqb k kw = false) derived_keys.
Proof.
  intros k H. unfold is_derived in H. apply Forall_forall. intros kw Hin.
  destruct (String.eqb k kw) eqn:E; [| reflexivity].
  assert (existsb (String.eqb k) derived_keys = true)
    by (apply existsb_exists; exists kw; split; assumption).
  congruence.
Qed.

Lemma normalised_post_from :
  forall to_datetime py_repr i post row,
    post_with_additional_collumns to_datetime py_repr i post = Val row ->
    normalised_from i post row.
Proof.
  intros to_datetime py_repr i post row H.
  destruct (normalised_post_steps _ _ _ _ _ H)
    as [[-> ->] | [d [d4 [d5 [d' [t [-> [-> _]]]]]]]].
  - left. split; reflexivity.
  - right.
    destruct (normalised_post_chain _ _ _ _ _ H)
      as [d1 [d2 [d3 [d4' [d5' [d6 [d7 [d8 [d9 [H1 [H2 [H3 [H4 [H5 [H6 [H7 [H8 [H9 E]]]]]]]]]]]]]]]]]].
    inversion E; subst d'.
    exists d, (dict_set "api_call_id" i d9). repeat split.
    + apply dict_get_set_same.
    + intros k Hk. apply is_derived_false in Hk. unfold derived_keys in Hk.
      repeat match goal with
             | Hf : Forall _ (_ :: _) |- _ => inversion Hf; subst; clear Hf
             end.
      destruct (step_on_dict _ _ set_comments_count_writes _ _ H1) as [x1 [E1 F1]].
      destruct (step_on_dict _ _ set_from_id_writes _ _ H2) as [x2 [E2 F2]].
      destruct (step_on_dict _ _ set_from_name_writes _ _ H3) as [x3 [E3 F3]].
      destruct (step_on_dict _ _ (set_created_time_writes to_datetime) _ _ H4) as [x4 [E4 F4]].
      destruct (step_on_dict _ _ set_likes_count_writes _ _ H5) as [x5 [E5 F5]].
      destruct (step_on_dict _ _ set_reactions_count_writes _ _ H6) as [x6 [E6 F6]].
      destruct (step_on_dict _ _ set_shares_count_writes _ _ H7) as [x7 [E7 F7]].
      destruct (step_on_dict _ _ (set_post_link_writes py_repr) _ _ H8) as [x8 [E8 F8]].
      destruct (step_on_dict _ _ set_interactions_writes _ _ H9) as [x9 [E9 F9]].
      inversion E1; inversion E2; inversion E3; inversion E4; inversion E5;
        inversion E6; inversion E7; inversion E8; inversion E9; subst.
      rewrite dict_get_set_other by assumption.
      rewrite F9, F8, F7, F6, F5, F4, F3, F2, F1 by assumption.
      reflexivity.
Qed.

Lemma transform_posts_normalised :
  forall to_datetime py_repr posts i rows,
    transform_posts to_datetime py_repr posts i = Val rows ->
    Forall2 (normalised_from i) posts rows.
Proof.
  intros to_datetime py_repr posts i rows H.
  apply omap_val in H.
  induction H as [| post row posts rows Hrow _ IH]; constructor.
  - eapply normalised_post_from; exact Hrow.
  - exact IH.
Qed.

(** X5.  [transform_posts] gives one row per raw post, in the same order;
    the row of a mapping carries the call id under [api_call_id] and every
    entry of the raw post that is not one of the ten derived fields,
    unchanged; an empty list stays an empty list. *)
Theorem transform_posts_keeps_raw_fields :
  forall (to_datetime : value -> outcome value) (py_repr : value -> string)
         (posts : list value) (i : value) (rows : list value),
    transform_posts to_datetime py_repr posts i = Val rows ->
    List.length rows = List.length posts /\
    Forall2 (normalised_from i) posts rows.
Proof.
  intros to_datetime py_repr posts i rows H.
  pose proof (transform_posts_normalised _ _ _ _ _ H) as HF.
  split; [symmetry; eapply Forall2_length; exact HF | exact HF].
Qed.

Lemma transform_posts_keeps_raw_fields_witness :
  exists rows,
    transform_posts graph_to_datetime plain_repr [counted_post; VList []] (VStr "page")
    = Val rows /\
    Forall2 (normalised_from (VStr "page")) [counted_post; VList []] rows.
Proof.
  eexists. split; [vm_compute; reflexivity |].
  apply (transform_posts_keeps_raw_fields graph_to_datetime plain_repr
           [counted_post; VList []] (VStr "page")).
  vm_compute. reflexivity.
Defined.

(** X6.  [transform_comments] stamps the call id on every comment and
    changes nothing else; it returns exactly when every comment is a
    mapping and raises [TypeError] otherwise. *)
Theorem transform_comments_stamps :
  forall (comments : list value) (i : value),
    (forallb is_dict comments = true ->
     exists rows, transform_comments comments i = Val rows /\
                  Forall2 (stamped_from i) comments rows) /\
    (forallb is_dict comments = false ->
     transform_comments comments i = Exc TypeError).
Proof.
  intros comments i. unfold transform_comments.
  induction comments as [| c comments [IHok IHbad]]; cbn [forallb omap].
  - split; [intros _; exists []; split; [reflexivity | constructor] | discriminate].
  - split.
    + intro H. apply andb_true_iff in H. destruct H as [Hc Hrest].
      destruct c; try discriminate.
      destruct (IHok Hrest) as [rows [Hrows HF]].
      exists (VDict (dict_set "api_call_id" i d) :: rows). split.
      * cbn. unfold transform_comments in Hrows. rewrite Hrows. reflexivity.
      * constructor; [| exact HF].
        exists d, (dict_set "api_call_id" i d). repeat split.
        -- apply dict_get_set_same.
        -- intros k Hk. apply dict_get_set_other. exact Hk.
    + intro H. apply andb_false_iff in H.
      destruct c; try reflexivity.
      destruct H as [H | H]; [discriminate |].
      cbn. rewrite (IHbad H). reflexivity.
Qed.

Lemma transform_comments_stamps_witness :
  forallb is_dict [comment "c1" 1; comment "c2" 0] = true /\
  exists rows,
    transform_comments [comment "c1" 1; comment "c2" 0] (VStr "post") = Val rows /\
    Forall2 (stamped_from (VStr "post")) [comment "c1" 1; comment "c2" 0] rows.
Proof.
  split; [reflexivity |].
  apply (proj1 (transform_comments_stamps [comment "c1" 1; comment "c2" 0] (VStr "post"))).
  reflexivity.
Defined.

Lemma present_counts_three :
  forall d counts,
    present_counts (VDict d) interactions_cols = Val counts ->
    exists cc rc sc,
      dict_get "comments_count" d = Some cc /\
      dict_get "reactions_count" d = Some rc /\
      dict_get "shares_count" d = Some sc /\
      counts = filter (fun v => negb (is_none v)) [cc; rc; sc].
Proof.
  intros d counts H. unfold interactions_cols in H. cbn [present_counts getitem] in H.
  destruct (dict_get "comments_count" d) as [cc |]; cbn [obind] in H; [| discriminate].
  destruct (is_none cc) eqn:Ncc;
    (destruct (dict_get "reactions_count" d) as [rc |]; cbn [obind] in H;
     [| discriminate]);
    (destruct (is_none rc) eqn:Nrc;
     (destruct (dict_get "shares_count" d) as [sc |]; cbn [obind] in H;
      [| discriminate]);
     destruct (is_none sc) eqn:Nsc; cbn [obind] in H; inversion H;
     exists cc, rc, sc; cbn [filter]; rewrite Ncc, Nrc, Nsc; repeat split).
Qed.

Lemma py_sum_counts :
  forall l acc total,
    py_sum acc l = Val total ->
    exists zs, omap (fun v => match count_value v with
                              | Some z => Val z
                              | None => Exc TypeError
                              end) l = Val zs /\
               total = VInt (fold_left Z.add zs acc).
Proof.
  intros l. induction l as [| v l IH]; intros acc total H; cbn in H.
  - inversion H. exists []. split; reflexivity.
  - destruct v; try discriminate.
    + apply IH in H. destruct H as [zs [Hzs ->]].
      exists ((if b then 1 else 0) :: zs). cbn. rewrite Hzs. split; reflexivity.
    + apply IH in H. destruct H as [zs [Hzs ->]].
      exists (z :: zs). cbn. rewrite Hzs. split; reflexivity.
Qed.

Lemma set_interactions_sum :
  forall d r,
    set_interactions (VDict d) = Val r ->
    exists cc rc sc c1 c2 c3,
      dict_get "comments_count" d = Some cc /\ count_value cc = Some c1 /\
      dict_get "reactions_count" d = Some rc /\ count_value rc = Some c2 /\
      dict_get "shares_count" d = Some sc /\ count_value sc = Some c3 /\
      r = VDict (dict_set "interactions" (VInt (c1 + c2 + c3)) d).
Proof.
  intros d r H. unfold set_interactions in H.
  apply obind_val in H. destruct H as [counts [Hcounts H]].
  apply obind_val in H. destruct H as [total [Htotal H]].
  cbn in H. inversion H; subst r. clear H.
  apply present_counts_three in Hcounts.
  destruct Hcounts as [cc [rc [sc [Hcc [Hrc [Hsc ->]]]]]].
  exists cc, rc, sc.
  destruct cc, rc, sc; cbn in Htotal; try discriminate;
    inversion Htotal; subst total;
    do 3 eexists; (repeat split; try eassumption; try reflexivity);
    cbn [count_value]; f_equal; f_equal; f_equal; lia.
Qed.

(** X7.  In every row [post_with_additional_collumns] returns for a
    mapping, [interactions] is the sum of the row's own [comments_count],
    [reactions_count] and [shares_count], a [None] counting as 0;
    [likes_count] is no part of it. *)
Theorem interactions_is_sum_of_counts :
  forall (to_datetime : value -> outcome value) (py_repr : value -> string)
         (i : value) (d : dict) (row : value),
    post_with_additional_collumns to_datetime py_repr i (VDict d) = Val row ->
    exists cc rc sc c1 c2 c3,
      row_get "comments_count" row = Some cc /\ count_value cc = Some c1 /\
      row_get "reactions_count" row = Some rc /\ count_value rc = Some c2 /\
      row_get "shares_count" row = Some sc /\ count_value sc = Some c3 /\
      row_get "interactions" row = Some (VInt (c1 + c2 + c3)).
Proof.
  intros to_datetime py_repr i d row H.
  destruct (normalised_post_chain _ _ _ _ _ H)
    as [d1 [d2 [d3 [d4 [d5 [d6 [d7 [d8 [d9 [_ [_ [_ [_ [_ [_ [_ [_ [H9 ->]]]]]]]]]]]]]]]]]].
  apply set_interactions_sum in H9.
  destruct H9 as [cc [rc [sc [c1 [c2 [c3 [Hcc [H1 [Hrc [H2 [Hsc [H3 E]]]]]]]]]]]].
  inversion E; subst d9.
  exists cc, rc, sc, c1, c2, c3. cbn [row_get].
  repeat split; try assumption;
    rewrite ?(dict_get_set_other _ "api_call_id") by reflexivity;
    rewrite ?(dict_get_set_other _ "interactions") by reflexivity;
    try assumption.
  apply dict_get_set_same.
Qed.

Lemma interactions_is_sum_of_counts_witness :
  exists row,
    post_with_additional_collumns graph_to_datetime plain_repr (VStr "page") counted_post
    = Val row /\
    row_get "comments_count" row = Some (VInt 4) /\
    row_get "reactions_count" row = Some (VInt 10) /\
    row_get "shares_count" row = Some (VInt 2) /\
    row_get "interactions" row = Some (VInt 16).
Proof.
  eexists. split; [vm_compute; reflexivity |].
  destruct (interactions_is_sum_of_counts graph_to_datetime plain_repr (VStr "page")
              _ _ (eq_refl : post_with_additional_collumns graph_to_datetime plain_repr
                               (VStr "page") counted_post = Val _))
    as [cc [rc [sc [c1 [c2 [c3 [Hcc [H1 [Hrc [H2 [Hsc [H3 Hsum]]]]]]]]]]]].
  vm_compute. repeat split; reflexivity.
Defined.

Lemma set_comments_count_missing :
  forall d, dict_get "comments" d = None ->
            set_comments_count (VDict d) = Val (VDict (dict_set "comments_count" VNone d)).
Proof.
  intros d H. unfold set_comments_count, getitem3. cbn. rewrite H. reflexivity.
Qed.

Lemma set_from_id_missing :
  forall d, dict_get "from" d = None ->
            set_from_id (VDict d) = Val (VDict (dict_set "from_id" VNone d)).
Proof.
  intros d H. unfold set_from_id, getitem2. cbn. rewrite H. reflexivity.
Qed.

Lemma set_from_name_missing :
  forall d, dict_get "from" d = None ->
            set_from_name (VDict d) = Val (VDict (dict_set "from_name" VNone d)).
Proof.
  intros d H. unfold set_from_name, getitem2. cbn. rewrite H. reflexivity.
Qed.

Lemma set_reactions_count_missing :
  forall d, dict_get "reactions" d = None ->
            set_reactions_count (VDict d)
            = Val (VDict (dict_set "reactions_count" VNone d)).
Proof.
  intros d H. unfold set_reactions_count, getitem3. cbn. rewrite H. reflexivity.
Qed.

Lemma set_shares_count_missing :
  forall d, dict_get "shares" d = None ->
            set_shares_count (VDict d) = Val (VDict (dict_set "shares_count" (VInt 0) d)).
Proof.
  intros d H. unfold set_shares_count. cbn. rewrite H. reflexivity.
Qed.

(** X8.  For a mapping without the sub-objects [comments], [from],
    [reactions] and [shares], every row the normaliser returns has
    [comments_count], [from_id], [from_name] and [reactions_count] set to
    [None], [shares_count] set to 0 and [interactions] 0. *)
Theorem missing_groups_give_sentinels :
  forall (to_datetime : value -> outcome value) (py_repr : value -> string)
         (i : value) (d : dict) (row : value),
    no_optional_groups d ->
    post_with_additional_collumns to_datetime py_repr i (VDict d) = Val row ->
    row_get "comments_count" row = Some VNone /\
    row_get "from_id" row = Some VNone /\
    row_get "from_name" row = Some VNone /\
    row_get "reactions_count" row = Some VNone /\
    row_get "shares_count" row = Some (VInt 0) /\
    row_get "interactions" row = Some (VInt 0).
Proof.
  intros to_datetime py_repr i d row [Hc [Hf [Hr Hs]]] H.
  destruct (normalised_post_chain _ _ _ _ _ H)
    as [d1 [d2 [d3 [d4 [d5 [d6 [d7 [d8 [d9 [H1 [H2 [H3 [H4 [H5 [H6 [H7 [H8 [H9 ->]]]]]]]]]]]]]]]]]].
  destruct (step_on_dict _ _ set_comments_count_writes _ _ H1) as [x1 [E1 F1]].
  destruct (step_on_dict _ _ set_from_id_writes _ _ H2) as [x2 [E2 F2]].
  destruct (step_on_dict _ _ set_from_name_writes _ _ H3) as [x3 [E3 F3]].
  destruct (step_on_dict _ _ (set_created_time_writes to_datetime) _ _ H4) as [x4 [E4 F4]].
  destruct (step_on_dict _ _ set_likes_count_writes _ _ H5) as [x5 [E5 F5]].
  destruct (step_on_dict _ _ set_reactions_count_writes _ _ H6) as [x6 [E6 F6]].
  destruct (step_on_dict _ _ set_shares_count_writes _ _ H7) as [x7 [E7 F7]].
  destruct (step_on_dict _ _ (set_post_link_writes py_repr) _ _ H8) as [x8 [E8 F8]].
  destruct (step_on_dict _ _ set_interactions_writes _ _ H9) as [x9 [E9 F9]].
  inversion E1; inversion E2; inversion E3; inversion E4; inversion E5;
    inversion E6; inversion E7; inversion E8; inversion E9; subst.
  clear E1 E2 E3 E4 E5 E6 E7 E8 E9.
  rewrite set_comments_count_missing in H1 by exact Hc.
  rewrite set_from_id_missing in H2 by (rewrite F1 by reflexivity; exact Hf).
  rewrite set_from_name_missing in H3
    by (rewrite F2, F1 by reflexivity; exact Hf).
  rewrite set_reactions_count_missing in H6
    by (rewrite F5, F4, F3, F2, F1 by reflexivity; exact Hr).
  rewrite set_shares_count_missing in H7
    by (rewrite F6, F5, F4, F3, F2, F1 by reflexivity; exact Hs).
  inversion H1; inversion H2; inversion H3; inversion H6; inversion H7.
  assert (Gc : dict_get "comments_count" x8 = Some VNone).
  { rewrite F8, F7, F6, F5, F4, F3, F2 by reflexivity.
    subst x1. apply dict_get_set_same. }
  assert (Gi : dict_get "from_id" x8 = Some VNone).
  { rewrite F8, F7, F6, F5, F4, F3 by reflexivity.
    subst x2. apply dict_get_set_same. }
  assert (Gn : dict_get "from_name" x8 = Some VNone).
  { rewrite F8, F7, F6, F5, F4 by reflexivity.
    subst x3. apply dict_get_set_same. }
  assert (Gr : dict_get "reactions_count" x8 = Some VNone).
  { rewrite F8, F7 by reflexivity. subst x6. apply dict_get_set_same. }
  assert (Gs : dict_get "shares_count" x8 = Some (VInt 0)).
  { rewrite F8 by reflexivity. subst x7. apply dict_get_set_same. }
  apply set_interactions_sum in H9.
  destruct H9 as [cc [rc [sc [c1 [c2 [c3 [Hcc [V1 [Hrc [V2 [Hsc [V3 E]]]]]]]]]]]].
  rewrite Gc in Hcc. rewrite Gr in Hrc. rewrite Gs in Hsc.
  inversion Hcc; inversion Hrc; inversion Hsc; subst cc rc sc.
  cbn in V1, V2, V3. inversion V1; inversion V2; inversion V3; subst c1 c2 c3.
  inversion E; subst x9.
  cbn [row_get].
  repeat split;
    rewrite ?(dict_get_set_other _ "api_call_id") by reflexivity;
    rewrite ?(dict_get_set_other _ "interactions") by reflexivity;
    try assumption.
  apply dict_get_set_same.
Qed.

Lemma missing_groups_give_sentinels_witness :
  no_optional_groups flat_record /\
  exists row,
    post_with_additional_collumns graph_to_datetime plain_repr (VStr "post")
      (VDict flat_record) = Val row /\
    row_get "comments_count" row = Some VNone /\
    row_get "from_id" row = Some VNone /\
    row_get "from_name" row = Some VNone /\
    row_get "reactions_count" row = Some VNone /\
    row_get "shares_count" row = Some (VInt 0) /\
    row_get "interactions" row = Some (VInt 0).
Proof.
  assert (Hbare : no_optional_groups flat_record) by (repeat split; reflexivity).
  split; [exact Hbare |].
  eexists. split; [vm_compute; reflexivity |].
  apply (missing_groups_give_sentinels graph_to_datetime plain_repr (VStr "post")
           flat_record _ Hbare).
  vm_compute. reflexivity.
Defined.

(** X9.  A mapping without [created_time], or with a [created_time] that
    parses but without [id], is not normalised: with the optional
    sub-objects absent, [post_with_additional_collumns] raises [KeyError],
    and [transform_posts] returns no rows for a list that holds the
    mapping. *)
Theorem missing_required_field_raises :
  forall (to_datetime : value -> outcome value) (py_repr : value -> string)
         (i : value) (d : dict) (before after : list value),
    no_optional_groups d ->
    dict_get "created_time" d = None \/
    (dict_get "id" d = None /\ lacks_likes_summary d /\
     exists raw t, dict_get "created_time" d = Some raw /\
                   to_datetime raw = Val (VTime t)) ->
    post_with_additional_collumns to_datetime py_repr i (VDict d) = Exc KeyError /\
    (forall rows, transform_posts to_datetime py_repr (before ++ VDict d :: after) i
                  <> Val rows).
Proof.
  intros to_datetime py_repr i d before after [Hc [Hf [Hr Hs]]] Hmissing.
  assert (Hraise : post_with_additional_collumns to_datetime py_repr i (VDict d)
                   = Exc KeyError).
  { unfold post_with_additional_collumns. cbn [is_empty_list].
    rewrite set_comments_count_missing by exact Hc. cbn [obind].
    rewrite set_from_id_missing by (dict_lookup; exact Hf). cbn [obind].
    rewrite set_from_name_missing by (dict_lookup; exact Hf). cbn [obind].
    destruct Hmissing as [Ht | [Hid [Hlacks [raw [t [Hraw Ht]]]]]].
    - unfold set_created_time. cbn [getitem]. dict_lookup. rewrite Ht. reflexivity.
    - unfold set_created_time. cbn [getitem obind]. dict_lookup. rewrite Hraw.
      cbn [obind]. rewrite Ht. cbn [obind setitem getitem]. dict_lookup.
      cbn [obind replace_tzinfo_none wall].
      rewrite set_likes_count_fallback
        by (unfold lacks_likes_summary; dict_lookup; exact Hlacks).
      cbn [obind].
      rewrite set_reactions_count_missing by (dict_lookup; exact Hr).
      cbn [obind].
      rewrite set_shares_count_missing by (dict_lookup; exact Hs).
      cbn [obind]. unfold set_post_link. cbn [getitem]. dict_lookup.
      rewrite Hid. reflexivity. }
  split; [exact Hraise |].
  intros rows H. unfold transform_posts in H. apply omap_val in H.
  apply Forall2_app_inv_l in H. destruct H as [r1 [r2 [_ [H _]]]].
  inversion H; subst. congruence.
Qed.

Lemma missing_required_field_raises_witness :
  no_optional_groups [("id", VStr "7")] /\
  post_with_additional_collumns graph_to_datetime plain_repr (VStr "page")
    (VDict [("id", VStr "7")]) = Exc KeyError /\
  (forall rows,
      transform_posts graph_to_datetime plain_repr
        ([counted_post] ++ VDict [("id", VStr "7")] :: []) (VStr "page") <> Val rows).
Proof.
  assert (Hbare : no_optional_groups [("id", VStr "7")]) by (repeat split; reflexivity).
  split; [exact Hbare |].
  apply (missing_required_field_raises graph_to_datetime plain_repr (VStr "page")
           [("id", VStr "7")] [counted_post] [] Hbare).
  left. reflexivity.
Defined.

(** ** Collectors: one id after the other *)

Lemma sdk_fatal_step :
  forall (remote : nat -> request -> response) (req : request) (w : world) (code : value),
    remote (calls w) req = Raises (GraphAPIError code) ->
    is_int4 code = false ->
    rate_limit_sdk (remote_call remote req) w
    = (Val (VList []),
       mk_world (S (calls w))
                (trace w ++ [EvCall req; EvLog WARNING msg_sdk_error]) (heap w)).
Proof.
  intros remote req w code Hsdk Hcode.
  unfold rate_limit_sdk. rewrite retry_fuel_eq.
  cbn [sdk_wrapper_loop]. change (0 <=? max_tries) with true. cbv iota.
  unfold bind, catch, remote_call. rewrite Hsdk. rewrite Hcode.
  unfold log, emit, ret. cbn. rewrite <- app_assoc. reflexivity.
Qed.

Lemma sdk_success_step :
  forall (remote : nat -> request -> response) (req : request) (w : world) (v : value),
    remote (calls w) req = Returns v ->
    rate_limit_sdk (remote_call remote req) w
    = (Val v, mk_world (S (calls w)) (trace w ++ [EvCall req]) (heap w)).
Proof.
  intros remote req w v Hsdk.
  unfold rate_limit_sdk. rewrite retry_fuel_eq.
  cbn [sdk_wrapper_loop]. change (0 <=? max_tries) with true. cbv iota.
  unfold bind, catch, remote_call. rewrite Hsdk. reflexivity.
Qed.

(** X10.  In [posts], an id whose fetch fails with an error other than
    code 4 contributes the empty list [[]] to the result (the governor's
    empty result is not [None]) and the loop goes on with the next id. *)
Theorem posts_failed_id_gives_empty_list :
  forall (remote : nat -> request -> response)
         (to_datetime : value -> outcome value) (py_repr : value -> string)
         (insights : bool) (i : value) (ids acc : list value) (w : world) (code : value),
    remote (calls w) (Post i insights) = Raises (GraphAPIError code) ->
    is_int4 code = false ->
    posts_loop remote to_datetime py_repr insights (i :: ids) acc w
    = posts_loop remote to_datetime py_repr insights ids (acc ++ [VList []])
        (mk_world (S (calls w))
           (trace w ++ [EvCall (Post i insights); EvLog WARNING msg_sdk_error])
           (heap w)).
Proof.
  intros remote to_datetime py_repr insights i ids acc w code Hremote Hcode.
  cbn [posts_loop]. unfold bind at 1. unfold get_post.
  rewrite (sdk_fatal_step _ _ _ _ Hremote Hcode).
  cbn [is_none negb]. unfold bind at 1. unfold bind at 1, lift.
  unfold transform_posts. cbn. reflexivity.
Qed.

Lemma posts_failed_id_gives_empty_list_witness :
  posts always_rejects graph_to_datetime plain_repr 0
    [VStr "gone"] false false false None world0
  = (Val (ResList [VList []]),
     mk_world 1 [EvCall (Post (VStr "gone") false); EvLog WARNING msg_sdk_error] []).
Proof.
  rewrite posts_runs_its_loop.
  rewrite (posts_failed_id_gives_empty_list always_rejects graph_to_datetime plain_repr
             false (VStr "gone") [] [] world0 (VInt 100) eq_refl eq_refl).
  reflexivity.
Defined.

(** X11.  In [profiles_info], an id whose fetch fails with an error other
    than code 4 aborts the run: the governor's empty list takes no
    [api_call_id] entry, the assignment raises [TypeError], the remaining
    ids are not fetched and nothing is saved. *)
Theorem profiles_info_aborts_on_failed_id :
  forall (remote : nat -> request -> response)
         (i : value) (ids : list value) (path : option string) (w : world) (code : value),
    remote (calls w) (ProfileInfo i) = Raises (GraphAPIError code) ->
    is_int4 code = false ->
    profiles_info remote (i :: ids) path w
    = (Exc TypeError,
       mk_world (S (calls w))
                (trace w ++ [EvCall (ProfileInfo i); EvLog WARNING msg_sdk_error])
                (heap w)).
Proof.
  intros remote i ids path w code Hremote Hcode.
  unfold profiles_info. cbn [profiles_info_loop].
  unfold bind at 1. unfold bind at 1. unfold get_profile_info.
  rewrite (sdk_fatal_step _ _ _ _ Hremote Hcode).
  unfold bind at 1, lift. cbn. reflexivity.
Qed.

Lemma profiles_info_aborts_on_failed_id_witness :
  profiles_info always_rejects [VStr "gone"; VStr "other"] (Some "out.csv") world0
  = (Exc TypeError,
     mk_world 1 [EvCall (ProfileInfo (VStr "gone")); EvLog WARNING msg_sdk_error] []).
Proof.
  apply (profiles_info_aborts_on_failed_id always_rejects (VStr "gone") [VStr "other"]
           (Some "out.csv") world0 (VInt 100)); reflexivity.
Defined.

Lemma profiles_info_loop_rows :
  forall (remote : nat -> request -> response),
    profiles_exist remote ->
    forall (ids acc : list value) (w : world),
    exists rows w',
      profiles_info_loop remote ids acc w = (Val (acc ++ rows), w') /\
      Forall2 fetched_under ids rows /\
      calls w' = (calls w + List.length ids)%nat /\
      sleeps (trace w') = sleeps (trace w) /\
      filter is_save (trace w') = filter is_save (trace w) /\
      heap w' = heap w.
Proof.
  intros remote Hexist ids.
  induction ids as [| i ids IH]; intros acc w.
  - exists [], w. cbn. rewrite app_nil_r. repeat split; try constructor; lia.
  - destruct (Hexist (calls w) i) as [d Hd].
    cbn [profiles_info_loop]. unfold bind at 1. unfold get_profile_info.
    rewrite (sdk_success_step _ _ _ _ Hd).
    unfold bind at 1, lift. cbn [setitem].
    match goal with
    | |- context [profiles_info_loop remote ids ?acc' ?w1] =>
        destruct (IH acc' w1) as [rows [w' [Hrun [Hrows [Hcalls [Hsl [Hsv Hheap]]]]]]]
    end.
    exists (VDict (dict_set "api_call_id" i d) :: rows), w'.
    split; [rewrite Hrun, <- app_assoc; reflexivity |].
    cbn [calls trace heap] in *. repeat split.
    + constructor; [| exact Hrows].
      exists (dict_set "api_call_id" i d). split; [reflexivity | apply dict_get_set_same].
    + cbn [List.length]. lia.
    + rewrite Hsl, sleeps_app. cbn. apply app_nil_r.
    + rewrite Hsv, filter_app. cbn. apply app_nil_r.
    + exact Hheap.
Qed.

Lemma fetched_rows_are_dicts :
  forall ids rows, Forall2 fetched_under ids rows -> forallb is_dict rows = true.
Proof.
  intros ids rows H. induction H as [| i row ids rows [d [-> _]] _ IH]; [reflexivity |].
  cbn. exact IH.
Qed.

(** X12.  When every profile-info request is answered with a mapping,
    [profiles_info] returns one row per id, in the order of the ids, each
    carrying its id under [api_call_id]; it makes one remote invocation per
    id and never sleeps. *)
Theorem profiles_info_one_row_per_id :
  forall (remote : nat -> request -> response) (ids : list value) (w : world),
    profiles_exist remote ->
    exists df w',
      profiles_info remote ids None w = (Val df, w') /\
      Forall2 fetched_under ids df /\
      calls w' = (calls w + List.length ids)%nat /\
      sleeps (trace w') = sleeps (trace w).
Proof.
  intros remote ids w Hexist.
  destruct (profiles_info_loop_rows remote Hexist ids [] w)
    as [rows [w' [Hrun [Hrows [Hcalls [Hsl [_ _]]]]]]].
  exists rows, w'. unfold profiles_info. unfold bind at 1. rewrite Hrun.
  cbn [app]. unfold bind at 1, lift, DataFrame.
  rewrite (fetched_rows_are_dicts _ _ Hrows). cbn [orb].
  unfold bind, save_df, ret. repeat split; assumption.
Qed.

Lemma profiles_info_one_row_per_id_witness :
  profiles_exist profile_directory /\
  exists df w',
    profiles_info profile_directory [VStr "a"; VInt 7] None world0 = (Val df, w') /\
    Forall2 fetched_under [VStr "a"; VInt 7] df /\
    calls w' = 2%nat /\ sleeps (trace w') = [].
Proof.
  assert (H : profiles_exist profile_directory).
  { intros k i. eexists. reflexivity. }
  split; [exact H |].
  exact (profiles_info_one_row_per_id profile_directory [VStr "a"; VInt 7] world0 H).
Defined.

(** ** [posts_comments], id by id *)

(** X13.  In [posts_comments], an id whose first call gives an empty first
    page adds no row: the loop body returns the accumulator as it was, in
    the world the first call left (after printing the id and allocating the
    element list). *)
Theorem comments_empty_first_page :
  forall (remote : nat -> request -> response) (fuel : nat) (n : Z)
         (i : value) (comments : list value) (w w1 : world) (connection : value),
    get_post_comments_initial_call remote i n
      (snd (new_list (snd (print i w)))) = (Val connection, w1) ->
    first_page_empty connection ->
    posts_comments_body remote fuel n i comments w = (Val comments, w1).
Proof.
  intros remote fuel n i comments w w1 connection Hcall Hempty.
  unfold posts_comments_body. unfold bind at 1. cbn [print emit].
  unfold bind at 1. cbn [new_list calls trace heap].
  cbn [print emit new_list snd calls trace heap] in Hcall.
  unfold bind at 1. rewrite Hcall.
  rewrite (first_page_empty_no_data _ Hempty). reflexivity.
Qed.

Lemma comments_empty_first_page_witness :
  first_page_empty (VList []) /\
  posts_comments_body always_rejects 0 100 (VStr "post") [] world0
  = (Val [],
     mk_world 1 [EvPrint (VStr "post"); EvCall (PostComments (VStr "post"));
                 EvLog WARNING msg_sdk_error] [[]]).
Proof.
  assert (Hempty : first_page_empty (VList [])) by (left; reflexivity).
  split; [exact Hempty |].
  apply (comments_empty_first_page always_rejects 0 100 (VStr "post") [] world0 _
           (VList [])); [reflexivity | exact Hempty].
Defined.

Lemma nth_app_new :
  forall (A : Type) (l : list A) (x default : A),
    nth (List.length l) (l ++ [x]) default = x.
Proof.
  intros A l x default. rewrite app_nth2 by lia.
  rewrite Nat.sub_diag. reflexivity.
Qed.

(** X14.  [posts_comments] raises [TypeError] for every id whose first page
    alone holds [n] or more comments: the inner [paginate_elements] is left
    by its loop condition and yields [None]. *)
Theorem comments_fault_when_first_page_fills_cap :
  forall (remote : nat -> request -> response) (fuel : nat) (n : Z)
         (i : value) (comments : list value) (w w1 : world)
         (connection data : value) (items : list value),
    get_post_comments_initial_call remote i n
      (snd (new_list (snd (print i w)))) = (Val connection, w1) ->
    returns_data connection = true ->
    connection_data connection = Val data ->
    py_iter data = Val items ->
    n <= len items ->
    fst (posts_comments_body remote (S fuel) n i comments w) = Exc TypeError.
Proof.
  intros remote fuel n i comments w w1 connection data items
         Hcall Hdata Hconn Hitems Hcap.
  pose proof (keeps_heap_initial_comments _ _ _ _ _ _ Hcall) as Hheap.
  cbn [print emit new_list snd calls trace heap] in Hcall, Hheap.
  unfold posts_comments_body. unfold bind at 1. cbn [print emit].
  unfold bind at 1. cbn [new_list calls trace heap].
  unfold bind at 1. rewrite Hcall. rewrite Hdata.
  unfold bind at 1, lift at 1. rewrite Hconn.
  unfold bind at 1. unfold extend_value, bind at 1, lift at 1. rewrite Hitems.
  unfold append_items. cbn [calls trace heap].
  unfold bind at 1. unfold bind at 1.
  cbn [comments_paginate_elements]. unfold bind at 1, read_list at 1.
  cbn [heap]. rewrite nth_update_nth_same by (rewrite Hheap, length_app; cbn; lia).
  rewrite Hheap, nth_app_new. cbn [app].
  replace (len items <? n) with false by (symmetry; apply Z.ltb_ge; exact Hcap).
  reflexivity.
Qed.

Lemma comments_fault_when_first_page_fills_cap_witness :
  fst (posts_comments_body two_comments 1 2 (VStr "post") [] world0) = Exc TypeError.
Proof.
  eapply (comments_fault_when_first_page_fills_cap two_comments 0 2 (VStr "post") []
            world0 _ _ (VList [comment "c1" 1; comment "c2" 0])
            [comment "c1" 1; comment "c2" 0]);
    [reflexivity | reflexivity | reflexivity | reflexivity | vm_compute; discriminate].
Defined.

(** ** [profiles_posts]: enrichment flags, the cap *)

Lemma add_info_only_empty :
  forall remote py_repr df w df' w',
    add_info remote py_repr df w = (Val df', w') -> df = [] /\ df' = [].
Proof.
  intros remote py_repr df w df' w' H. unfold add_info in H.
  destruct (len df =? 0) eqn:Hlen.
  - unfold bind, log, emit, ret in H. inversion H; subst.
    destruct df' as [| row df']; [split; reflexivity |].
    apply Z.eqb_eq in Hlen. unfold len in Hlen. cbn [List.length] in Hlen. lia.
  - unfold post_from_col, bind, lift in H. discriminate.
Qed.

Lemma add_comments_nonempty :
  forall remote fuel df w df' w',
    add_comments remote fuel df w = (Val df', w') -> df <> [] /\ df' <> [].
Proof.
  intros remote fuel df w df' w' H. unfold add_comments in H.
  apply bind_val in H. destruct H as [ids [w1 [Hids H]]].
  apply lift_val in Hids. destruct Hids as [Hids _].
  apply bind_val in H. destruct H as [comments_df [w2 [_ H]]].
  apply bind_val in H. destruct H as [keys [w3 [_ H]]].
  apply bind_val in H. destruct H as [likes [w4 [_ H]]].
  apply lift_val in H. destruct H as [H _]. apply omap_val in H.
  destruct df as [| row df]; [discriminate |].
  split; [discriminate |]. inversion H; subst. discriminate.
Qed.

(** X15.  [profiles_posts] with [info=True] returns only when no post is
    left after the time range control, and then returns the empty frame
    (on any row [add_info] reads the undefined [self.post_from_col]); with
    [comments=True] it never returns an empty frame (on a frame without an
    [id] column [add_comments] raises). *)
Theorem profiles_posts_enrichment_flags :
  forall (remote : nat -> request -> response)
         (to_datetime : value -> outcome value) (py_repr : value -> string)
         (fuel : nat) (ids : list value) (since until : datetime) (n : Z)
         (insights comments info : bool) (path : option string)
         (w : world) (df : dataframe) (w' : world),
    profiles_posts remote to_datetime py_repr fuel ids since until n
      insights comments info path w = (Val df, w') ->
    (info = true -> df = [] /\ comments = false) /\
    (comments = true -> df <> [] /\ info = false).
Proof.
  intros remote to_datetime py_repr fuel ids since until n insights comments info path
         w df w' H.
  unfold profiles_posts in H.
  apply bind_val in H. destruct H as [posts [w1 [_ H]]].
  apply bind_val in H. destruct H as [df0 [w2 [_ H]]].
  apply bind_val in H. destruct H as [df1 [w3 [_ H]]].
  apply bind_val in H. destruct H as [df2 [w4 [Hinfo H]]].
  apply bind_val in H. destruct H as [df3 [w5 [Hcomments H]]].
  apply bind_val in H. destruct H as [u [w6 [_ H]]].
  inversion H; subst df w6.
  destruct info, comments.
  - apply add_info_only_empty in Hinfo. destruct Hinfo as [_ ->].
    apply add_comments_nonempty in Hcomments. destruct Hcomments as [C _].
    exfalso. apply C. reflexivity.
  - apply add_info_only_empty in Hinfo. destruct Hinfo as [_ ->].
    inversion Hcomments; subst.
    split; [intros _; split; reflexivity | discriminate].
  - apply add_comments_nonempty in Hcomments. destruct Hcomments as [_ C].
    split; [discriminate | intros _; split; [exact C | reflexivity]].
  - split; discriminate.
Qed.

Lemma profiles_posts_enrichment_flags_witness :
  profiles_posts no_posts graph_to_datetime plain_repr 0 [VStr "profile"]
    jan_1_2020 jan_31_2020 100 false false true None world0
  = (Val [],
     snd (profiles_posts no_posts graph_to_datetime plain_repr 0 [VStr "profile"]
            jan_1_2020 jan_31_2020 100 false false true None world0)) /\
  (([] : dataframe) = [] /\ false = false).
Proof.
  assert (Hrun : profiles_posts no_posts graph_to_datetime plain_repr 0 [VStr "profile"]
                   jan_1_2020 jan_31_2020 100 false false true None world0
                 = (Val [],
                    snd (profiles_posts no_posts graph_to_datetime plain_repr 0
                           [VStr "profile"] jan_1_2020 jan_31_2020 100
                           false false true None world0)))
    by (vm_compute; reflexivity).
  split; [exact Hrun |].
  exact (proj1 (profiles_posts_enrichment_flags _ _ _ _ _ _ _ _ _ _ _ _ _ _ _ Hrun)
               eq_refl).
Defined.

Lemma sdk_wrapper_result :
  forall (remote : nat -> request -> response) (req : request)
         (fuel : nat) (tries : Z) (w : world) (c : value) (w' : world),
    sdk_wrapper_loop fuel (remote_call remote req) tries w = (Val c, w') ->
    c = VList [] \/ exists k, remote k req = Returns c.
Proof.
  intros remote req fuel.
  induction fuel as [| fuel IH]; intros tries w c w' H.
  - discriminate.
  - cbn [sdk_wrapper_loop] in H.
    destruct (tries <=? max_tries).
    + unfold bind, catch, remote_call in H.
      destruct (remote (calls w) req) as [v | e] eqn:Hremote.
      * inversion H; subst. right. exists (calls w). exact Hremote.
      * destruct e; try discriminate.
        destruct (is_int4 code).
        -- unfold log, sleep, emit, ret in H. eapply IH. exact H.
        -- unfold log, emit, ret in H. inversion H. left. reflexivity.
    + unfold bind, log, emit, ret in H. inversion H. left. reflexivity.
Qed.

Lemma requests_wrapper_result :
  forall (remote : nat -> request -> response) (connection : value)
         (fuel : nat) (tries : Z) (w : world) (c : value) (w' : world),
    requests_wrapper_loop fuel
      (url <- lift (getitem2 connection "paging" "next") ;;
       remote_call remote (NextPage url)) tries w = (Val c, w') ->
    c = VList [] \/ exists k url, remote k (NextPage url) = Returns c.
Proof.
  intros remote connection fuel.
  induction fuel as [| fuel IH]; intros tries w c w' H.
  - discriminate.
  - cbn [requests_wrapper_loop] in H.
    destruct (tries <=? max_tries).
    + apply bind_val in H. destruct H as [v [w1 [Hfunc H]]].
      apply bind_val in Hfunc. destruct Hfunc as [url [w0 [Hurl Hfunc]]].
      apply lift_val in Hurl. destruct Hurl as [_ ->].
      unfold remote_call in Hfunc.
      destruct (remote (calls w) (NextPage url)) as [v' | e] eqn:Hremote;
        [| discriminate].
      inversion Hfunc; subst v' w1. clear Hfunc.
      apply bind_val in H. destruct H as [has_error [w2 [_ H]]].
      destruct has_error.
      * apply bind_val in H. destruct H as [code [w3 [_ H]]].
        destruct (is_int4 code).
        -- apply bind_val in H. destruct H as [u1 [w4 [_ H]]].
           apply bind_val in H. destruct H as [u2 [w5 [_ H]]].
           eapply IH. exact H.
        -- apply bind_val in H. destruct H as [err [w4 [_ H]]].
           apply bind_val in H. destruct H as [u1 [w5 [_ H]]].
           inversion H. left. reflexivity.
      * inversion H; subst. right. exists (calls w), url. exact Hremote.
    + unfold bind, log, emit, ret in H. inversion H. left. reflexivity.
Qed.

Lemma next_connection_result :
  forall remote connection w c w',
    catch (c <- get_next_connection remote connection ;; ret (Some c))
      (fun e => match e with
                | KeyError => Some (log INFO msg_no_next_page >> ret None)
                | _ => None
                end) w = (Val (Some c), w') ->
    heap w' = heap w /\
    (c = VList [] \/ exists k url, remote k (NextPage url) = Returns c).
Proof.
  intros remote connection w c w' H. split.
  - revert H. apply keeps_heap_catch.
    + apply keeps_heap_bind; [apply keeps_heap_get_next_connection | intro; auto with heap].
    + intros e h Hh. destruct e; try discriminate. inversion Hh; subst.
      apply keeps_heap_bind; [unfold log; auto with heap | intro; auto with heap].
  - unfold catch in H.
    destruct ((c0 <- get_next_connection remote connection;; ret (Some c0)) w)
      as [[r | e |] w1] eqn:Hrun.
    + inversion H; subst. apply bind_val in Hrun.
      destruct Hrun as [c0 [w2 [Hget Hret]]]. inversion Hret; subst.
      unfold get_next_connection, rate_limit_requests in Hget.
      eapply requests_wrapper_result. exact Hget.
    + destruct e; discriminate.
    + discriminate.
Qed.

Lemma next_connection_none :
  forall remote connection w w',
    catch (c <- get_next_connection remote connection ;; ret (Some c))
      (fun e => match e with
                | KeyError => Some (log INFO msg_no_next_page >> ret None)
                | _ => None
                end) w = (Val None, w') ->
    heap w' = heap w.
Proof.
  intros remote connection w w'. apply keeps_heap_catch.
  - apply keeps_heap_bind; [apply keeps_heap_get_next_connection | intro; auto with heap].
  - intros e h Hh. destruct e; try discriminate. inversion Hh; subst.
    apply keeps_heap_bind; [unfold log; auto with heap | intro; auto with heap].
Qed.

(** The inner [paginate_elements] of [profiles_posts] only appends to the
    element list, and returns that list. *)
Lemma posts_paginate_appends :
  forall remote to_datetime fuel since_tz n elements connection w page w',
    posts_paginate_elements remote to_datetime fuel since_tz n elements connection w
    = (Val page, w') ->
    (elements < List.length (heap w))%nat ->
    page = ObjList elements /\
    List.length (heap w') = List.length (heap w) /\
    exists extra,
      nth elements (heap w') [] = nth elements (heap w) [] ++ extra.
Proof.
  intros remote to_datetime fuel since_tz n elements.
  induction fuel as [| fuel IH]; intros connection w page w' H Hloc;
    cbn [posts_paginate_elements] in H.
  - discriminate.
  - apply bind_val in H. destruct H as [cur [w1 [Hread H]]].
    inversion Hread; subst cur w1. clear Hread.
    apply bind_val in H. destruct H as [go_on [w2 [Hgo H]]].
    assert (Hw2 : w2 = w).
    { destruct (len (nth elements (heap w) []) <? n).
      - apply bind_val in Hgo. destruct Hgo as [x1 [v1 [E1 Hgo]]].
        apply lift_val in E1. destruct E1 as [_ ->].
        apply bind_val in Hgo. destruct Hgo as [x2 [v2 [E2 Hgo]]].
        apply lift_val in E2. destruct E2 as [_ ->].
        apply bind_val in Hgo. destruct Hgo as [x3 [v3 [E3 Hgo]]].
        apply lift_val in E3. destruct E3 as [_ ->].
        apply lift_val in Hgo. destruct Hgo as [_ ->]. reflexivity.
      - inversion Hgo. reflexivity. }
    subst w2. clear Hgo.
    destruct go_on.
    + apply bind_val in H. destruct H as [r [w3 [Hnext H]]].
      destruct r as [connection' |].
      * apply next_connection_result in Hnext. destruct Hnext as [Hheap _].
        destruct (returns_data connection').
        -- apply bind_val in H. destruct H as [data [w4 [Hdata H]]].
           apply lift_val in Hdata. destruct Hdata as [_ ->].
           apply bind_val in H. destruct H as [u [w5 [Hext H]]].
           unfold extend_value in Hext.
           apply bind_val in Hext. destruct Hext as [items [w6 [Hitems Hext]]].
           apply lift_val in Hitems. destruct Hitems as [_ ->].
           inversion Hext; subst w5. clear Hext.
           apply IH in H;
             [| cbn [heap]; rewrite length_update_nth, Hheap; exact Hloc].
           destruct H as [-> [Hlen [extra Hextra]]].
           cbn [heap] in Hlen, Hextra.
           rewrite length_update_nth, Hheap in Hlen.
           rewrite nth_update_nth_same, Hheap in Hextra by (rewrite Hheap; exact Hloc).
           split; [reflexivity |]. split; [exact Hlen |].
           exists (items ++ extra). rewrite Hextra, app_assoc. reflexivity.
        -- unfold bind, log, emit, ret in H. inversion H; subst. cbn [heap].
           rewrite Hheap. split; [reflexivity |]. split; [reflexivity |].
           exists []. rewrite app_nil_r. reflexivity.
      * apply next_connection_none in Hnext. inversion H; subst.
        rewrite Hnext. split; [reflexivity |]. split; [reflexivity |].
        exists []. rewrite app_nil_r. reflexivity.
    + inversion H; subst. split; [reflexivity |]. split; [reflexivity |].
      exists []. rewrite app_nil_r. reflexivity.
Qed.

Lemma keeps_heap_initial_posts :
  forall remote i since until n insights,
    keeps_heap (get_profile_posts_initial_call remote i since until n insights).
Proof.
  intros. unfold get_profile_posts_initial_call, rate_limit_sdk.
  apply keeps_heap_sdk_wrapper. auto with heap.
Qed.

Lemma transform_posts_length :
  forall to_datetime py_repr posts i rows,
    transform_posts to_datetime py_repr posts i = Val rows ->
    List.length rows = List.length posts.
Proof.
  intros to_datetime py_repr posts i rows H. apply omap_val in H.
  symmetry. eapply Forall2_length. exact H.
Qed.

(** The loop body of [profiles_posts], taken apart: what was collected is
    the first page's items followed by what pagination appended. *)
Lemma profiles_posts_body_collects :
  forall remote to_datetime py_repr fuel since_tz until_tz n insights i posts w out w'
         connection w1,
    get_profile_posts_initial_call remote i since_tz until_tz n insights
      (snd (new_list w)) = (Val connection, w1) ->
    returns_data connection = true ->
    profiles_posts_body remote to_datetime py_repr fuel since_tz until_tz n insights
      i posts w = (Val out, w') ->
    exists data items extra rows w2 w3 page,
      connection_data connection = Val data /\
      py_iter data = Val items /\
      posts_paginate_elements remote to_datetime fuel since_tz n
        (List.length (heap w)) connection w2 = (Val page, w3) /\
      (List.length (heap w) < List.length (heap w2))%nat /\
      nth (List.length (heap w)) (heap w2) [] = items /\
      nth (List.length (heap w)) (heap w3) [] = items ++ extra /\
      transform_posts to_datetime py_repr (items ++ extra) i = Val rows /\
      out = posts ++ rows.
Proof.
  intros remote to_datetime py_repr fuel since_tz until_tz n insights i posts w out w'
         connection w1 Hcall Hdata H.
  pose proof (keeps_heap_initial_posts _ _ _ _ _ _ _ _ _ Hcall) as Hheap.
  cbn [new_list snd calls trace heap] in Hcall, Hheap.
  unfold profiles_posts_body in H.
  apply bind_val in H. destruct H as [elements [w0 [Hnew H]]].
  inversion Hnew; subst elements w0. clear Hnew.
  apply bind_val in H. destruct H as [connection' [w1' [Hcall' H]]].
  rewrite Hcall in Hcall'. inversion Hcall'; subst connection' w1'. clear Hcall'.
  rewrite Hdata in H.
  apply bind_val in H. destruct H as [data [w2 [Hd H]]].
  apply lift_val in Hd. destruct Hd as [Hd ->].
  apply bind_val in H. destruct H as [u [w3 [Hext H]]].
  unfold extend_value in Hext.
  apply bind_val in Hext. destruct Hext as [items [w4 [Hitems Hext]]].
  apply lift_val in Hitems. destruct Hitems as [Hitems ->].
  inversion Hext; subst w3. clear Hext.
  apply bind_val in H. destruct H as [page [w5 [Hpage H]]].
  assert (Hfirst : nth (List.length (heap w))
                       (update_nth (List.length (heap w)) (fun old => old ++ items)
                                   (heap w1)) [] = items).
  { rewrite nth_update_nth_same by (rewrite Hheap, length_app; cbn; lia).
    rewrite Hheap, nth_app_new. reflexivity. }
  pose proof Hpage as Hpage'.
  apply posts_paginate_appends in Hpage';
    [| cbn [heap]; rewrite length_update_nth, Hheap, length_app; cbn; lia].
  destruct Hpage' as [-> [_ [extra Hextra]]].
  cbn [heap] in Hextra. rewrite Hfirst in Hextra.
  apply bind_val in H. destruct H as [collected [w6 [Hread H]]].
  inversion Hread; subst collected w6. clear Hread.
  apply bind_val in H. destruct H as [rows [w7 [Hrows H]]].
  apply lift_val in Hrows. destruct Hrows as [Hrows ->].
  inversion H; subst out w'. clear H.
  rewrite Hextra in Hrows.
  eexists data, items, extra, rows, _, w5, (ObjList (List.length (heap w))).
  repeat split; try eassumption.
  cbn [heap]. rewrite length_update_nth, Hheap, length_app. cbn. lia.
Qed.

Lemma len_app :
  forall (A : Type) (l1 l2 : list A), len (l1 ++ l2) = len l1 + len l2.
Proof.
  intros A l1 l2. unfold len. rewrite length_app. lia.
Qed.

Lemma len_nonneg : forall (A : Type) (l : list A), 0 <= len l.
Proof. intros A l. unfold len. lia. Qed.

(** With pages of at most [size] items, pagination leaves at most
    [n - 1 + size] elements, unless it started with more. *)
Lemma posts_paginate_bound :
  forall remote to_datetime size,
    pages_bounded remote size ->
    forall fuel since_tz n elements connection w page w',
      posts_paginate_elements remote to_datetime fuel since_tz n elements connection w
      = (Val page, w') ->
      (elements < List.length (heap w))%nat ->
      len (nth elements (heap w') []) <= Z.max (len (nth elements (heap w) [])) (n - 1 + size).
Proof.
  intros remote to_datetime size Hsize fuel since_tz n elements.
  induction fuel as [| fuel IH]; intros connection w page w' H Hloc;
    cbn [posts_paginate_elements] in H.
  - discriminate.
  - apply bind_val in H. destruct H as [cur [w1 [Hread H]]].
    inversion Hread; subst cur w1. clear Hread.
    apply bind_val in H. destruct H as [go_on [w2 [Hgo H]]].
    destruct (len (nth elements (heap w) []) <? n) eqn:Hlt.
    + apply Z.ltb_lt in Hlt.
      apply bind_val in Hgo. destruct Hgo as [x1 [v1 [E1 Hgo]]].
      apply lift_val in E1. destruct E1 as [_ ->].
      apply bind_val in Hgo. destruct Hgo as [x2 [v2 [E2 Hgo]]].
      apply lift_val in E2. destruct E2 as [_ ->].
      apply bind_val in Hgo. destruct Hgo as [x3 [v3 [E3 Hgo]]].
      apply lift_val in E3. destruct E3 as [_ ->].
      apply lift_val in Hgo. destruct Hgo as [_ ->].
      destruct go_on; [| inversion H; subst; lia].
      apply bind_val in H. destruct H as [r [w3 [Hnext H]]].
      destruct r as [connection' |].
      * apply next_connection_result in Hnext. destruct Hnext as [Hheap Hfrom].
        destruct (returns_data connection') eqn:Hdata.
        -- apply bind_val in H. destruct H as [data [w4 [Hd H]]].
           apply lift_val in Hd. destruct Hd as [Hd ->].
           apply bind_val in H. destruct H as [u [w5 [Hext H]]].
           unfold extend_value in Hext.
           apply bind_val in Hext. destruct Hext as [items [w6 [Hitems Hext]]].
           apply lift_val in Hitems. destruct Hitems as [Hitems ->].
           inversion Hext; subst w5. clear Hext.
           assert (Hpage : len items <= size).
           { destruct Hfrom as [-> | [k [url Hremote]]]; [discriminate |].
             eapply Hsize; eassumption. }
           apply IH in H;
             [| cbn [heap]; rewrite length_update_nth, Hheap; exact Hloc].
           cbn [heap] in H.
           rewrite nth_update_nth_same, Hheap in H by (rewrite Hheap; exact Hloc).
           rewrite len_app in H. lia.
        -- unfold bind, log, emit, ret in H. inversion H; subst. cbn [heap].
           rewrite Hheap. lia.
      * apply next_connection_none in Hnext. inversion H; subst.
        rewrite Hnext. lia.
    + inversion Hgo; subst. inversion H; subst. lia.
Qed.

Lemma profiles_posts_body_cases :
  forall remote to_datetime py_repr fuel since_tz until_tz n insights i posts w out w',
    profiles_posts_body remote to_datetime py_repr fuel since_tz until_tz n insights
      i posts w = (Val out, w') ->
    exists connection w1,
      get_profile_posts_initial_call remote i since_tz until_tz n insights
        (snd (new_list w)) = (Val connection, w1) /\
      (returns_data connection = true \/
       (returns_data connection = false /\ out = posts)).
Proof.
  intros remote to_datetime py_repr fuel since_tz until_tz n insights i posts w out w' H.
  unfold profiles_posts_body in H.
  apply bind_val in H. destruct H as [elements [w0 [Hnew H]]].
  inversion Hnew; subst elements w0. clear Hnew.
  apply bind_val in H. destruct H as [connection [w1 [Hcall H]]].
  exists connection, w1. split; [exact Hcall |].
  destruct (returns_data connection); [left; reflexivity |].
  right. inversion H. split; reflexivity.
Qed.

(** X17.  When no page of the remote holds more than [size] items,
    [profiles_posts] adds for one id at most [max size (n - 1 + size)] rows:
    for a cap [n] >= 1 fewer than [n + size], the overshoot staying below
    one page. *)
Theorem profiles_posts_overshoot_below_one_page :
  forall (remote : nat -> request -> response)
         (to_datetime : value -> outcome value) (py_repr : value -> string)
         (fuel : nat) (since_tz until_tz : datetime) (n : Z) (insights : bool)
         (i : value) (posts out : list value) (w w' : world) (size : Z),
    0 <= size ->
    pages_bounded remote size ->
    profiles_posts_body remote to_datetime py_repr fuel since_tz until_tz n insights
      i posts w = (Val out, w') ->
    len out <= len posts + Z.max size (n - 1 + size) /\
    (1 <= n -> len out < len posts + n + size).
Proof.
  intros remote to_datetime py_repr fuel since_tz until_tz n insights i posts out
         w w' size Hpos Hsize H.
  assert (Hbound : len out <= len posts + Z.max size (n - 1 + size)).
  { destruct (profiles_posts_body_cases _ _ _ _ _ _ _ _ _ _ _ _ _ H)
      as [connection [w1 [Hcall [Hdata | [Hdata ->]]]]]; [| lia].
    destruct (profiles_posts_body_collects _ _ _ _ _ _ _ _ _ _ _ _ _ _ _ Hcall Hdata H)
      as [data [items [extra [rows [w2 [w3 [page
            [Hd [Hi [Hpage [Hloc [Hfirst [Hlast [Hrows ->]]]]]]]]]]]]]].
    apply (posts_paginate_bound _ _ _ Hsize) in Hpage; [| exact Hloc].
    rewrite Hfirst, Hlast in Hpage.
    assert (Hitems : len items <= size).
    { unfold get_profile_posts_initial_call, rate_limit_sdk in Hcall.
      apply sdk_wrapper_result in Hcall.
      destruct Hcall as [-> | [k Hremote]]; [discriminate |].
      eapply Hsize; eassumption. }
    apply transform_posts_length in Hrows.
    rewrite len_app. unfold len at 2. rewrite Hrows. fold (len (items ++ extra)). lia. }
  split; [exact Hbound | lia].
Qed.

Lemma full_pages_bounded : pages_bounded full_pages 25.
Proof.
  intros k req v data items Hremote Hdata Hitems.
  destruct req; cbn in Hremote; try discriminate.
  - inversion Hremote; subst v. cbn in Hdata. inversion Hdata; subst data.
    cbn in Hitems. inversion Hitems; subst items. vm_compute. discriminate.
  - destruct (value_eqb url (VStr "posts-page-2"));
      inversion Hremote; subst v; cbn in Hdata; inversion Hdata; subst data;
      cbn in Hitems; inversion Hitems; subst items; vm_compute; discriminate.
Qed.

Lemma profiles_posts_overshoot_below_one_page_witness :
  pages_bounded full_pages 25 /\
  exists out w',
    profiles_posts_body full_pages graph_to_datetime plain_repr 3
      (add_timezone jan_1_2020) (add_timezone jan_31_2020) 30 false
      (VStr "profile") [] world0 = (Val out, w') /\
    len out <= len ([] : list value) + Z.max 25 (30 - 1 + 25) /\
    (1 <= 30 -> len out < len ([] : list value) + 30 + 25).
Proof.
  split; [exact full_pages_bounded |].
  eexists. eexists. split; [vm_compute; reflexivity |].
  eapply (profiles_posts_overshoot_below_one_page full_pages graph_to_datetime
            plain_repr 3 (add_timezone jan_1_2020) (add_timezone jan_31_2020) 30 false
            (VStr "profile") [] _ world0 _ 25);
    [lia | exact full_pages_bounded | vm_compute; reflexivity].
Defined.

(** ** Stop conditions of the paginating loop *)

(** X18.  The inner [paginate_elements] of [profiles_posts] fetches nothing
    when the cap is already reached, or when the last collected element is
    not newer than [since]: it returns the element list at once and leaves
    the world as it is. *)
Theorem pagination_stops_without_fetch :
  forall (remote : nat -> request -> response) (to_datetime : value -> outcome value)
         (fuel : nat) (since_tz : datetime) (n : Z) (elements : nat)
         (connection : value) (w : world),
    (n <= len (nth elements (heap w) []) \/
     exists last raw t,
       py_last (nth elements (heap w) []) = Val last /\
       connection_date last = Val raw /\
       to_datetime raw = Val (VTime t) /\
       dt_cmp Z.gtb t since_tz = Val false) ->
    posts_paginate_elements remote to_datetime (S fuel) since_tz n elements connection w
    = (Val (ObjList elements), w).
Proof.
  intros remote to_datetime fuel since_tz n elements connection w Hstop.
  cbn [posts_paginate_elements]. unfold bind at 1, read_list at 1.
  destruct (len (nth elements (heap w) []) <? n) eqn:Hlt.
  - destruct Hstop as [Hcap | [last [raw [t [Hlast [Hraw [Ht Hcmp]]]]]]].
    + apply Z.ltb_lt in Hlt. lia.
    + unfold bind, lift. rewrite Hlast, Hraw, Ht. cbn [py_cmp]. rewrite Hcmp.
      reflexivity.
  - reflexivity.
Qed.

Lemma pagination_stops_without_fetch_witness :
  posts_paginate_elements always_throttled graph_to_datetime 1
    (add_timezone jan_1_2020) 1000 0
    some_page (mk_world 0 [] [[raw_post "before" "2019-12-15T08:30:00+0000"]])
  = (Val (ObjList 0),
     mk_world 0 [] [[raw_post "before" "2019-12-15T08:30:00+0000"]]).
Proof.
  apply (pagination_stops_without_fetch always_throttled graph_to_datetime 0
           (add_timezone jan_1_2020) 1000 0 some_page
           (mk_world 0 [] [[raw_post "before" "2019-12-15T08:30:00+0000"]])).
  right. exists (raw_post "before" "2019-12-15T08:30:00+0000"),
           (VStr "2019-12-15T08:30:00+0000"),
           (mk_datetime 1576398600 (Some 0)).
  repeat split; reflexivity.
Defined.

(** ** The paginating loop of [posts_comments] ends *)

Lemma ends_ret : forall (A : Type) (a : A), ends (ret a).
Proof. intros A a w. discriminate. Qed.

Lemma ends_raise : forall (A : Type) (e : exn), ends (@raise A e).
Proof. intros A e w. discriminate. Qed.

Lemma ends_emit : forall e, ends (emit e).
Proof. intros e w. discriminate. Qed.

Lemma ends_lift :
  forall (A : Type) (o : outcome A), o <> OutOfFuel -> ends (lift o).
Proof. intros A o H w. exact H. Qed.

Lemma ends_bind :
  forall (A C : Type) (m : M A) (k : A -> M C),
    ends m -> (forall a, ends (k a)) -> ends (bind m k).
Proof.
  intros A C m k Hm Hk w. unfold bind. specialize (Hm w).
  destruct (m w) as [[a | e |] w1]; cbn [fst] in *.
  - apply Hk.
  - discriminate.
  - congruence.
Qed.

Lemma ends_catch :
  forall (A : Type) (m : M A) (handler : exn -> option (M A)),
    ends m -> (forall e h, handler e = Some h -> ends h) -> ends (catch m handler).
Proof.
  intros A m handler Hm Hh w. unfold catch. specialize (Hm w).
  destruct (m w) as [[a | e |] w1]; cbn [fst] in *.
  - discriminate.
  - destruct (handler e) as [h |] eqn:E; [eapply Hh; exact E | discriminate].
  - congruence.
Qed.

Lemma ends_read_list : forall l, ends (read_list l).
Proof. intros l w. discriminate. Qed.

Lemma ends_append_items : forall l items, ends (append_items l items).
Proof. intros l items w. discriminate. Qed.

Lemma bind_ends_at :
  forall (A C : Type) (m : M A) (k : A -> M C) (w : world),
    fst (m w) <> OutOfFuel -> (forall a, ends (k a)) ->
    fst (bind m k w) <> OutOfFuel.
Proof.
  intros A C m k w Hm Hk. unfold bind.
  destruct (m w) as [[a | e |] w1]; cbn [fst] in *.
  - apply Hk.
  - discriminate.
  - congruence.
Qed.

Lemma ends_remote_call : forall remote req, ends (remote_call remote req).
Proof.
  intros remote req w. unfold remote_call.
  destruct (remote (calls w) req); discriminate.
Qed.

Lemma ends_get_next_connection :
  forall remote connection, ends (get_next_connection remote connection).
Proof.
  intros remote connection w. unfold get_next_connection.
  apply rate_limit_requests_total.
  apply ends_bind; [apply ends_lift, getitem2_not_fuel | intro; apply ends_remote_call].
Qed.

Lemma ends_initial_comments :
  forall remote i n, ends (get_post_comments_initial_call remote i n).
Proof.
  intros remote i n w. unfold get_post_comments_initial_call.
  apply rate_limit_sdk_total. apply ends_remote_call.
Qed.

Lemma py_iter_not_fuel : forall v, py_iter v <> OutOfFuel.
Proof. intros v. destruct v; discriminate. Qed.

Lemma omap_not_fuel :
  forall (A C : Type) (f : A -> outcome C) (l : list A),
    (forall a, f a <> OutOfFuel) -> omap f l <> OutOfFuel.
Proof.
  intros A C f l Hf. induction l as [| a l IH]; cbn.
  - discriminate.
  - specialize (Hf a). destruct (f a); cbn; try congruence; try discriminate.
    destruct (omap f l); cbn; try congruence; discriminate.
Qed.

Lemma transform_comments_not_fuel :
  forall comments i, transform_comments comments i <> OutOfFuel.
Proof.
  intros comments i. unfold transform_comments. apply omap_not_fuel.
  intro c. destruct c; discriminate.
Qed.

Lemma returns_data_list :
  forall remote c,
    data_pages_are_lists remote ->
    (c = VList [] \/ exists k req, remote k req = Returns c) ->
    returns_data c = true ->
    exists x l, connection_data c = Val (VList (x :: l)).
Proof.
  intros remote c Hlists Hfrom Hdata.
  unfold returns_data in Hdata. unfold connection_data.
  destruct (getitem c "data") as [data | e |] eqn:Hget;
    [| destruct e; discriminate | discriminate].
  destruct Hfrom as [-> | [k [req Hremote]]]; [discriminate |].
  destruct (Hlists _ _ _ _ Hremote Hget) as [l ->].
  destruct l as [| x l]; [discriminate |]. exists x, l. reflexivity.
Qed.

Lemma comments_paginate_ends :
  forall remote,
    data_pages_are_lists remote ->
    forall fuel n elements connection w,
      (elements < List.length (heap w))%nat ->
      Z.max 0 (n - len (nth elements (heap w) [])) < Z.of_nat fuel ->
      fst (comments_paginate_elements remote fuel n elements connection w) <> OutOfFuel.
Proof.
  intros remote Hlists fuel.
  induction fuel as [| fuel IH]; intros n elements connection w Hloc Hfuel; [lia |].
  cbn [comments_paginate_elements]. unfold bind at 1, read_list at 1.
  destruct (len (nth elements (heap w) []) <? n) eqn:Hlt; [| discriminate].
  apply Z.ltb_lt in Hlt.
  unfold bind at 1.
  destruct (catch (c <- get_next_connection remote connection;; ret (Some c))
              (fun e => match e with
                        | KeyError => Some (log INFO msg_no_next_page >> ret None)
                        | _ => None
                        end) w) as [[r | e |] w1] eqn:Hnext.
  - destruct r as [connection' |]; [| discriminate].
    apply next_connection_result in Hnext. destruct Hnext as [Hheap Hfrom].
    destruct (returns_data connection') eqn:Hdata; [| discriminate].
    assert (Hfrom' : connection' = VList [] \/
                     exists k req, remote k req = Returns connection').
    { destruct Hfrom as [-> | [k [url H]]]; [left; reflexivity |].
      right. exists k, (NextPage url). exact H. }
    destruct (returns_data_list _ _ Hlists Hfrom' Hdata) as [x [l Hd]].
    unfold bind at 1, lift at 1. rewrite Hd.
    unfold bind at 1, extend_value, bind at 1, lift at 1. cbn [py_iter].
    unfold append_items.
    apply IH.
    + cbn [heap]. rewrite length_update_nth, Hheap. exact Hloc.
    + cbn [heap]. rewrite nth_update_nth_same, Hheap by (rewrite Hheap; exact Hloc).
      rewrite len_app. unfold len at 2. cbn [List.length]. lia.
  - discriminate.
  - exfalso.
    assert (Hends : ends (catch (c <- get_next_connection remote connection;; ret (Some c))
                            (fun e => match e with
                                      | KeyError =>
                                          Some (log INFO msg_no_next_page >> ret None)
                                      | _ => None
                                      end))).
    { apply ends_catch.
      - apply ends_bind; [apply ends_get_next_connection | intro; apply ends_ret].
      - intros e h Hh. destruct e; try discriminate. inversion Hh; subst.
        apply ends_bind; [apply ends_emit | intro; apply ends_ret]. }
    specialize (Hends w). rewrite Hnext in Hends. apply Hends. reflexivity.
Qed.

Lemma posts_comments_body_ends :
  forall remote,
    data_pages_are_lists remote ->
    forall fuel n i comments w,
      Z.max 0 n < Z.of_nat fuel ->
      fst (posts_comments_body remote fuel n i comments w) <> OutOfFuel.
Proof.
  intros remote Hlists fuel n i comments w Hfuel.
  unfold posts_comments_body. unfold bind at 1. cbn [print emit].
  unfold bind at 1. cbn [new_list calls trace heap].
  unfold bind at 1.
  match goal with
  | |- context [get_post_comments_initial_call remote i n ?w0] =>
      pose proof (ends_initial_comments remote i n w0) as Hends;
      destruct (get_post_comments_initial_call remote i n w0)
        as [[connection | e |] w1] eqn:Hcall
  end; cbn [fst] in Hends; [| discriminate | congruence].
  pose proof (keeps_heap_initial_comments _ _ _ _ _ _ Hcall) as Hheap.
  cbn [heap] in Hheap.
  destruct (returns_data connection) eqn:Hdata; [| discriminate].
  assert (Hfrom : connection = VList [] \/
                  exists k req, remote k req = Returns connection).
  { unfold get_post_comments_initial_call, rate_limit_sdk in Hcall.
    apply sdk_wrapper_result in Hcall.
    destruct Hcall as [-> | [k H]]; [left; reflexivity | right; eauto]. }
  destruct (returns_data_list _ _ Hlists Hfrom Hdata) as [x [l Hd]].
  unfold bind at 1, lift at 1. rewrite Hd.
  unfold bind at 1, extend_value, bind at 1, lift at 1. cbn [py_iter].
  unfold append_items. cbn [calls trace heap].
  apply bind_ends_at.
  - apply bind_ends_at.
    + apply comments_paginate_ends; [exact Hlists | |].
      * cbn [heap]. rewrite length_update_nth, Hheap, length_app. cbn. lia.
      * cbn [heap].
        rewrite nth_update_nth_same by (rewrite Hheap, length_app; cbn; lia).
        rewrite Hheap, nth_app_new. cbn [app].
        pose proof (len_nonneg _ (x :: l)). lia.
    + intros page. unfold extend_obj.
      apply ends_bind; [destruct page; [apply ends_raise | apply ends_read_list] |].
      intro items. apply ends_append_items.
  - intros _. apply ends_bind; [apply ends_read_list | intro collected].
    apply ends_bind; [apply ends_lift, transform_comments_not_fuel | intro rows].
    apply ends_ret.
Qed.

(** X19.  When every [data] entry the remote serves is a list,
    [posts_comments] always ends: with a page budget above the cap [n] the
    run of every list of ids ends in a result or an exception, never by
    exhausting the budget; each further page adds at least one comment, so
    an id takes at most [n] page fetches. *)
Theorem posts_comments_ends :
  forall (remote : nat -> request -> response) (fuel : nat)
         (ids : list value) (n : Z) (path : option string) (w : world),
    data_pages_are_lists remote ->
    Z.max 0 n < Z.of_nat fuel ->
    fst (posts_comments remote fuel ids n path w) <> OutOfFuel.
Proof.
  intros remote fuel ids n path w Hlists Hfuel.
  assert (Hloop : forall ids comments w,
             fst (posts_comments_loop remote fuel n ids comments w) <> OutOfFuel).
  { clear ids w. intros ids. induction ids as [| i ids IH]; intros comments w.
    - discriminate.
    - cbn [posts_comments_loop]. unfold bind.
      pose proof (posts_comments_body_ends remote Hlists fuel n i comments w Hfuel) as Hb.
      destruct (posts_comments_body remote fuel n i comments w) as [[c | e |] w1];
        cbn [fst] in Hb; [apply IH | discriminate | congruence]. }
  unfold posts_comments. unfold bind at 1.
  specialize (Hloop ids [] w).
  destruct (posts_comments_loop remote fuel n ids [] w) as [[comments | e |] w1];
    cbn [fst] in Hloop; [| discriminate | congruence].
  unfold bind at 1, lift at 1, DataFrame.
  destruct (forallb is_dict comments || forallb (fun r => negb (is_dict r)) comments);
    [| discriminate].
  unfold bind, ret. destruct path as [p |]; cbn [save_df].
  - destruct (endswith p ".xlsx"); discriminate.
  - discriminate.
Qed.

Lemma data_pages_of_four_comments : data_pages_are_lists four_comments.
Proof.
  intros k req v data Hremote Hdata.
  destruct req; cbn in Hremote; try discriminate;
    inversion Hremote; subst v; cbn in Hdata; inversion Hdata; eexists; reflexivity.
Qed.

Lemma posts_comments_ends_witness :
  data_pages_are_lists four_comments /\
  fst (posts_comments four_comments 4 [VStr "post"; VStr "other"] 3 None world0)
  <> OutOfFuel.
Proof.
  split; [exact data_pages_of_four_comments |].
  apply (posts_comments_ends four_comments 4 [VStr "post"; VStr "other"] 3 None world0
           data_pages_of_four_comments).
  lia.
Defined.

(** ** Retry through the payload *)

Lemma requests_wrapper_retries :
  forall (remote : nat -> request -> response) (connection url : value) (payload : dict),
    getitem2 connection "paging" "next" = Val url ->
    forall (k fuel : nat) (tries : Z) (w : world),
      (k < fuel)%nat ->
      tries + Z.of_nat k <= max_tries ->
      page_throttled_then remote url (calls w) k payload ->
      exists w',
        requests_wrapper_loop fuel
          (u <- lift (getitem2 connection "paging" "next") ;;
           remote_call remote (NextPage u)) tries w = (Val (VDict payload), w') /\
        calls w' = (calls w + k + 1)%nat /\
        sleeps (trace w') = sleeps (trace w) ++ repeat wait k /\
        heap w' = heap w.
Proof.
  intros remote connection url payload Hurl k.
  induction k as [| k IH]; intros fuel tries w Hfuel Htries [Hthr [Hret Hclean]].
  - destruct fuel as [| fuel]; [lia |].
    rewrite Nat.add_0_r in Hret.
    eexists. split.
    + cbn [requests_wrapper_loop].
      replace (tries <=? max_tries) with true by (symmetry; apply Z.leb_le; lia).
      unfold bind, lift, remote_call. rewrite Hurl, Hret.
      cbn [contains_error]. rewrite Hclean. reflexivity.
    + cbn [calls trace heap]. repeat split.
      * lia.
      * rewrite sleeps_app. cbn. rewrite !app_nil_r. reflexivity.
  - destruct fuel as [| fuel]; [lia |].
    destruct (Hthr O ltac:(lia)) as [err [H0 Hcode]]. rewrite Nat.add_0_r in H0.
    set (w1 := mk_world (S (calls w))
                 ((trace w ++ [EvCall (NextPage url)])
                  ++ [EvLog WARNING msg_limit_reached] ++ [EvSleep wait]) (heap w)).
    assert (Hstep :
              requests_wrapper_loop (S fuel)
                (u <- lift (getitem2 connection "paging" "next") ;;
                 remote_call remote (NextPage u)) tries w
              = requests_wrapper_loop fuel
                  (u <- lift (getitem2 connection "paging" "next") ;;
                   remote_call remote (NextPage u)) (tries + 1) w1).
    { cbn [requests_wrapper_loop].
      replace (tries <=? max_tries) with true by (symmetry; apply Z.leb_le; lia).
      unfold bind at 1. unfold bind at 1, lift at 1. rewrite Hurl.
      unfold remote_call at 1. rewrite H0.
      unfold bind at 1, lift at 1. cbn [contains_error dict_get String.eqb Ascii.eqb Bool.eqb].
      unfold bind at 1, lift at 1. unfold getitem2 at 1.
      cbn [getitem obind dict_get String.eqb Ascii.eqb Bool.eqb].
      rewrite Hcode. cbn [is_int4 Z.eqb Pos.eqb].
      unfold bind at 1, log at 1, emit at 1. unfold bind at 1, sleep at 1, emit at 1.
      cbn [calls trace heap]. unfold w1. rewrite <- !app_assoc. reflexivity. }
    destruct (IH fuel (tries + 1) w1) as [w' [Hrun [Hcalls [Hsleeps Hheap]]]].
    + lia.
    + lia.
    + cbn [calls w1]. split; [| split; [| exact Hclean]].
      * intros j Hj. replace (S (calls w) + j)%nat with (calls w + S j)%nat by lia.
        apply Hthr. lia.
      * replace (S (calls w) + k)%nat with (calls w + S k)%nat by lia. exact Hret.
    + exists w'. split; [rewrite Hstep; exact Hrun |]. cbn [calls trace heap w1] in *.
      repeat split.
      * lia.
      * rewrite Hsleeps. rewrite !sleeps_app. cbn. rewrite !app_nil_r.
        rewrite <- app_assoc. reflexivity.
      * exact Hheap.
Qed.

(** X20.  [get_next_connection] on a page whose next link answers [k]
    times ([k] <= 8) with the rate-limit error payload (code 4) and then
    with a payload free of [error] returns that payload after exactly [k]
    sleeps of 900 s and [k] + 1 invocations. *)
Theorem next_page_throttled_then_served :
  forall (remote : nat -> request -> response) (connection url : value)
         (payload : dict) (k : nat) (w : world),
    (k <= 8)%nat ->
    getitem2 connection "paging" "next" = Val url ->
    page_throttled_then remote url (calls w) k payload ->
    exists w',
      get_next_connection remote connection w = (Val (VDict payload), w') /\
      calls w' = (calls w + k + 1)%nat /\
      sleeps (trace w') = sleeps (trace w) ++ repeat wait k /\
      heap w' = heap w.
Proof.
  intros remote connection url payload k w Hk Hurl Hthr.
  unfold get_next_connection, rate_limit_requests. rewrite retry_fuel_eq.
  eapply requests_wrapper_retries; [exact Hurl | lia | change max_tries with 8; lia
                                    | exact Hthr].
Qed.

Lemma next_page_throttled_then_served_witness :
  page_throttled_then page_throttled_twice (VStr "https://graph.facebook.com/page2")
    0 2 [("data", VList [VDict [("id", VStr "9")]])] /\
  exists w',
    get_next_connection page_throttled_twice some_page world0 = (Val last_page, w') /\
    calls w' = 3%nat /\ sleeps (trace w') = [900; 900] /\ heap w' = [].
Proof.
  assert (H : page_throttled_then page_throttled_twice
                (VStr "https://graph.facebook.com/page2") 0 2
                [("data", VList [VDict [("id", VStr "9")]])]).
  { split; [| split; reflexivity].
    intros j Hj. exists [("code", VInt 4)].
    destruct j as [| [| j]]; [split; reflexivity | split; reflexivity | lia]. }
  split; [exact H |].
  exact (next_page_throttled_then_served page_throttled_twice some_page
           (VStr "https://graph.facebook.com/page2")
           [("data", VList [VDict [("id", VStr "9")]])] 2 world0
           ltac:(lia) eq_refl H).
Defined.

(** ** Export *)

Lemma substring_skip :
  forall (a b : string) (m : nat),
    substring (String.length a) m (String.append a b) = substring 0 m b.
Proof.
  intros a b m. induction a as [| c a IH]; cbn; [reflexivity | exact IH].
Qed.

Lemma substring_all :
  forall b : string, substring 0 (String.length b) b = b.
Proof.
  intros b. induction b as [| c b IH]; cbn; [reflexivity | rewrite IH; reflexivity].
Qed.

Lemma length_append_string :
  forall a b : string,
    String.length (String.append a b) = (String.length a + String.length b)%nat.
Proof.
  intros a b. induction a as [| c a IH]; cbn; [reflexivity | rewrite IH; reflexivity].
Qed.

Lemma substring_split :
  forall (s : string) (k m : nat),
    (k + m = String.length s)%nat ->
    s = String.append (substring 0 k s) (substring k m s).
Proof.
  intros s. induction s as [| c s IH]; intros k m H; cbn in H.
  - assert (k = O) by lia. assert (m = O) by lia. subst. reflexivity.
  - destruct k as [| k].
    + cbn in H. subst m. cbn. rewrite substring_all. reflexivity.
    + cbn. rewrite <- (IH k m) by lia. reflexivity.
Qed.

Lemma endswith_iff :
  forall s suffix : string,
    endswith s suffix = true <-> exists stem, s = String.append stem suffix.
Proof.
  intros s suffix. unfold endswith. split.
  - intro H. apply andb_true_iff in H. destruct H as [Hlen Hsub].
    apply Nat.leb_le in Hlen. apply String.eqb_eq in Hsub.
    exists (substring 0 (String.length s - String.length suffix) s).
    transitivity
      (String.append
         (substring 0 (String.length s - String.length suffix) s)
         (substring (String.length s - String.length suffix) (String.length suffix) s)).
    + apply substring_split. lia.
    + rewrite Hsub. reflexivity.
  - intros [stem ->]. rewrite length_append_string.
    apply andb_true_iff. split; [apply Nat.leb_le; lia |].
    replace (String.length stem + String.length suffix - String.length suffix)%nat
      with (String.length stem) by lia.
    rewrite substring_skip, substring_all. apply String.eqb_refl.
Qed.

(** X21.  [save_df] writes nothing without a path, an Excel sheet for a
    path that ends in ".xlsx" and a csv table for every other path; in each
    case it records exactly that and touches nothing else. *)
Theorem save_df_by_extension :
  forall (df : dataframe) (w : world),
    save_df df None w = (Val tt, w) /\
    (forall stem,
        save_df df (Some (String.append stem ".xlsx")) w
        = (Val tt,
           mk_world (calls w)
             (trace w ++ [EvSaveExcel (String.append stem ".xlsx") df]) (heap w))) /\
    (forall p,
        (forall stem, p <> String.append stem ".xlsx") ->
        save_df df (Some p) w
        = (Val tt, mk_world (calls w) (trace w ++ [EvSaveCsv p df]) (heap w))).
Proof.
  intros df w. split; [reflexivity |]. split.
  - intro stem. unfold save_df.
    replace (endswith (String.append stem ".xlsx") ".xlsx") with true
      by (symmetry; apply endswith_iff; exists stem; reflexivity).
    reflexivity.
  - intros p Hp. unfold save_df.
    destruct (endswith p ".xlsx") eqn:E; [| reflexivity].
    apply endswith_iff in E. destruct E as [stem ->].
    exfalso. apply (Hp stem). reflexivity.
Qed.

Lemma save_df_by_extension_witness :
  save_df [] (Some "posts.xlsx") world0
  = (Val tt, mk_world 0 [EvSaveExcel "posts.xlsx" []] []) /\
  save_df [] (Some "posts.csv") world0
  = (Val tt, mk_world 0 [EvSaveCsv "posts.csv" []] []).
Proof.
  destruct (save_df_by_extension [] world0) as [_ [Hxlsx Hcsv]].
  split.
  - exact (Hxlsx "posts").
  - apply Hcsv. intros stem H.
    assert (E : endswith "posts.csv" ".xlsx" = true)
      by (apply endswith_iff; exists stem; exact H).
    vm_compute in E. discriminate.
Defined.

(** ** What is saved is what is returned *)

Lemma save_df_event :
  forall df p w u w',
    save_df df (Some p) w = (Val u, w') ->
    trace w' = trace w ++ [save_event p df].
Proof.
  intros df p w u w' H. unfold save_df, save_event in *.
  destruct (endswith p ".xlsx"); inversion H; reflexivity.
Qed.

(** X23.  When a path is given, the last thing [profiles_info],
    [posts_comments] and [profiles_posts] do before they return a frame is
    to save exactly that frame under the path. *)
Theorem saved_frame_is_returned_frame :
  forall (remote : nat -> request -> response)
         (to_datetime : value -> outcome value) (py_repr : value -> string)
         (fuel : nat) (ids : list value) (since until : datetime) (n : Z)
         (insights comments info : bool) (p : string) (w w' : world) (df : dataframe),
    (profiles_info remote ids (Some p) w = (Val df, w') ->
     exists tr, trace w' = tr ++ [save_event p df]) /\
    (posts_comments remote fuel ids n (Some p) w = (Val df, w') ->
     exists tr, trace w' = tr ++ [save_event p df]) /\
    (profiles_posts remote to_datetime py_repr fuel ids since until n
       insights comments info (Some p) w = (Val df, w') ->
     exists tr, trace w' = tr ++ [save_event p df]).
Proof.
  intros remote to_datetime py_repr fuel ids since until n insights comments info
         p w w' df.
  split; [| split].
  - intro H. unfold profiles_info in H.
    apply bind_val in H. destruct H as [elements [w1 [_ H]]].
    apply bind_val in H. destruct H as [df0 [w2 [_ H]]].
    apply bind_val in H. destruct H as [u [w3 [Hsave H]]].
    inversion H; subst. eexists. eapply save_df_event. exact Hsave.
  - intro H. unfold posts_comments in H.
    apply bind_val in H. destruct H as [elements [w1 [_ H]]].
    apply bind_val in H. destruct H as [df0 [w2 [_ H]]].
    apply bind_val in H. destruct H as [u [w3 [Hsave H]]].
    inversion H; subst. eexists. eapply save_df_event. exact Hsave.
  - intro H. unfold profiles_posts in H.
    apply bind_val in H. destruct H as [posts [w1 [_ H]]].
    apply bind_val in H. destruct H as [df0 [w2 [_ H]]].
    apply bind_val in H. destruct H as [df1 [w3 [_ H]]].
    apply bind_val in H. destruct H as [df2 [w4 [_ H]]].
    apply bind_val in H. destruct H as [df3 [w5 [_ H]]].
    apply bind_val in H. destruct H as [u [w6 [Hsave H]]].
    inversion H; subst. eexists. eapply save_df_event. exact Hsave.
Qed.

Lemma saved_frame_is_returned_frame_witness :
  exists df w',
    profiles_info profile_directory [VStr "a"] (Some "profiles.xlsx") world0
    = (Val df, w') /\
    exists tr, trace w' = tr ++ [save_event "profiles.xlsx" df].
Proof.
  eexists. eexists. split; [vm_compute; reflexivity |].
  eapply (proj1 (saved_frame_is_returned_frame profile_directory graph_to_datetime
                   plain_repr 0 [VStr "a"] jan_1_2020 jan_31_2020 0 false false false
                   "profiles.xlsx" world0 _ _)).
  vm_compute. reflexivity.
Defined.

(** ** [posts], id by id *)

(** X24.  One turn of the loop of [posts] for an id the remote answers
    with [v]: [None] is skipped; otherwise the normalised [v] is appended
    and the loop goes on, or the normaliser's exception ends the whole run;
    the turn costs one remote invocation. *)
Theorem posts_loop_turn :
  forall (remote : nat -> request -> response)
         (to_datetime : value -> outcome value) (py_repr : value -> string)
         (insights : bool) (i v : value) (ids acc : list value) (w : world),
    remote (calls w) (Post i insights) = Returns v ->
    let w1 := mk_world (S (calls w)) (trace w ++ [EvCall (Post i insights)]) (heap w) in
    (v = VNone ->
     posts_loop remote to_datetime py_repr insights (i :: ids) acc w
     = posts_loop remote to_datetime py_repr insights ids acc w1) /\
    (forall row,
        v <> VNone ->
        post_with_additional_collumns to_datetime py_repr i v = Val row ->
        posts_loop remote to_datetime py_repr insights (i :: ids) acc w
        = posts_loop remote to_datetime py_repr insights ids (acc ++ [row]) w1) /\
    (forall e,
        v <> VNone ->
        post_with_additional_collumns to_datetime py_repr i v = Exc e ->
        posts_loop remote to_datetime py_repr insights (i :: ids) acc w = (Exc e, w1)).
Proof.
  intros remote to_datetime py_repr insights i v ids acc w Hremote w1.
  assert (Hget : get_post remote i insights w = (Val v, w1)).
  { unfold get_post. apply sdk_success_step. exact Hremote. }
  split; [| split].
  - intros ->. cbn [posts_loop]. unfold bind at 1. rewrite Hget.
    cbn [is_none negb]. unfold bind at 1, ret at 1. reflexivity.
  - intros row Hv Hrow. cbn [posts_loop]. unfold bind at 1. rewrite Hget.
    replace (is_none v) with false by (destruct v; cbn; congruence).
    cbn [negb]. unfold bind at 1. unfold bind at 1, lift at 1.
    unfold transform_posts. cbn [omap]. rewrite Hrow. reflexivity.
  - intros e Hv Hrow. cbn [posts_loop]. unfold bind at 1. rewrite Hget.
    replace (is_none v) with false by (destruct v; cbn; congruence).
    cbn [negb]. unfold bind at 1. unfold bind at 1, lift at 1.
    unfold transform_posts. cbn [omap]. rewrite Hrow. reflexivity.
Qed.

Lemma posts_loop_turn_witness :
  posts_loop answers_none graph_to_datetime plain_repr false [VStr "42"] [] world0
  = (Val [], mk_world 1 [EvCall (Post (VStr "42") false)] []) /\
  posts_loop serves_record_42 graph_to_datetime plain_repr false
    [VStr "42"] [] world0
  = posts_loop serves_record_42 graph_to_datetime plain_repr false [] 
      ([] ++ [VDict (dict_set "api_call_id" (VStr "42")
                       [("id", VStr "42");
                        ("created_time", VTime (mk_datetime 1577836800 None));
                        ("likes", VDict [("summary", VDict [("total_count", VInt 3)])]);
                        ("comments_count", VNone); ("from_id", VNone);
                        ("from_name", VNone); ("likes_count", VInt 3);
                        ("reactions_count", VNone); ("shares_count", VInt 0);
                        ("post_link", VStr "https://facebook.com/42");
                        ("interactions", VInt 0)])])
      (mk_world 1 [EvCall (Post (VStr "42") false)] []).
Proof.
  split.
  - exact (proj1 (posts_loop_turn answers_none graph_to_datetime plain_repr false
                    (VStr "42") VNone [] [] world0 eq_refl) eq_refl).
  - apply (proj1 (proj2 (posts_loop_turn serves_record_42 graph_to_datetime plain_repr
                           false (VStr "42") record_42 [] [] world0 eq_refl)));
      [discriminate | vm_compute; reflexivity].
Defined.

(** ** Pages served and rows collected *)

Lemma pages_served_app :
  forall remote evs1 evs2 k,
    pages_served remote k (evs1 ++ evs2)
    = pages_served remote k evs1
      ++ pages_served remote (k + count_calls evs1) evs2.
Proof.
  intros remote evs1 evs2. induction evs1 as [| e evs1 IH]; intro k.
  - cbn. rewrite Nat.add_0_r. reflexivity.
  - destruct e; cbn [app pages_served]; rewrite IH;
      try (unfold count_calls; cbn [filter]; reflexivity).
    rewrite <- app_assoc. unfold count_calls. cbn [filter List.length].
    rewrite Nat.add_succ_r. reflexivity.
Qed.

Lemma serves_refl : forall remote w, serves remote w w [].
Proof.
  intros remote w. exists []. rewrite app_nil_r. cbn.
  repeat split. lia.
Qed.

Lemma serves_trans :
  forall remote w w1 w2 p1 p2,
    serves remote w w1 p1 -> serves remote w1 w2 p2 -> serves remote w w2 (p1 ++ p2).
Proof.
  intros remote w w1 w2 p1 p2 [e1 [Ht1 [Hc1 Hp1]]] [e2 [Ht2 [Hc2 Hp2]]].
  exists (e1 ++ e2). repeat split.
  - rewrite Ht2, Ht1, app_assoc. reflexivity.
  - rewrite Hc2, Hc1. unfold count_calls. rewrite filter_app, length_app. lia.
  - rewrite pages_served_app, Hp1, <- Hc1, Hp2. reflexivity.
Qed.

Lemma serves_from_same :
  forall remote w0 w w' p,
    serves remote w w' p -> calls w0 = calls w -> trace w0 = trace w ->
    serves remote w0 w' p.
Proof.
  intros remote w0 w w' p [evs [Ht [Hc Hp]]] Hcalls Htrace.
  exists evs. rewrite Hcalls, Htrace. repeat split; assumption.
Qed.

Lemma serves_emit :
  forall remote w e h,
    match e with EvCall _ => False | _ => True end ->
    serves remote w (mk_world (calls w) (trace w ++ [e]) h) [].
Proof.
  intros remote w e h He. exists [e]. cbn [calls trace].
  destruct e; try contradiction; cbn; repeat split; lia.
Qed.

Lemma serves_call :
  forall remote w req h,
    serves remote w (mk_world (S (calls w)) (trace w ++ [EvCall req]) h)
           (page_items req (remote (calls w) req)).
Proof.
  intros remote w req h. exists [EvCall req]. cbn [calls trace].
  repeat split; [cbn; lia | cbn; apply app_nil_r].
Qed.

Lemma serves_nil_l :
  forall remote w w1 w2 p,
    serves remote w w1 [] -> serves remote w1 w2 p -> serves remote w w2 p.
Proof.
  intros remote w w1 w2 p H1 H2. exact (serves_trans _ _ _ _ _ _ H1 H2).
Qed.

Lemma serves_nil_r :
  forall remote w w1 w2 p,
    serves remote w w1 p -> serves remote w1 w2 [] -> serves remote w w2 p.
Proof.
  intros remote w w1 w2 p H1 H2.
  rewrite <- (app_nil_r p). exact (serves_trans _ _ _ _ _ _ H1 H2).
Qed.

Lemma data_items_no_data :
  forall c, returns_data c = false -> data_items c = [].
Proof.
  intros c H. unfold data_items. rewrite H. reflexivity.
Qed.

Lemma data_items_of :
  forall c data items,
    returns_data c = true -> connection_data c = Val data -> py_iter data = Val items ->
    data_items c = items.
Proof.
  intros c data items H Hd Hi. unfold data_items. rewrite H, Hd. cbn [obind].
  rewrite Hi. reflexivity.
Qed.

(** What a run of the SDK wrapper was served is the data of the connection
    it returns. *)
Lemma sdk_wrapper_serves :
  forall (remote : nat -> request -> response) (req : request),
    is_page_request req = false ->
    forall fuel tries w r w',
      sdk_wrapper_loop fuel (remote_call remote req) tries w = (r, w') ->
      serves remote w w' (match r with Val c => data_items c | _ => [] end).
Proof.
  intros remote req Hreq fuel.
  assert (Hitems : forall c, page_items req (Returns c) = data_items c).
  { intro c. destruct req; try reflexivity. discriminate. }
  induction fuel as [| fuel IH]; intros tries w r w' H.
  - inversion H; subst. apply serves_refl.
  - cbn [sdk_wrapper_loop] in H.
    destruct (tries <=? max_tries).
    + unfold bind, catch, remote_call in H.
      pose proof (serves_call remote w req (heap w)) as Hcall.
      destruct (remote (calls w) req) as [v | e].
      * inversion H; subst. rewrite Hitems in Hcall. exact Hcall.
      * cbn [page_items] in Hcall.
        destruct e; try (inversion H; subst; exact Hcall).
        destruct (is_int4 code).
        -- unfold log, sleep, emit, ret in H. cbn [calls trace heap] in H.
           apply IH in H.
           eapply serves_nil_l; [| exact H].
           eapply serves_nil_r; [eapply serves_nil_r; [exact Hcall |] |].
           ++ apply (serves_emit remote
                       (mk_world (S (calls w)) (trace w ++ [EvCall req]) (heap w))
                       (EvLog WARNING msg_limit_reached) (heap w)). exact I.
           ++ apply (serves_emit remote
                       (mk_world (S (calls w))
                          ((trace w ++ [EvCall req]) ++ [EvLog WARNING msg_limit_reached])
                          (heap w))
                       (EvSleep wait) (heap w)). exact I.
        -- unfold log, emit, ret in H. inversion H; subst.
           change (data_items (VList [])) with (@nil value).
           eapply serves_nil_r; [exact Hcall |].
           apply (serves_emit remote
                    (mk_world (S (calls w)) (trace w ++ [EvCall req]) (heap w))
                    (EvLog WARNING msg_sdk_error) (heap w)). exact I.
    + unfold bind, log, emit, ret in H. inversion H; subst.
      change (data_items (VList [])) with (@nil value).
      apply (serves_emit remote w (EvLog ERROR msg_limit_not_solved) (heap w)). exact I.
Qed.

Lemma serves_throttled_round :
  forall remote w req h,
    page_items req (remote (calls w) req) = [] ->
    serves remote w
      (mk_world (S (calls w))
         (((trace w ++ [EvCall req]) ++ [EvLog WARNING msg_limit_reached])
          ++ [EvSleep wait]) h) [].
Proof.
  intros remote w req h Hnone.
  pose proof (serves_call remote w req h) as Hcall. rewrite Hnone in Hcall.
  eapply serves_nil_r; [eapply serves_nil_r; [exact Hcall |] |].
  - apply (serves_emit remote
             (mk_world (S (calls w)) (trace w ++ [EvCall req]) h)
             (EvLog WARNING msg_limit_reached) h). exact I.
  - apply (serves_emit remote
             (mk_world (S (calls w))
                ((trace w ++ [EvCall req]) ++ [EvLog WARNING msg_limit_reached]) h)
             (EvSleep wait) h). exact I.
Qed.

Lemma serves_call_then_log :
  forall remote w req h lvl msg,
    page_items req (remote (calls w) req) = [] ->
    serves remote w
      (mk_world (S (calls w)) ((trace w ++ [EvCall req]) ++ [EvLog lvl msg]) h) [].
Proof.
  intros remote w req h lvl msg Hnone.
  pose proof (serves_call remote w req h) as Hcall. rewrite Hnone in Hcall.
  eapply serves_nil_r; [exact Hcall |].
  apply (serves_emit remote
           (mk_world (S (calls w)) (trace w ++ [EvCall req]) h) (EvLog lvl msg) h).
  exact I.
Qed.

(** The same for the requests wrapper around a page request: an answer with
    an [error] entry hands over nothing. *)
Lemma requests_wrapper_serves :
  forall (remote : nat -> request -> response) (connection : value)
         (fuel : nat) (tries : Z) (w : world) r w',
    requests_wrapper_loop fuel
      (u <- lift (getitem2 connection "paging" "next") ;;
       remote_call remote (NextPage u)) tries w = (r, w') ->
    serves remote w w' (match r with Val c => data_items c | _ => [] end).
Proof.
  intros remote connection fuel.
  induction fuel as [| fuel IH]; intros tries w r w' H.
  - inversion H; subst. apply serves_refl.
  - cbn [requests_wrapper_loop] in H.
    destruct (tries <=? max_tries).
    + unfold bind, lift, remote_call, log, sleep, emit, ret in H.
      destruct (getitem2 connection "paging" "next") as [url | e |];
        try (inversion H; subst; apply serves_refl).
      pose proof (serves_call remote w (NextPage url) (heap w)) as Hcall.
      destruct (remote (calls w) (NextPage url)) as [v | e] eqn:Hremote;
        [| inversion H; subst; exact Hcall].
      cbn [page_items] in Hcall.
      destruct (contains_error v) as [[|] | e |] eqn:Herror;
        try (inversion H; subst; exact Hcall).
      destruct (getitem2 v "error" "code") as [code | e |];
        try (inversion H; subst; exact Hcall).
      destruct (is_int4 code).
      * cbn [calls trace heap] in H. apply IH in H.
        eapply serves_nil_l; [| exact H].
        apply serves_throttled_round. rewrite Hremote. cbn [page_items].
        rewrite Herror. reflexivity.
      * assert (Hlog : serves remote w
                         (mk_world (S (calls w))
                            ((trace w ++ [EvCall (NextPage url)])
                             ++ [EvLog WARNING msg_sdk_error]) (heap w)) []).
        { apply serves_call_then_log. rewrite Hremote. cbn [page_items].
          rewrite Herror. reflexivity. }
        destruct (getitem v "error"); inversion H; subst;
          [exact Hlog | exact Hcall | exact Hcall].
    + unfold bind, log, emit, ret in H. inversion H; subst.
      change (data_items (VList [])) with (@nil value).
      apply (serves_emit remote w (EvLog ERROR msg_limit_not_solved) (heap w)). exact I.
Qed.

(** One [try: connection = self.get_next_connection(connection)] with its
    [except KeyError]. *)
Lemma next_connection_serves :
  forall remote connection w r w',
    catch (c <- get_next_connection remote connection ;; ret (Some c))
      (fun e => match e with
                | KeyError => Some (log INFO msg_no_next_page >> ret None)
                | _ => None
                end) w = (r, w') ->
    serves remote w w'
      (match r with Val (Some c) => data_items c | _ => [] end).
Proof.
  intros remote connection w r w' H. unfold catch, bind at 1 in H.
  destruct (get_next_connection remote connection w) as [[c | e |] w1] eqn:Hget;
    unfold get_next_connection, rate_limit_requests in Hget;
    apply requests_wrapper_serves in Hget.
  - inversion H; subst. exact Hget.
  - destruct e; try (inversion H; subst; exact Hget).
    unfold bind, log, emit, ret in H. inversion H; subst.
    eapply serves_nil_r; [exact Hget |].
    apply (serves_emit remote w1 (EvLog INFO msg_no_next_page) (heap w1)). exact I.
  - inversion H; subst. exact Hget.
Qed.

(** What the inner [paginate_elements] of [profiles_posts] appends to the
    element list is what the remote served it, in the order served. *)
Lemma posts_paginate_serves :
  forall remote to_datetime fuel since_tz n elements connection w page w',
    posts_paginate_elements remote to_datetime fuel since_tz n elements connection w
    = (Val page, w') ->
    (elements < List.length (heap w))%nat ->
    exists pages,
      serves remote w w' pages /\
      nth elements (heap w') [] = nth elements (heap w) [] ++ pages.
Proof.
  intros remote to_datetime fuel since_tz n elements.
  induction fuel as [| fuel IH]; intros connection w page w' H Hloc;
    cbn [posts_paginate_elements] in H.
  - discriminate.
  - apply bind_val in H. destruct H as [cur [w1 [Hread H]]].
    inversion Hread; subst cur w1. clear Hread.
    apply bind_val in H. destruct H as [go_on [w2 [Hgo H]]].
    assert (Hw2 : w2 = w).
    { destruct (len (nth elements (heap w) []) <? n).
      - apply bind_val in Hgo. destruct Hgo as [x1 [v1 [E1 Hgo]]].
        apply lift_val in E1. destruct E1 as [_ ->].
        apply bind_val in Hgo. destruct Hgo as [x2 [v2 [E2 Hgo]]].
        apply lift_val in E2. destruct E2 as [_ ->].
        apply bind_val in Hgo. destruct Hgo as [x3 [v3 [E3 Hgo]]].
        apply lift_val in E3. destruct E3 as [_ ->].
        apply lift_val in Hgo. destruct Hgo as [_ ->]. reflexivity.
      - inversion Hgo. reflexivity. }
    subst w2. clear Hgo.
    destruct go_on.
    + apply bind_val in H. destruct H as [r [w3 [Hnext H]]].
      pose proof (next_connection_serves _ _ _ _ _ Hnext) as Hserved.
      cbv beta iota in Hserved.
      destruct r as [connection' |].
      * apply next_connection_result in Hnext. destruct Hnext as [Hheap _].
        destruct (returns_data connection') eqn:Hdata.
        -- apply bind_val in H. destruct H as [data [w4 [Hd H]]].
           apply lift_val in Hd. destruct Hd as [Hd ->].
           apply bind_val in H. destruct H as [u [w5 [Hext H]]].
           unfold extend_value in Hext.
           apply bind_val in Hext. destruct Hext as [items [w6 [Hitems Hext]]].
           apply lift_val in Hitems. destruct Hitems as [Hitems ->].
           inversion Hext; subst w5. clear Hext.
           rewrite (data_items_of _ _ _ Hdata Hd Hitems) in Hserved.
           apply IH in H;
             [| cbn [heap]; rewrite length_update_nth, Hheap; exact Hloc].
           destruct H as [pages [Hpages Hnth]].
           cbn [heap] in Hnth.
           rewrite nth_update_nth_same, Hheap in Hnth by (rewrite Hheap; exact Hloc).
           exists (items ++ pages). split.
           ++ eapply serves_trans; [exact Hserved |].
              eapply serves_from_same; [exact Hpages | reflexivity | reflexivity].
           ++ rewrite Hnth, app_assoc. reflexivity.
        -- unfold bind, log, emit, ret in H. inversion H; subst. cbn [heap].
           rewrite (data_items_no_data _ Hdata) in Hserved.
           exists []. split.
           ++ eapply serves_nil_r; [exact Hserved |].
              apply (serves_emit remote w3 (EvLog ERROR msg_no_data) (heap w3)). exact I.
           ++ rewrite Hheap, app_nil_r. reflexivity.
      * apply next_connection_none in Hnext. inversion H; subst.
        exists []. split; [exact Hserved | rewrite Hnext, app_nil_r; reflexivity].
    + inversion H; subst. exists []. split; [apply serves_refl |].
      rewrite app_nil_r. reflexivity.
Qed.

(** The same for the inner [paginate_elements] of [posts_comments]. *)
Lemma comments_paginate_serves :
  forall remote fuel n elements connection w page w',
    comments_paginate_elements remote fuel n elements connection w = (Val page, w') ->
    (elements < List.length (heap w))%nat ->
    exists pages,
      serves remote w w' pages /\
      nth elements (heap w') [] = nth elements (heap w) [] ++ pages.
Proof.
  intros remote fuel n elements.
  induction fuel as [| fuel IH]; intros connection w page w' H Hloc;
    cbn [comments_paginate_elements] in H.
  - discriminate.
  - apply bind_val in H. destruct H as [cur [w1 [Hread H]]].
    inversion Hread; subst cur w1. clear Hread.
    destruct (len (nth elements (heap w) []) <? n).
    + apply bind_val in H. destruct H as [r [w3 [Hnext H]]].
      pose proof (next_connection_serves _ _ _ _ _ Hnext) as Hserved.
      cbv beta iota in Hserved.
      destruct r as [connection' |].
      * apply next_connection_result in Hnext. destruct Hnext as [Hheap _].
        destruct (returns_data connection') eqn:Hdata.
        -- apply bind_val in H. destruct H as [data [w4 [Hd H]]].
           apply lift_val in Hd. destruct Hd as [Hd ->].
           apply bind_val in H. destruct H as [u [w5 [Hext H]]].
           unfold extend_value in Hext.
           apply bind_val in Hext. destruct Hext as [items [w6 [Hitems Hext]]].
           apply lift_val in Hitems. destruct Hitems as [Hitems ->].
           inversion Hext; subst w5. clear Hext.
           rewrite (data_items_of _ _ _ Hdata Hd Hitems) in Hserved.
           apply IH in H;
             [| cbn [heap]; rewrite length_update_nth, Hheap; exact Hloc].
           destruct H as [pages [Hpages Hnth]].
           cbn [heap] in Hnth.
           rewrite nth_update_nth_same, Hheap in Hnth by (rewrite Hheap; exact Hloc).
           exists (items ++ pages). split.
           ++ eapply serves_trans; [exact Hserved |].
              eapply serves_from_same; [exact Hpages | reflexivity | reflexivity].
           ++ rewrite Hnth, app_assoc. reflexivity.
        -- unfold bind, log, emit, ret in H. inversion H; subst. cbn [heap].
           rewrite (data_items_no_data _ Hdata) in Hserved.
           exists []. split.
           ++ eapply serves_nil_r; [exact Hserved |].
              apply (serves_emit remote w3 (EvLog ERROR msg_no_data) (heap w3)). exact I.
           ++ rewrite Hheap, app_nil_r. reflexivity.
      * apply next_connection_none in Hnext. inversion H; subst.
        exists []. split; [exact Hserved | rewrite Hnext, app_nil_r; reflexivity].
    + inversion H; subst. exists []. split; [apply serves_refl |].
      rewrite app_nil_r. reflexivity.
Qed.

(** X16.  In [profiles_posts], the rows an id adds are the normalised items
    of the pages the remote served for it during the run: those of the first
    call's page, then those of each next page fetched, in the order served
    and in each page's order; they come after the rows of the ids before
    it, which stay as they are. *)
Theorem profiles_posts_keeps_page_order :
  forall (remote : nat -> request -> response)
         (to_datetime : value -> outcome value) (py_repr : value -> string)
         (fuel : nat) (since_tz until_tz : datetime) (n : Z) (insights : bool)
         (i : value) (posts out : list value) (w w' : world),
    profiles_posts_body remote to_datetime py_repr fuel since_tz until_tz n insights
      i posts w = (Val out, w') ->
    exists evs rows,
      trace w' = trace w ++ evs /\
      calls w' = (calls w + count_calls evs)%nat /\
      out = posts ++ rows /\
      Forall2 (normalised_from i) (pages_served remote (calls w) evs) rows.
Proof.
  intros remote to_datetime py_repr fuel since_tz until_tz n insights i posts out
         w w' H.
  unfold profiles_posts_body in H.
  apply bind_val in H. destruct H as [elements [w0 [Hnew H]]].
  inversion Hnew; subst elements w0. clear Hnew.
  apply bind_val in H. destruct H as [connection [w1 [Hcall H]]].
  pose proof (keeps_heap_initial_posts _ _ _ _ _ _ _ _ _ Hcall) as Hheap.
  unfold get_profile_posts_initial_call, rate_limit_sdk in Hcall.
  apply sdk_wrapper_serves in Hcall; [| reflexivity].
  cbn [heap] in Hheap. cbv beta iota in Hcall.
  assert (Hfirst : serves remote w w1 (data_items connection)).
  { eapply serves_from_same; [exact Hcall | reflexivity | reflexivity]. }
  clear Hcall.
  destruct (returns_data connection) eqn:Hdata.
  - apply bind_val in H. destruct H as [data [w2 [Hd H]]].
    apply lift_val in Hd. destruct Hd as [Hd ->].
    apply bind_val in H. destruct H as [u [w3 [Hext H]]].
    unfold extend_value in Hext.
    apply bind_val in Hext. destruct Hext as [items [w4 [Hitems Hext]]].
    apply lift_val in Hitems. destruct Hitems as [Hitems ->].
    inversion Hext; subst w3. clear Hext.
    rewrite (data_items_of _ _ _ Hdata Hd Hitems) in Hfirst.
    apply bind_val in H. destruct H as [page [w5 [Hpage H]]].
    pose proof Hpage as Hpage'.
    apply posts_paginate_appends in Hpage';
      [| cbn [heap]; rewrite length_update_nth, Hheap, length_app; cbn; lia].
    destruct Hpage' as [-> _].
    apply posts_paginate_serves in Hpage;
      [| cbn [heap]; rewrite length_update_nth, Hheap, length_app; cbn; lia].
    destruct Hpage as [pages [Hpages Hnth]].
    cbn [heap] in Hnth.
    rewrite nth_update_nth_same in Hnth by (rewrite Hheap, length_app; cbn; lia).
    rewrite Hheap, nth_app_new in Hnth. cbn [app] in Hnth.
    apply bind_val in H. destruct H as [collected [w6 [Hread H]]].
    inversion Hread; subst collected w6. clear Hread.
    apply bind_val in H. destruct H as [rows [w7 [Hrows H]]].
    apply lift_val in Hrows. destruct Hrows as [Hrows ->].
    inversion H; subst out w'. clear H.
    rewrite Hnth in Hrows.
    assert (Hall : serves remote w w5 (items ++ pages)).
    { eapply serves_trans; [exact Hfirst |].
      eapply serves_from_same; [exact Hpages | reflexivity | reflexivity]. }
    destruct Hall as [evs [Htrace [Hcalls Hserved]]].
    exists evs, rows. rewrite Hserved.
    repeat split; try assumption.
    eapply transform_posts_normalised. exact Hrows.
  - inversion H; subst out w'. clear H.
    rewrite (data_items_no_data _ Hdata) in Hfirst.
    destruct Hfirst as [evs [Htrace [Hcalls Hserved]]].
    exists evs, []. rewrite Hserved, app_nil_r.
    repeat split; try assumption. constructor.
Qed.

Lemma profiles_posts_keeps_page_order_witness :
  pages_served around_january 0
    (trace (snd (profiles_posts_body around_january graph_to_datetime plain_repr 5
                   (add_timezone jan_1_2020) (add_timezone jan_31_2020) 1000 false
                   (VStr "profile") [] world0)))
  = [raw_post "after" "2020-02-02T09:00:00+0000";
     raw_post "last-instant" "2020-01-31T00:00:00+0000";
     raw_post "inside" "2020-01-15T12:00:00+0000";
     raw_post "first-instant" "2020-01-01T00:00:00+0000";
     raw_post "before" "2019-12-15T08:30:00+0000"] /\
  exists out w',
    profiles_posts_body around_january graph_to_datetime plain_repr 5
      (add_timezone jan_1_2020) (add_timezone jan_31_2020) 1000 false
      (VStr "profile") [] world0 = (Val out, w') /\
    exists evs rows,
      trace w' = trace world0 ++ evs /\
      calls w' = (calls world0 + count_calls evs)%nat /\
      out = [] ++ rows /\
      Forall2 (normalised_from (VStr "profile"))
              (pages_served around_january (calls world0) evs) rows.
Proof.
  split; [vm_compute; reflexivity |].
  eexists. eexists. split; [vm_compute; reflexivity |].
  eapply (profiles_posts_keeps_page_order around_january graph_to_datetime plain_repr 5
            (add_timezone jan_1_2020) (add_timezone jan_31_2020) 1000 false
            (VStr "profile") [] _ world0).
  vm_compute. reflexivity.
Defined.

(** X22.  Whenever the loop body of [posts_comments] completes for an id,
    the rows it adds are the stamped comments of the pages the remote served
    for it during the run, in the order served, and then the same comments
    once more: [elements] is extended by the very list [paginate_elements]
    returns.  The id adds twice as many rows as comments were served. *)
Lemma posts_comments_body_doubles :
  forall (remote : nat -> request -> response) (fuel : nat) (n : Z) (i : value)
         (comments out : list value) (w w' : world),
    posts_comments_body remote fuel n i comments w = (Val out, w') ->
    exists evs rows,
      trace w' = trace w ++ evs /\
      calls w' = (calls w + count_calls evs)%nat /\
      transform_comments
        (pages_served remote (calls w) evs ++ pages_served remote (calls w) evs) i
      = Val rows /\
      out = comments ++ rows /\
      List.length rows = (2 * List.length (pages_served remote (calls w) evs))%nat.
Proof.
  intros remote fuel n i comments out w w' H. unfold posts_comments_body in H.
  apply bind_val in H. destruct H as [u0 [w0 [Hprint H]]].
  inversion Hprint; subst w0. clear Hprint.
  apply bind_val in H. destruct H as [elements [w1 [Hnew H]]].
  inversion Hnew; subst elements w1. clear Hnew.
  apply bind_val in H. destruct H as [connection [w2 [Hcall H]]].
  pose proof (keeps_heap_initial_comments _ _ _ _ _ _ Hcall) as Hheap.
  unfold get_post_comments_initial_call, rate_limit_sdk in Hcall.
  apply sdk_wrapper_serves in Hcall; [| reflexivity].
  cbn [heap calls trace] in Hheap. cbv beta iota in Hcall.
  assert (Hfirst : serves remote w w2 (data_items connection)).
  { eapply serves_nil_l; [| eapply serves_from_same;
                             [exact Hcall | reflexivity | reflexivity]].
    apply (serves_emit remote w (EvPrint i) (heap w)). exact I. }
  clear Hcall.
  destruct (returns_data connection) eqn:Hdata.
  - apply bind_val in H. destruct H as [data [w3 [Hd H]]].
    apply lift_val in Hd. destruct Hd as [Hd ->].
    apply bind_val in H. destruct H as [u1 [w4 [Hext H]]].
    unfold extend_value in Hext.
    apply bind_val in Hext. destruct Hext as [items [w5 [Hitems Hext]]].
    apply lift_val in Hitems. destruct Hitems as [Hitems ->].
    inversion Hext; subst w4. clear Hext.
    rewrite (data_items_of _ _ _ Hdata Hd Hitems) in Hfirst.
    apply bind_val in H. destruct H as [u2 [w6 [Hpage H]]].
    apply bind_val in Hpage. destruct Hpage as [page [w7 [Hpage Hself]]].
    pose proof Hpage as Hpage'.
    apply comments_paginate_result in Hpage'. destruct Hpage' as [Hobj Hlen].
    cbn [heap] in Hlen. rewrite length_update_nth, Hheap, length_app in Hlen.
    cbn [List.length] in Hlen.
    apply comments_paginate_serves in Hpage;
      [| cbn [heap]; rewrite length_update_nth, Hheap, length_app; cbn; lia].
    destruct Hpage as [pages [Hpages Hnth]].
    cbn [heap] in Hnth.
    rewrite nth_update_nth_same in Hnth by (rewrite Hheap, length_app; cbn; lia).
    rewrite Hheap, nth_app_new in Hnth. cbn [app] in Hnth.
    destruct Hobj as [-> | ->]; [discriminate |].
    unfold extend_obj, iter_obj in Hself.
    apply bind_val in Hself. destruct Hself as [cur [w8 [Hcur Hself]]].
    inversion Hcur; subst cur w8. clear Hcur.
    inversion Hself; subst w6. clear Hself.
    apply bind_val in H. destruct H as [collected [w9 [Hread H]]].
    inversion Hread; subst collected w9. clear Hread.
    apply bind_val in H. destruct H as [rows [w10 [Hrows H]]].
    apply lift_val in Hrows. destruct Hrows as [Hrows ->].
    inversion H; subst out w'. clear H.
    cbn [heap] in Hrows.
    rewrite nth_update_nth_same in Hrows by lia.
    rewrite Hnth in Hrows.
    assert (Hall : serves remote w w7 (items ++ pages)).
    { eapply serves_trans; [exact Hfirst |].
      eapply serves_from_same; [exact Hpages | reflexivity | reflexivity]. }
    destruct Hall as [evs [Htrace [Hcalls Hserved]]].
    exists evs, rows. rewrite Hserved. cbn [trace calls].
    repeat split; try assumption.
    apply omap_val in Hrows. apply Forall2_length in Hrows.
    rewrite <- Hrows, length_app. lia.
  - inversion H; subst out w'. clear H.
    rewrite (data_items_no_data _ Hdata) in Hfirst.
    destruct Hfirst as [evs [Htrace [Hcalls Hserved]]].
    exists evs, []. rewrite Hserved, !app_nil_r.
    repeat split; try assumption; reflexivity.
Qed.

Lemma posts_comments_body_doubles_witness :
  pages_served two_comments 0
    (trace (snd (posts_comments_body two_comments 1 default_n (VStr "post") [] world0)))
  = [comment "c1" 1; comment "c2" 0] /\
  exists out w',
    posts_comments_body two_comments 1 default_n (VStr "post") [] world0 = (Val out, w') /\
    out = [stamped "post" (comment "c1" 1); stamped "post" (comment "c2" 0);
           stamped "post" (comment "c1" 1); stamped "post" (comment "c2" 0)] /\
    exists evs rows,
      trace w' = trace world0 ++ evs /\
      calls w' = (calls world0 + count_calls evs)%nat /\
      transform_comments
        (pages_served two_comments (calls world0) evs
         ++ pages_served two_comments (calls world0) evs) (VStr "post")
      = Val rows /\
      out = [] ++ rows /\
      List.length rows
      = (2 * List.length (pages_served two_comments (calls world0) evs))%nat.
Proof.
  split; [vm_compute; reflexivity |].
  eexists. eexists. split; [vm_compute; reflexivity |].
  split; [vm_compute; reflexivity |].
  eapply (posts_comments_body_doubles two_comments 1 default_n (VStr "post") [] _ world0).
  vm_compute. reflexivity.
Defined.
